(** * Slider CAPTCHA service: risk analyzer, Proof-of-Work gate and
      verification coordinator

    A shallow embedding of [captcha-service/fingerprint.py] and of the
    PoW / verification / keyframe parts of [captcha-service/main.py],
    with the properties the specification states about them.

    Conventions of the embedding.
    - A Python [str] is a [string]; a character stands for the code point
      of the same number (0..255).  [encode()] is UTF-8 on that range.
    - A Python [int] is a [Z].
    - A Python [float] is a finite value, written as a rational [Q];
      arithmetic on it is exact, and NaN and the infinities are not
      represented.  [int(x)] on a float truncates toward zero.
      Module [Binary64] has the analyzer and the coordinator again on
      the binary64 floats, with their rounding, NaN, the infinities and
      the exceptions they bring; what depends on these is stated there.
    - A dict used as a store is a [gmap].
    - A call that raises returns [Raised] with the name of the exception. *)

From Stdlib Require Import ZArith QArith Qround Qabs Qminmax Lqa String Ascii List Lia Bool.
From Stdlib Require Import DecimalString DecimalPos DecimalZ.
From Stdlib Require Floats.
From stdpp Require Import gmap strings list sorting.

Local Open Scope string_scope.
Local Open Scope Z_scope.
Local Open Scope list_scope.

(** ** Python primitives *)

Module Py.

Inductive outcome (A : Type) : Type :=
| Returned (a : A)
| Raised (exc : string).
Arguments Returned {A} a.
Arguments Raised {A} exc.

Definition bind {A B} (m : outcome A) (k : A -> outcome B) : outcome B :=
  match m with
  | Returned a => k a
  | Raised e => Raised e
  end.

(** [int(x)] for a float [x]: truncation toward zero. *)
Definition int_of_float (x : Q) : Z := Z.quot (Qnum x) (Z.pos (Qden x)).

(** [str(n)] and the rendering of an int inside an f-string. *)
Definition str_of_int (n : Z) : string :=
  DecimalString.NilZero.string_of_int (Z.to_int n).

Definition code (c : ascii) : Z := Z.of_N (N_of_ascii c).
Definition chr (n : Z) : ascii := ascii_of_N (Z.to_N n).

Definition is_ascii_char (c : ascii) : bool := code c <? 128.

Definition isascii (s : string) : bool :=
  forallb is_ascii_char (list_ascii_of_string s).

(** [s.encode()]: UTF-8; code points 128..255 take two bytes. *)
Definition encode_char (c : ascii) : list Z :=
  let n := code c in
  if n <? 128 then [n]
  else [Z.lor 192 (Z.shiftr n 6); Z.lor 128 (Z.land n 63)].

Definition encode (s : string) : list Z :=
  flat_map encode_char (list_ascii_of_string s).

(** [s.encode("ascii")]: raises on a character outside ASCII. *)
Definition encode_ascii (s : string) : outcome (list Z) :=
  if isascii s then Returned (map code (list_ascii_of_string s))
  else Raised "UnicodeEncodeError".

(** [bytes.hex()]: two lowercase hex digits per byte. *)
Definition hex_digit (n : Z) : ascii :=
  nth (Z.to_nat (n mod 16)) (list_ascii_of_string "0123456789abcdef") "0"%char.

Definition hex_of_byte (b : Z) : list ascii :=
  [hex_digit (b / 16); hex_digit b].

Definition hex (bs : list Z) : string :=
  string_of_list_ascii (flat_map hex_of_byte bs).

(** [hmac.compare_digest(a, b)] on two [str]: both must be ASCII. *)
Definition compare_digest (a b : string) : outcome bool :=
  if isascii a && isascii b then Returned (String.eqb a b)
  else Raised "TypeError".

(** *** Values of a JSON body, strings and numbers *)

(** A JSON value held in the fingerprint dict.  The analyzer looks at such
    a value in two ways only, its truth value and [str()] of it; a float,
    a list or a dict is given here by these two. *)
Inductive pyval :=
| PyNone
| PyBool (b : bool)
| PyInt (n : Z)
| PyStr (s : string)
| PyOther (truth : bool) (rendering : string).

Definition truthy (v : pyval) : bool :=
  match v with
  | PyNone => false
  | PyBool b => b
  | PyInt n => negb (n =? 0)
  | PyStr s => negb (String.eqb s "")
  | PyOther t _ => t
  end.

Definition str (v : pyval) : string :=
  match v with
  | PyNone => "None"
  | PyBool true => "True"
  | PyBool false => "False"
  | PyInt n => str_of_int n
  | PyStr s => s
  | PyOther _ r => r
  end.

(** [d.get(key)] *)
Definition get (d : gmap string pyval) (key : string) : pyval :=
  match d !! key with
  | Some v => v
  | None => PyNone
  end.

(** [v or ""] *)
Definition or_empty (v : pyval) : pyval := if truthy v then v else PyStr "".

(** [s.lower()] on code points 0..255. *)
Definition lower_char (c : ascii) : ascii :=
  let n := code c in
  if ((65 <=? n) && (n <=? 90)) || ((192 <=? n) && (n <=? 222) && negb (n =? 215))
  then chr (n + 32) else c.

Definition lower (s : string) : string :=
  string_of_list_ascii (map lower_char (list_ascii_of_string s)).

(** [s.split(sep, 1)]: [None] when [sep] does not occur (a list of one
    element), else the parts before and after its first occurrence. *)
Fixpoint split_once (sep : ascii) (s : string) : option (string * string) :=
  match s with
  | EmptyString => None
  | String c rest =>
      if Ascii.eqb c sep then Some (EmptyString, rest)
      else match split_once sep rest with
           | Some (a, b) => Some (String c a, b)
           | None => None
           end
  end.

(** [int(s)] for a string, base 10: surrounding whitespace, one optional
    sign, digits with single underscores between them; [None] stands for
    ValueError.  The interpreter's cap on the number of digits is left
    out. *)
Definition is_space (c : ascii) : bool :=
  let n := code c in
  ((9 <=? n) && (n <=? 13)) || ((28 <=? n) && (n <=? 32)) || (n =? 133) || (n =? 160).

Fixpoint lstrip (cs : list ascii) : list ascii :=
  match cs with
  | c :: rest => if is_space c then lstrip rest else cs
  | [] => []
  end.

Definition strip (cs : list ascii) : list ascii := rev (lstrip (rev (lstrip cs))).

Definition digit_value (c : ascii) : option Z :=
  let n := code c in
  if (48 <=? n) && (n <=? 57) then Some (n - 48) else None.

Fixpoint parse_digits (cs : list ascii) (acc : Z) (after_digit : bool) : option Z :=
  match cs with
  | [] => if after_digit then Some acc else None
  | c :: rest =>
      match digit_value c with
      | Some d => parse_digits rest (acc * 10 + d) true
      | None =>
          if Ascii.eqb c "_" && after_digit then parse_digits rest acc false
          else None
      end
  end.

Definition int_of_str (s : string) : option Z :=
  match strip (list_ascii_of_string s) with
  | c :: rest =>
      if Ascii.eqb c "-" then option_map Z.opp (parse_digits rest 0 false)
      else if Ascii.eqb c "+" then parse_digits rest 0 false
      else parse_digits (c :: rest) 0 false
  | [] => None
  end.

(** Float arithmetic used by the analyzer. *)
Definition Qlt_bool (a b : Q) : bool := negb (Qle_bool b a).

Definition sum (l : list Q) : Q := fold_left Qplus l (0 # 1).

Definition len {A} (l : list A) : Z := Z.of_nat (length l).

End Py.

Import Py.

(** ** SHA-256 (FIPS 180-4) and HMAC (RFC 2104), as [hashlib.sha256] and
       [hmac.new(key, msg, hashlib.sha256)] compute them *)

Module Sha256.

Definition wrap32 (x : Z) : Z := x mod 4294967296.
Definition add32 (x y : Z) : Z := wrap32 (x + y).
Definition rotr (n x : Z) : Z :=
  wrap32 (Z.lor (Z.shiftr x n) (Z.shiftl x (32 - n))).
Definition not32 (x : Z) : Z := Z.lxor x 4294967295.

Definition Ch (x y z : Z) : Z := Z.lxor (Z.land x y) (Z.land (not32 x) z).
Definition Maj (x y z : Z) : Z :=
  Z.lxor (Z.lxor (Z.land x y) (Z.land x z)) (Z.land y z).
Definition Sigma0 (x : Z) : Z := Z.lxor (Z.lxor (rotr 2 x) (rotr 13 x)) (rotr 22 x).
Definition Sigma1 (x : Z) : Z := Z.lxor (Z.lxor (rotr 6 x) (rotr 11 x)) (rotr 25 x).
Definition sigma0 (x : Z) : Z := Z.lxor (Z.lxor (rotr 7 x) (rotr 18 x)) (Z.shiftr x 3).
Definition sigma1 (x : Z) : Z := Z.lxor (Z.lxor (rotr 17 x) (rotr 19 x)) (Z.shiftr x 10).

(** The round constants are the first 32 bits of the fractional parts of
    the cube roots of the first 64 primes, the initial hash value those of
    the square roots of the first 8. *)
Definition is_prime (n : nat) : bool :=
  forallb (fun d => negb (Nat.eqb (Nat.modulo n d) 0)) (seq 2 (n - 2)).

Definition primes : list Z :=
  Eval vm_compute in map Z.of_nat (List.filter is_prime (seq 2 310)).

Fixpoint cube_root (bit : nat) (x r : Z) : Z :=
  match bit with
  | O => r
  | S bit' =>
      let c := r + 2 ^ Z.of_nat bit' in
      cube_root bit' x (if c * c * c <=? x then c else r)
  end.

Definition K : list Z :=
  Eval vm_compute in
    map (fun p => wrap32 (cube_root 40 (p * 2 ^ 96) 0)) primes.

Record words8 := W8 { wa : Z; wb : Z; wc : Z; wd : Z; we : Z; wf : Z; wg : Z; wh : Z }.

Definition root_bits (p : Z) : Z := wrap32 (Z.sqrt (p * 2 ^ 64)).

Definition H0 : words8 :=
  Eval vm_compute in
    W8 (root_bits 2) (root_bits 3) (root_bits 5) (root_bits 7)
       (root_bits 11) (root_bits 13) (root_bits 17) (root_bits 19).

(** Padding: a 1 bit, zeros up to 56 mod 64, the bit length on 8 bytes. *)
Definition be_bytes (n : nat) (x : Z) : list Z :=
  map (fun i => Z.shiftr x (8 * Z.of_nat i) mod 256) (rev (seq 0 n)).

Definition pad (msg : list Z) : list Z :=
  let len := Z.of_nat (length msg) in
  msg ++ [128] ++ repeat 0 (Z.to_nat ((55 - len) mod 64)) ++ be_bytes 8 (8 * len).

Definition word_of_bytes (bs : list Z) : Z :=
  fold_left (fun acc b => acc * 256 + b) bs 0.

Fixpoint words_of_bytes (fuel : nat) (bs : list Z) : list Z :=
  match fuel, bs with
  | S f, _ :: _ => word_of_bytes (firstn 4 bs) :: words_of_bytes f (skipn 4 bs)
  | _, _ => []
  end.

(** The message schedule, most recent word first while it is built. *)
Fixpoint schedule (n : nat) (rw : list Z) : list Z :=
  match n with
  | O => rw
  | S n' =>
      let w := add32 (add32 (sigma1 (nth 1 rw 0)) (nth 6 rw 0))
                     (add32 (sigma0 (nth 14 rw 0)) (nth 15 rw 0)) in
      schedule n' (w :: rw)
  end.

Definition round (s : words8) (kw : Z * Z) : words8 :=
  let t1 := add32 (add32 (add32 (wh s) (Sigma1 (we s))) (Ch (we s) (wf s) (wg s)))
                  (add32 (fst kw) (snd kw)) in
  let t2 := add32 (Sigma0 (wa s)) (Maj (wa s) (wb s) (wc s)) in
  W8 (add32 t1 t2) (wa s) (wb s) (wc s) (add32 (wd s) t1) (we s) (wf s) (wg s).

Definition compress (h : words8) (block : list Z) : words8 :=
  let w := rev (schedule 48 (rev block)) in
  let s := fold_left round (combine K w) h in
  W8 (add32 (wa h) (wa s)) (add32 (wb h) (wb s)) (add32 (wc h) (wc s))
     (add32 (wd h) (wd s)) (add32 (we h) (we s)) (add32 (wf h) (wf s))
     (add32 (wg h) (wg s)) (add32 (wh h) (wh s)).

Fixpoint blocks (fuel : nat) (h : words8) (ws : list Z) : words8 :=
  match fuel, ws with
  | S f, _ :: _ => blocks f (compress h (firstn 16 ws)) (skipn 16 ws)
  | _, _ => h
  end.

Definition digest_of (h : words8) : list Z :=
  flat_map (be_bytes 4) [wa h; wb h; wc h; wd h; we h; wf h; wg h; wh h].

Definition sha256 (msg : list Z) : list Z :=
  let p := pad msg in
  let ws := words_of_bytes (length p) p in
  digest_of (blocks (length ws) H0 ws).

(** [hmac.new(key, msg, hashlib.sha256).digest()], block size 64. *)
Definition hmac_sha256 (key msg : list Z) : list Z :=
  let k := if (64 <? Z.of_nat (length key)) then sha256 key else key in
  let k := k ++ repeat 0 (64 - length k)%nat in
  sha256 (map (Z.lxor 0x5c) k ++ sha256 (map (Z.lxor 0x36) k ++ msg)).

End Sha256.

(** ** Proof-of-Work: issuing and verifying challenges (main.py) *)

Module PoW.

(** The signature of [solve_challenge] in the native solver library:
    salt bytes, difficulty, start nonce, iterations, all [c_int]. *)
Definition solve_challenge_t : Type := list Z -> Z -> Z -> Z -> Z.

(** What the module reads once at import time: the HMAC key (an
    environment variable with a default) and the native solver, [None]
    when the shared library has not been built. *)
Record pow_env := PowEnv {
  POW_SERVER_SECRET : string;
  _native_solver : option solve_challenge_t;
}.

Definition DEFAULT_POW_SECRET : string :=
  "c3ab8ff13720e8ad9047dd39466b3c89" +:+ "74e592c2fa383d4a3960714caef0c4f2".

Definition POW_CHALLENGE_TTL : Z := 300.

Record pow_challenge := PowChallenge {
  salt : string;
  difficulty : Z;
  timestamp : Z;
  signature : string;
}.

(** [f"{salt}.{difficulty}.{timestamp}"] *)
Definition canonical_payload (salt : string) (difficulty timestamp : Z) : string :=
  salt +:+ "." +:+ str_of_int difficulty +:+ "." +:+ str_of_int timestamp.

(** [hmac.new(POW_SERVER_SECRET.encode(), payload.encode(), hashlib.sha256).hexdigest()] *)
Definition hmac_hexdigest (secret payload : string) : string :=
  Py.hex (Sha256.hmac_sha256 (Py.encode secret) (Py.encode payload)).

(** [generate_pow_challenge]; [urandom] is what [os.urandom(16)] returns
    and [now] what [time.time()] returns. *)
Definition generate_pow_challenge (env : pow_env) (difficulty : Z)
    (urandom : list Z) (now : Q) : pow_challenge :=
  let salt := Py.hex urandom in
  let timestamp := int_of_float now in
  let payload := canonical_payload salt difficulty timestamp in
  let signature := hmac_hexdigest (POW_SERVER_SECRET env) payload in
  PowChallenge salt difficulty timestamp signature.

(** A Python int handed to a [c_int] parameter, and a [c_int] result:
    the low 32 bits, read as signed. *)
Definition c_int (x : Z) : Z := (x + 2147483648) mod 4294967296 - 2147483648.

(** [_verify_pow_nonce] *)
Definition _verify_pow_nonce (env : pow_env) (salt : string)
    (difficulty nonce : Z) : outcome bool :=
  match _native_solver env with
  | None => Raised "RuntimeError"
  | Some solve_challenge =>
      Py.bind (Py.encode_ascii salt) (fun salt_bytes =>
        let result := c_int (solve_challenge salt_bytes (c_int difficulty) (c_int nonce) 1) in
        Returned (result =? nonce))
  end.

(** [_purge_expired_nonces]; [now] is its reading of the clock. *)
Definition _purge_expired_nonces (now : Q) (pow_used_nonces : gmap string Q)
    : gmap string Q :=
  filter (fun kv => Qle_bool (snd kv) now = false) pow_used_nonces.

(** The three readings of [time.time()] one call of [verify_pow] makes,
    in program order. *)
Record verify_clock := VerifyClock {
  t_age : Q;    (* freshness check *)
  t_purge : Q;  (* inside _purge_expired_nonces *)
  t_burn : Q;   (* when the nonce is burned *)
}.

Definition replay_key (salt : string) (nonce : Z) : string :=
  salt +:+ ":" +:+ str_of_int nonce.

(** [verify_pow]: the value returned ([None] on success, else the error
    string) or the exception raised, and the nonce ledger afterwards. *)
Definition verify_pow (env : pow_env) (pow_used_nonces : gmap string Q)
    (clk : verify_clock) (salt : string) (difficulty timestamp : Z)
    (signature : string) (nonce : Z)
    : outcome (option string) * gmap string Q :=
  let payload := canonical_payload salt difficulty timestamp in
  let expected_sig := hmac_hexdigest (POW_SERVER_SECRET env) payload in
  match Py.compare_digest signature expected_sig with
  | Raised e => (Raised e, pow_used_nonces)
  | Returned false => (Returned (Some "Invalid PoW signature."), pow_used_nonces)
  | Returned true =>
      let age := int_of_float (t_age clk) - timestamp in
      if (age <? 0) || (age >? POW_CHALLENGE_TTL) then
        (Returned (Some "PoW challenge expired."), pow_used_nonces)
      else
        let purged := _purge_expired_nonces (t_purge clk) pow_used_nonces in
        let key := replay_key salt nonce in
        match purged !! key with
        | Some _ => (Returned (Some "PoW nonce already used."), purged)
        | None =>
            match _verify_pow_nonce env salt difficulty nonce with
            | Raised e => (Raised e, purged)
            | Returned false =>
                (Returned (Some "PoW nonce does not satisfy difficulty target."), purged)
            | Returned true =>
                (Returned None,
                 <[key := (t_burn clk + inject_Z POW_CHALLENGE_TTL)%Q]> purged)
            end
        end
  end.

(** One call of [verify_pow] as a client presents it, with the clock
    readings the call makes. *)
Record pow_call := PowCall {
  call_clock : verify_clock;
  call_salt : string;
  call_difficulty : Z;
  call_timestamp : Z;
  call_signature : string;
  call_nonce : Z;
}.

(** A sequence of calls on the shared ledger: the results in order. *)
Fixpoint run_calls (env : pow_env) (pow_used_nonces : gmap string Q)
    (calls : list pow_call) : list (outcome (option string)) :=
  match calls with
  | [] => []
  | c :: rest =>
      let r := verify_pow env pow_used_nonces (call_clock c) (call_salt c)
                 (call_difficulty c) (call_timestamp c) (call_signature c)
                 (call_nonce c) in
      fst r :: run_calls env (snd r) rest
  end.

(** Modelled from the spec: the rendering of a nonce for hashing,
    lowercase hex without padding, of the 32-bit nonce. *)
Fixpoint hex_digits (fuel : nat) (n : Z) (acc : list ascii) : list ascii :=
  match fuel with
  | O => acc
  | S f =>
      let acc' := Py.hex_digit n :: acc in
      if n / 16 =? 0 then acc' else hex_digits f (n / 16) acc'
  end.

Definition nonce_hex (nonce : Z) : string :=
  string_of_list_ascii (hex_digits 8 (Sha256.wrap32 nonce) []).

(** Modelled from the spec: the count of leading zero bits of a digest,
    8 per leading zero byte plus the leading zeros of the first non-zero
    byte. *)
Definition clz8 (b : Z) : Z := 8 - Z.log2 b - 1.

Fixpoint leading_zero_bits (digest : list Z) : Z :=
  match digest with
  | [] => 0
  | b :: rest => if b =? 0 then 8 + leading_zero_bits rest else clz8 b
  end.

(** Modelled from the spec: the PoW hash, SHA-256 of the salt, ".", and
    the nonce in hex; a nonce passes when the hash has at least
    [difficulty] leading zero bits. *)
Definition pow_hash (salt_bytes : list Z) (nonce : Z) : list Z :=
  Sha256.sha256 (salt_bytes ++ Py.encode "." ++ Py.encode (nonce_hex nonce)).

Definition nonce_passes (salt_bytes : list Z) (difficulty nonce : Z) : bool :=
  difficulty <=? leading_zero_bits (pow_hash salt_bytes nonce).

(** Modelled from the spec: the native solver [solve_challenge] of
    wasm/solver.c, a C file outside the Python sources embedded here.  It
    tries [iterations] nonces from [start_nonce] and returns the first that
    passes; -1 stands for what it returns when none does. *)
Fixpoint solve_from (salt_bytes : list Z) (difficulty : Z) (n : Z) (iterations : nat) : Z :=
  match iterations with
  | O => -1
  | S k =>
      if nonce_passes salt_bytes difficulty n then n
      else solve_from salt_bytes difficulty (n + 1) k
  end.

Definition reference_solver : solve_challenge_t :=
  fun salt_bytes difficulty start_nonce iterations =>
    solve_from salt_bytes difficulty start_nonce (Z.to_nat iterations).

(** The default key with the reference solver loaded. *)
Definition reference_env : pow_env :=
  PowEnv DEFAULT_POW_SECRET (Some reference_solver).

End PoW.

Import PoW.

(** ** Behavioural risk analysis (fingerprint.py) *)

Module Fingerprint.

Record TrajectoryPoint := mkTrajectoryPoint {
  tp_timestamp : Z;
  value : Q;
  delta : Q;
  velocity : Q;
  time_delta_ms : Z;
}.

Record BehaviorData := mkBehaviorData {
  start_time : Z;
  end_time : Z;
  total_duration_ms : Z;
  event_count : Z;
  mouse_down_count : Z;
  mouse_move_count : Z;
  events : list (gmap string pyval);
}.

Record CaptchaSession := mkCaptchaSession {
  solved_value : Z;
  fingerprint : option (gmap string pyval);
  trajectory : option (list TrajectoryPoint);
  behavior : option BehaviorData;
}.

Record risk_details := mkDetails {
  fingerprint_present : bool;
  trajectory_points : Z;
  details_total_duration_ms : Z;
  movement_events : Z;
}.

(** The dict [analyze_bot_risk] returns. *)
Record risk_result := mkRisk {
  is_bot : bool;
  confidence_score : Z;
  flags : list string;
  details : risk_details;
}.

(** The two locals [flags] and [score] that the rules update. *)
Definition risk_state : Type := list string * Z.

(** [flags.append(name); score -= points] *)
Definition flag (name : string) (points : Z) (st : risk_state) : risk_state :=
  (fst st ++ [name], snd st - points).

(** A rule that fires under a condition. *)
Definition when (cond : bool) (rule : risk_state -> risk_state)
    (st : risk_state) : risk_state :=
  if cond then rule st else st.

(** The [try] block around the screen resolution: [true] when the flag
    is raised, in the block or in its [except] handler. *)
Definition screen_resolution_invalid (screen_resolution : string) : bool :=
  match Py.split_once "x" (Py.lower screen_resolution) with
  | Some (w, h) =>
      match Py.int_of_str w, Py.int_of_str h with
      | Some screen_w, Some screen_h => (screen_w <=? 0) || (screen_h <=? 0)
      | _, _ => true
      end
  | None => true
  end.

Definition fingerprint_rules (fp : gmap string pyval) (st : risk_state) : risk_state :=
  let user_agent := Py.str (Py.or_empty (Py.get fp "user_agent")) in
  let st := when (Py.len (list_ascii_of_string user_agent) <? 20)
                 (flag "suspicious_user_agent" 20) st in
  let screen_resolution := Py.str (Py.or_empty (Py.get fp "screen_resolution")) in
  let st := when (screen_resolution_invalid screen_resolution)
                 (flag "invalid_screen_resolution" 15) st in
  let st := when (Py.truthy (Py.get fp "webdriver"))
                 (flag "webdriver_detected" 35) st in
  let st := when (negb (Py.truthy (Py.get fp "timezone_name")))
                 (flag "missing_timezone" 5) st in
  let st := when (negb (Py.truthy (Py.get fp "canvas_fingerprint")))
                 (flag "missing_canvas_fingerprint" 10) st in
  st.

(** Population variance as the code computes it: the mean, then the
    mean of the squared deviations. *)
Definition variance (xs : list Q) : Q :=
  let mean := (Py.sum xs / inject_Z (Py.len xs))%Q in
  (Py.sum (map (fun v => ((v - mean) * (v - mean))%Q) xs) / inject_Z (Py.len xs))%Q.

Definition trajectory_rules (traj : list TrajectoryPoint) (st : risk_state) : risk_state :=
  let velocities := map velocity (filter (fun p => 0 < time_delta_ms p) traj) in
  let st :=
    match velocities with
    | [] => st
    | _ => when (Py.Qlt_bool (variance velocities) (3 # 1000))
                (flag "linear_velocity_pattern" 20) st
    end in
  let non_zero_deltas :=
    map (fun p => Qabs (delta p)) (filter (fun p => Qeq_bool (delta p) 0 = false) traj) in
  let st :=
    match non_zero_deltas with
    | [] => st
    | _ => when (Py.Qlt_bool (variance non_zero_deltas) (2 # 10)
                 && (4 <=? Py.len non_zero_deltas))
                (flag "uniform_delta_pattern" 15) st
    end in
  let unique_values : gset Z := list_to_set (map (fun p => Py.int_of_float (value p)) traj) in
  let st := when (Z.of_nat (size unique_values) <? 4)
                 (flag "low_slider_entropy" 15) st in
  let time_deltas := filter (fun d => 0 < d) (map time_delta_ms traj) in
  let st :=
    match time_deltas with
    | [] => st
    | _ =>
        let pauses := filter (fun d => 120 <= d) time_deltas in
        when (Py.len pauses =? 0) (flag "no_movement_pauses" 15) st
    end in
  st.

Definition behavior_rules (b : BehaviorData) (st : risk_state) : risk_state :=
  let duration := total_duration_ms b in
  let st :=
    if duration <=? 0 then flag "invalid_behavior_duration" 20 st
    else if duration <? 300 then flag "suspiciously_fast" 25 st
    else if duration <? 700 then flag "very_fast" 10 st
    else if duration >? 45000 then flag "suspiciously_slow" 10 st
    else st in
  let st := when (mouse_down_count b <? 1) (flag "missing_mousedown" 10) st in
  let st :=
    if mouse_move_count b <? 3 then flag "insufficient_mouse_movement" 20 st
    else if mouse_move_count b <? 8 then flag "limited_mouse_movement" 10 st
    else st in
  let st := when (event_count b <? 3) (flag "low_event_count" 10) st in
  st.

(** [if session.fingerprint:] an absent or an empty dict is falsy. *)
Definition fingerprint_part (s : CaptchaSession) (st : risk_state) : risk_state :=
  match fingerprint s with
  | Some fp =>
      if negb (Nat.eqb (size fp) 0) then fingerprint_rules fp st
      else flag "missing_fingerprint" 30 st
  | None => flag "missing_fingerprint" 30 st
  end.

(** [if session.trajectory and len(session.trajectory) >= 4:] *)
Definition trajectory_part (s : CaptchaSession) (st : risk_state) : risk_state :=
  match trajectory s with
  | Some traj =>
      if negb (Py.len traj =? 0) && (4 <=? Py.len traj) then trajectory_rules traj st
      else flag "insufficient_trajectory_data" 30 st
  | None => flag "insufficient_trajectory_data" 30 st
  end.

(** [if session.behavior:] a dataclass instance is always truthy. *)
Definition behavior_part (s : CaptchaSession) (st : risk_state) : risk_state :=
  match behavior s with
  | Some b => behavior_rules b st
  | None => flag "missing_behavior_data" 25 st
  end.

(** The locals [flags], [score] when the rules are done, before the clamp. *)
Definition run_rules (s : CaptchaSession) : risk_state :=
  behavior_part s (trajectory_part s (fingerprint_part s ([], 100))).

Definition analyze_bot_risk (session : CaptchaSession) : risk_result :=
  let st := run_rules session in
  let score := Z.max 0 (Z.min 100 (snd st)) in
  let is_bot := score <? 60 in
  {| is_bot := is_bot;
     confidence_score := score;
     flags := fst st;
     details :=
       {| fingerprint_present :=
            match fingerprint session with Some _ => true | None => false end;
          trajectory_points :=
            match trajectory session with
            | Some traj => if negb (Py.len traj =? 0) then Py.len traj else 0
            | None => 0
            end;
          details_total_duration_ms :=
            match behavior session with Some b => total_duration_ms b | None => 0 end;
          movement_events :=
            match behavior session with Some b => mouse_move_count b | None => 0 end |} |}.

(** The flags the rules can raise, in program order, each with the points
    its rule subtracts. *)
Definition rule_table : list (string * Z) :=
  [ ("suspicious_user_agent", 20); ("invalid_screen_resolution", 15);
    ("webdriver_detected", 35); ("missing_timezone", 5);
    ("missing_canvas_fingerprint", 10); ("missing_fingerprint", 30);
    ("linear_velocity_pattern", 20); ("uniform_delta_pattern", 15);
    ("low_slider_entropy", 15); ("no_movement_pauses", 15);
    ("insufficient_trajectory_data", 30);
    ("invalid_behavior_duration", 20); ("suspiciously_fast", 25);
    ("very_fast", 10); ("suspiciously_slow", 10); ("missing_mousedown", 10);
    ("insufficient_mouse_movement", 20); ("limited_mouse_movement", 10);
    ("low_event_count", 10); ("missing_behavior_data", 25) ].

Definition points_of (name : string) : Z :=
  foldr (fun kv acc => if String.eqb name (fst kv) then snd kv else acc) 0 rule_table.

Definition total_points (names : list string) : Z :=
  foldr (fun name acc => points_of name + acc) 0 names.

(** The dict [compute_pow_difficulty] returns. *)
Record pow_difficulty := mkPowDifficulty {
  pd_difficulty : Z;
  risk_level : string;
  score : Z;
  pd_flags : list string;
}.

Definition compute_pow_difficulty (fingerprint : option (gmap string pyval))
    (trajectory : option (list TrajectoryPoint)) (behavior : option BehaviorData)
    : pow_difficulty :=
  let session := mkCaptchaSession 0 fingerprint trajectory behavior in
  let result := analyze_bot_risk session in
  let score := confidence_score result in
  let '(risk_level, difficulty) :=
    if 70 <=? score then ("low", 15)
    else if 40 <=? score then ("medium", 19)
    else ("high", 22) in
  {| pd_difficulty := difficulty;
     risk_level := risk_level;
     score := score;
     pd_flags := flags result |}.

End Fingerprint.

Import Fingerprint.

(** ** Keyframe positions (main.py) *)

Module Keyframes.

Definition MIN_GAP : Z := 8.

(** [all(positions[i + 1] - positions[i] >= MIN_GAP
         for i in range(len(positions) - 1))] *)
Definition gaps_ok (positions : list Z) : bool :=
  forallb (fun i => MIN_GAP <=? nth (S i) positions 0 - nth i positions 0)
          (seq 0 (length positions - 1)).

(** The retry loop.  [samples k] is what the call of
    [random.sample(range(1, 100), num_interior)] in iteration [k] returns;
    [None] when the loop ends without a [return]. *)
Fixpoint retry (samples : nat -> list Z) (k : nat) (remaining : nat)
    : option (list Z) :=
  match remaining with
  | O => None
  | S remaining' =>
      let interior := merge_sort Z.le (samples k) in
      let positions := [0] ++ interior ++ [100] in
      if gaps_ok positions then Some positions
      else retry samples (S k) remaining'
  end.

(** [step * i for i in range(1, num_interior + 1)] *)
Definition fallback (num_interior : Z) : list Z :=
  let step := 100 / (num_interior + 1) in
  [0] ++ map (fun i => step * Z.of_nat i) (seq 1 (Z.to_nat num_interior)) ++ [100].

(** [_generate_keyframe_positions]; [num_interior] is what
    [random.randint(3, 5)] returns. *)
Definition _generate_keyframe_positions (num_interior : Z)
    (samples : nat -> list Z) : list Z :=
  match retry samples 0 200 with
  | Some positions => positions
  | None => fallback num_interior
  end.

End Keyframes.

Import Keyframes.

(** ** Verification coordinator (main.py, [verify_captcha]) *)

Module Service.

(** An entry of [video_captcha_sessions]; the feather mask, an image, is
    left out. *)
Record video_challenge := mkVideoChallenge {
  roi_true_x : Z;
  roi_true_y : Z;
  roi_start_x : Z;
  roi_start_y : Z;
  roi_size : Z;
  secret_target : Q;
  current_slider : Q;
}.

(** The module-level stores. *)
Record stores := mkStores {
  captcha_sessions : gmap string CaptchaSession;
  video_captcha_sessions : gmap string video_challenge;
  pow_used_nonces : gmap string Q;
}.

(** The JSON body of POST /verify-captcha, field by field; [None] is a key
    that is absent or null.  [parsed_trajectory] and [parsed_behavior] are
    what [parse_trajectory] and [parse_behavior] return on the body (they
    catch every exception), [body_fingerprint] is the fingerprint when it
    is a dict, [mode] is [str()] of the mode when the key is there, and
    the PoW numbers are taken after [int()]. *)
Record verify_body := mkBody {
  captcha_id : option string;
  slider_value : option Q;
  mode : option string;
  body_fingerprint : option (gmap string pyval);
  parsed_trajectory : list TrajectoryPoint;
  parsed_behavior : option BehaviorData;
  pow_salt : option string;
  pow_nonce : option Z;
  pow_difficulty : option Z;
  pow_timestamp : option Z;
  pow_signature : option string;
}.

(** The dict returned: [success] with [analysis] or with [error]. *)
Record response := mkResponse {
  success : bool;
  analysis : option risk_result;
  error : option string;
}.

Definition failure (msg : string) : response := mkResponse false None (Some msg).

(** The synthetic session of video mode. *)
Definition temp_session (target : Q) (fingerprint : option (gmap string pyval))
    (parsed_trajectory : list TrajectoryPoint)
    (parsed_behavior : option BehaviorData) : CaptchaSession :=
  {| solved_value := Py.int_of_float (target * inject_Z 1000)%Q;
     fingerprint := fingerprint;
     trajectory := Some parsed_trajectory;
     behavior := parsed_behavior |}.

(** The telemetry written into the session taken from the store. *)
Definition attach_telemetry (session : CaptchaSession)
    (fingerprint : option (gmap string pyval))
    (parsed_trajectory : list TrajectoryPoint)
    (parsed_behavior : option BehaviorData) : CaptchaSession :=
  {| solved_value := solved_value session;
     fingerprint := fingerprint;
     trajectory :=
       match parsed_trajectory with
       | [] => trajectory session
       | _ => Some parsed_trajectory
       end;
     behavior :=
       match parsed_behavior with
       | Some b => Some b
       | None => behavior session
       end |}.

(** Step 2 of [verify_captcha], video branch. *)
Definition verify_video (st : stores) (captcha_id : string) (slider_value : Q)
    (body : verify_body) : response * stores :=
  match video_captcha_sessions st !! captcha_id with
  | None => (failure "Invalid or expired captcha_id.", st)
  | Some challenge =>
      let submitted_val := Qmax 0 (Qmin 1 (slider_value / inject_Z 1000)) in
      let target := secret_target challenge in
      let session := temp_session target (body_fingerprint body)
                       (parsed_trajectory body) (parsed_behavior body) in
      let bot_analysis := analyze_bot_risk session in
      let slider_ok := Qle_bool (Qabs (target - submitted_val)) (3 # 100) in
      let success := slider_ok && negb (is_bot bot_analysis) in
      let st' :=
        if success
        then mkStores (captcha_sessions st)
                      (delete captcha_id (video_captcha_sessions st))
                      (pow_used_nonces st)
        else st in
      (mkResponse success (Some bot_analysis) None, st')
  end.

(** Step 2 of [verify_captcha], image branch. *)
Definition verify_image (st : stores) (captcha_id : string) (slider_value : Q)
    (body : verify_body) : response * stores :=
  let popped := captcha_sessions st !! captcha_id in
  let st' := mkStores (delete captcha_id (captcha_sessions st))
                      (video_captcha_sessions st) (pow_used_nonces st) in
  match popped with
  | None => (failure "Invalid or expired captcha_id.", st')
  | Some session =>
      let session := attach_telemetry session (body_fingerprint body)
                       (parsed_trajectory body) (parsed_behavior body) in
      let TOLERANCE := 3 in
      let puzzle_solved :=
        Qle_bool (Qabs (slider_value - inject_Z (solved_value session)))
                 (inject_Z TOLERANCE) in
      let bot_analysis := analyze_bot_risk session in
      let success := puzzle_solved && negb (is_bot bot_analysis) in
      (mkResponse success (Some bot_analysis) None, st')
  end.

(** [verify_captcha]: the response or the exception, and the stores
    afterwards.  [clk] holds the clock readings of its [verify_pow] call. *)
Definition verify_captcha (env : pow_env) (st : stores) (clk : verify_clock)
    (body : verify_body) : outcome response * stores :=
  let mode :=
    Py.lower (match mode body with Some m => m | None => "image" end) in
  match captcha_id body, slider_value body with
  | Some captcha_id, Some slider_value =>
      match pow_salt body, pow_nonce body, pow_difficulty body,
            pow_timestamp body, pow_signature body with
      | Some salt, Some nonce, Some difficulty, Some timestamp, Some signature =>
          let '(pow_error, ledger) :=
            verify_pow env (pow_used_nonces st) clk salt difficulty timestamp
                       signature nonce in
          let st := mkStores (captcha_sessions st) (video_captcha_sessions st)
                             ledger in
          match pow_error with
          | Raised e => (Raised e, st)
          | Returned (Some msg) => (Returned (failure msg), st)
          | Returned None =>
              let '(resp, st') :=
                if String.eqb mode "video"
                then verify_video st captcha_id slider_value body
                else verify_image st captcha_id slider_value body in
              (Returned resp, st')
          end
      | _, _, _, _, _ => (Returned (failure "Missing PoW fields."), st)
      end
  | _, _ => (Returned (failure "Missing captcha_id or slider_value."), st)
  end.

End Service.

Import Service.

(** ** Notions used in the statements *)

Module Notions.

Definition hex_alphabet : list ascii := list_ascii_of_string "0123456789abcdef".

(** The signature check of [verify_pow] lets the call through. *)
Definition signature_passes (env : pow_env) (salt : string)
    (difficulty timestamp : Z) (signature : string) : Prop :=
  Py.compare_digest signature
    (hmac_hexdigest (POW_SERVER_SECRET env)
       (canonical_payload salt difficulty timestamp)) = Returned true.

(** [reaches rnames st st']: from [st] the rules appended some of the
    names of [rnames] (kept latest first) in program order and subtracted
    their points, which gives [st']. *)
Definition reaches (rnames : list string) (st st' : risk_state) : Prop :=
  exists l, sublist l (rev rnames)
            /\ st' = (fst st ++ l, snd st - total_points l).

(** The request asks for video mode. *)
Definition is_video (body : verify_body) : bool :=
  String.eqb (Py.lower (match mode body with Some m => m | None => "image" end))
             "video".

(** The request carries a slider value and all PoW fields, and
    [verify_pow] returns [None] for them: [verify_captcha] goes on to the
    session lookup. *)
Definition pow_gate_passed (env : pow_env) (st : stores) (clk : verify_clock)
    (body : verify_body) : bool :=
  match slider_value body, pow_salt body, pow_nonce body, pow_difficulty body,
        pow_timestamp body, pow_signature body with
  | Some _, Some salt, Some nonce, Some difficulty, Some timestamp, Some signature =>
      match fst (verify_pow env (pow_used_nonces st) clk salt difficulty
                   timestamp signature nonce) with
      | Returned None => true
      | _ => false
      end
  | _, _, _, _, _, _ => false
  end.

(** Follows the words of the specification, "round(target * 1000)":
    the nearest integer, a tie going to the even one as Python's [round]
    does. *)
Definition round_nearest (x : Q) : Z :=
  let f := Qfloor x in
  let r := (x - inject_Z f)%Q in
  if Py.Qlt_bool r (1 # 2) then f
  else if Py.Qlt_bool (1 # 2) r then f + 1
  else if Z.even f then f else f + 1.

(** Positions one constant step apart. *)
Definition evenly_spaced (positions : list Z) : Prop :=
  exists step, forall i a b,
    positions !! i = Some a -> positions !! S i = Some b -> b - a = step.

End Notions.

Import Notions.

(** ** Sample data *)

Module Samples.

Definition demo_urandom : list Z := map Z.of_nat (seq 0 16).

(** A challenge issued at 1740000000.125 s with difficulty 15, and a nonce
    that solves it. *)
Definition demo_challenge : pow_challenge :=
  generate_pow_challenge reference_env 15 demo_urandom (13920000001 # 8).

Definition demo_nonce : Z := 2950.

Definition call_at (clk : verify_clock) : pow_call :=
  PowCall clk (salt demo_challenge) (difficulty demo_challenge)
          (timestamp demo_challenge) (signature demo_challenge) demo_nonce.

(** First presentation, a quarter of a second after the timestamp. *)
Definition first_clock : verify_clock :=
  VerifyClock (6960000001 # 4) (27840000005 # 16) (13920000003 # 8).

(** Second presentation, 300.5 s after the timestamp. *)
Definition replay_clock : verify_clock :=
  VerifyClock (3480000601 # 2) (27840004809 # 16) (13920002405 # 8).

Definition pt (v d vel : Q) (dt : Z) : TrajectoryPoint :=
  mkTrajectoryPoint 0 v d vel dt.

Definition human_fingerprint : gmap string pyval :=
  <["user_agent" := PyStr "Mozilla/5.0 (X11; Linux x86_64)"]>
  (<["screen_resolution" := PyStr "1920x1080"]>
  (<["webdriver" := PyBool false]>
  (<["timezone_name" := PyStr "Europe/Paris"]>
  (<["canvas_fingerprint" := PyStr "c4f3"]> ∅)))).

Definition human_trajectory : list TrajectoryPoint :=
  [ pt 0 0 0 0; pt 5 5 (1 # 2) 10; pt 12 7 (3 # 10) 150;
    pt 30 18 (9 # 10) 20; pt 42 12 (1 # 10) 16 ].

Definition human_behavior : BehaviorData := mkBehaviorData 0 2500 2500 18 1 15 [].

Definition human_session (solved : Z) : CaptchaSession :=
  mkCaptchaSession solved (Some human_fingerprint) (Some human_trajectory)
                   (Some human_behavior).

Definition empty_session (solved : Z) : CaptchaSession :=
  mkCaptchaSession solved None None None.

(** A request that presents the demo challenge with its nonce. *)
Definition demo_body (cid : string) (slider : Q) (m : option string) : verify_body :=
  {| captcha_id := Some cid;
     slider_value := Some slider;
     mode := m;
     body_fingerprint := Some human_fingerprint;
     parsed_trajectory := human_trajectory;
     parsed_behavior := Some human_behavior;
     pow_salt := Some (salt demo_challenge);
     pow_nonce := Some demo_nonce;
     pow_difficulty := Some (difficulty demo_challenge);
     pow_timestamp := Some (timestamp demo_challenge);
     pow_signature := Some (signature demo_challenge) |}.

(** The same request without its PoW fields. *)
Definition body_without_pow (cid : string) (slider : Q) : verify_body :=
  {| captcha_id := Some cid;
     slider_value := Some slider;
     mode := None;
     body_fingerprint := None;
     parsed_trajectory := [];
     parsed_behavior := None;
     pow_salt := None;
     pow_nonce := None;
     pow_difficulty := None;
     pow_timestamp := None;
     pow_signature := None |}.

(** The demo challenge presented 301 s after it was issued. *)
Definition late_clock : verify_clock :=
  VerifyClock (13920002409 # 8) (13920002409 # 8) (13920002409 # 8).

(** A session without fingerprint, otherwise human. *)
Definition no_fingerprint_session : CaptchaSession :=
  mkCaptchaSession 0 None (Some human_trajectory) (Some human_behavior).

(** Draws of [random.sample] that never pass the gap check. *)
Definition stuck_samples : nat -> list Z := fun _ => [1; 2; 3; 4; 5].

(** A scripted client: webdriver set, twenty evenly spaced samples,
    150 ms from start to end without a mouse move. *)
Definition bot_fingerprint : gmap string pyval :=
  <["webdriver" := PyBool true]> human_fingerprint.

Definition bot_trajectory : list TrajectoryPoint :=
  map (fun i => pt (inject_Z (5 * Z.of_nat i)) 5 (1 # 2) 10) (seq 1 20).

Definition bot_behavior : BehaviorData := mkBehaviorData 0 150 150 5 1 0 [].

Definition video_session_06 : stores :=
  mkStores ∅ {[ "vid-2" := mkVideoChallenge 10 20 30 40 216 (6 # 10) 0 ]} ∅.

Definition one_image_session : stores :=
  mkStores {[ "img-1" := mkCaptchaSession 42 None None None ]} ∅ ∅.

Definition one_video_session : stores :=
  mkStores ∅ {[ "vid-1" := mkVideoChallenge 10 20 30 40 216 (19 # 32) 0 ]} ∅.

Definition no_session : stores := mkStores ∅ ∅ ∅.

End Samples.

Import Samples.

(** ** Parsing the telemetry of a request (fingerprint.py) *)

Module Telemetry.

#[local] Set Warnings "-register-all".

(** A value decoded from the JSON body.  An object is kept as the list
    of its members; a key occurs once. *)
Inductive json :=
| JNull
| JBool (b : bool)
| JInt (n : Z)
| JFloat (x : Q)
| JStr (s : string)
| JList (items : list json)
| JDict (members : list (string * json)).

#[local] Set Warnings "register-all".

(** [d.get(key, default)] *)
Fixpoint dict_get (members : list (string * json)) (key : string) (default : json) : json :=
  match members with
  | [] => default
  | (k, v) :: rest => if String.eqb k key then v else dict_get rest key default
  end.

(** The truth value of a JSON value. *)
Definition json_truthy (v : json) : bool :=
  match v with
  | JNull => false
  | JBool b => b
  | JInt n => negb (n =? 0)
  | JFloat x => negb (Qeq_bool x 0)
  | JStr s => negb (String.eqb s "")
  | JList items => match items with [] => false | _ => true end
  | JDict members => match members with [] => false | _ => true end
  end.

(** [v or 0] *)
Definition or_zero (v : json) : json := if json_truthy v then v else JInt 0.

(** [int(v)]; [None] stands for the TypeError or ValueError raised. *)
Definition py_int (v : json) : option Z :=
  match v with
  | JBool b => Some (if b then 1 else 0)
  | JInt n => Some n
  | JFloat x => Some (Py.int_of_float x)
  | JStr s => Py.int_of_str s
  | JNull | JList _ | JDict _ => None
  end.

Section Parse.

(** [float(s)] for a string, [None] for ValueError: the grammar Python
    reads is not embedded, the parsers hold for any. *)
Variable float_of_str : string -> option Q.

(** [float(v)] *)
Definition py_float (v : json) : option Q :=
  match v with
  | JBool b => Some (if b then 1 # 1 else 0 # 1)
  | JInt n => Some (inject_Z n)
  | JFloat x => Some x
  | JStr s => float_of_str s
  | JNull | JList _ | JDict _ => None
  end.

(** The body of the loop of [parse_trajectory]: the point appended, or
    [None] when the item is skipped ([continue]). *)
Definition parse_point (point : json) : option TrajectoryPoint :=
  match point with
  | JDict d =>
      match py_int (dict_get d "timestamp" (JInt 0)),
            py_float (dict_get d "value" (JInt 0)),
            py_float (dict_get d "delta" (JInt 0)),
            py_float (dict_get d "velocity" (JInt 0)),
            py_int (dict_get d "time_delta_ms" (JInt 0)) with
      | Some timestamp, Some value, Some delta, Some velocity, Some time_delta_ms =>
          Some (mkTrajectoryPoint timestamp value delta velocity
                                  (Z.max 0 time_delta_ms))
      | _, _, _, _, _ => None
      end
  | _ => None
  end.

(** [parse_trajectory] *)
Definition parse_trajectory (trajectory : json) : list TrajectoryPoint :=
  match trajectory with
  | JList items => omap parse_point (take 600 items)
  | _ => []
  end.

(** [BehaviorData] as [parse_behavior] fills it: [events] holds the JSON
    list as it came. *)
Record ParsedBehavior := mkParsedBehavior {
  pb_start_time : Z;
  pb_end_time : Z;
  pb_total_duration_ms : Z;
  pb_event_count : Z;
  pb_mouse_down_count : Z;
  pb_mouse_move_count : Z;
  pb_events : list json;
}.

(** [behavior.get("events") or [] if isinstance(behavior.get("events"), list)
    else []] *)
Definition parse_events (d : list (string * json)) : list json :=
  match dict_get d "events" JNull with
  | JList items => items
  | _ => []
  end.

(** [parse_behavior] *)
Definition parse_behavior (behavior : json) : option ParsedBehavior :=
  match behavior with
  | JDict d =>
      match py_int (or_zero (dict_get d "start_time" (JInt 0))),
            py_int (or_zero (dict_get d "end_time" (JInt 0))),
            py_int (or_zero (dict_get d "total_duration_ms" (JInt 0))),
            py_int (or_zero (dict_get d "event_count" (JInt 0))),
            py_int (or_zero (dict_get d "mouse_down_count" (JInt 0))),
            py_int (or_zero (dict_get d "mouse_move_count" (JInt 0))) with
      | Some start_time, Some end_time, Some total_duration_ms,
        Some event_count, Some mouse_down_count, Some mouse_move_count =>
          Some (mkParsedBehavior start_time end_time
                  (Z.max 0 total_duration_ms) (Z.max 0 event_count)
                  (Z.max 0 mouse_down_count) (Z.max 0 mouse_move_count)
                  (parse_events d))
      | _, _, _, _, _, _ => None
      end
  | _ => None
  end.

End Parse.

(** The numbers of a parsed behaviour as the analyzer reads them; it
    never reads [events]. *)
Definition behavior_numbers (b : ParsedBehavior) : BehaviorData :=
  mkBehaviorData (pb_start_time b) (pb_end_time b) (pb_total_duration_ms b)
                 (pb_event_count b) (pb_mouse_down_count b)
                 (pb_mouse_move_count b) [].

End Telemetry.

Import Telemetry.

(** ** Video challenges: issue, slider updates, overlay position (main.py) *)

Module Video.

(** [random.randint(a, b)] returning [draw]: an empty range raises. *)
Definition randint (a b : Z) (draw : Z) : outcome Z :=
  if b <? a then Raised "ValueError" else Returned draw.

(** [_bounce_pos]; [x % m] on floats is [x - floor(x / m) * m]. *)
Definition float_mod (x m : Q) : Q := (x - inject_Z (Qfloor (x / m)) * m)%Q.

Definition _bounce_pos (value : Q) (minimum maximum : Z) : Z :=
  let span := maximum - minimum in
  if span <=? 0 then minimum
  else
    let normalized := float_mod (value - inject_Z minimum) (inject_Z (2 * span)) in
    let normalized :=
      if Py.Qlt_bool (inject_Z span) normalized
      then (inject_Z (2 * span) - normalized)%Q else normalized in
    Py.int_of_float (inject_Z minimum + normalized)%Q.

(** What [generate_video_captcha] finds on disk: whether the file is
    there, whether OpenCV opens it, and the two frame properties. *)
Record video_asset := mkAsset {
  asset_exists : bool;
  asset_opens : bool;
  prop_frame_width : Q;
  prop_frame_height : Q;
}.

(** What the random sources return, in call order: [random.uniform(0.4,
    0.8)], four [random.randint], [uuid.uuid4().hex]. *)
Record video_draws := mkDraws {
  draw_target : Q;
  draw_true_x : Z;
  draw_true_y : Z;
  draw_start_x : Z;
  draw_start_y : Z;
  draw_captcha_id : string;
}.

(** The dict [generate_video_captcha] returns. *)
Record video_payload := mkVideoPayload {
  vp_captcha_id : string;
  stream_url : string;
  width : Z;
  height : Z;
  slider_min : Z;
  slider_max : Z;
  slider_start : Z;
}.

Definition roi_size_of (video_width video_height : Z) : Z :=
  let roi_size :=
    Z.max 24 (Py.int_of_float (inject_Z (Z.min video_width video_height) * (45 # 100))%Q) in
  Z.min (Z.min roi_size video_width) video_height.

(** [generate_video_captcha]; the feather mask is left out, as in the
    session record. *)
Definition generate_video_captcha (asset : video_asset) (draws : video_draws)
    (st : stores) : outcome video_payload * stores :=
  if negb (asset_exists asset) then (Raised "FileNotFoundError", st)
  else if negb (asset_opens asset) then (Raised "RuntimeError", st)
  else
    let video_width := Py.int_of_float (prop_frame_width asset) in
    let video_height := Py.int_of_float (prop_frame_height asset) in
    if (video_width <=? 0) || (video_height <=? 0) then (Raised "RuntimeError", st)
    else
      let secret_target := draw_target draws in
      let roi_size := roi_size_of video_width video_height in
      match randint 0 (video_width - roi_size) (draw_true_x draws),
            randint 0 (video_height - roi_size) (draw_true_y draws),
            randint 0 (video_width - roi_size) (draw_start_x draws),
            randint 0 (video_height - roi_size) (draw_start_y draws) with
      | Returned true_x, Returned true_y, Returned start_x, Returned start_y =>
          let captcha_id := draw_captcha_id draws in
          let challenge :=
            mkVideoChallenge true_x true_y start_x start_y roi_size
                             secret_target 0 in
          (Returned {| vp_captcha_id := captcha_id;
                       stream_url := "/video-captcha-stream/" +:+ captcha_id;
                       width := video_width;
                       height := video_height;
                       slider_min := 0;
                       slider_max := 1000;
                       slider_start := 0 |},
           mkStores (captcha_sessions st)
                    (<[captcha_id := challenge]> (video_captcha_sessions st))
                    (pow_used_nonces st))
      | _, _, _, _ => (Raised "ValueError", st)
      end.

(** [update_video_slider]: POST /video-captcha-slider. *)
Definition update_video_slider (st : stores) (captcha_id : option string)
    (slider_value : option Q) : response * stores :=
  match captcha_id, slider_value with
  | Some captcha_id, Some slider_value =>
      match video_captcha_sessions st !! captcha_id with
      | None => (failure "Invalid or expired captcha_id.", st)
      | Some challenge =>
          let normalized := Qmax 0 (Qmin 1 (slider_value / inject_Z 1000)) in
          let challenge :=
            mkVideoChallenge (roi_true_x challenge) (roi_true_y challenge)
              (roi_start_x challenge) (roi_start_y challenge)
              (roi_size challenge) (secret_target challenge) normalized in
          (mkResponse true None None,
           mkStores (captcha_sessions st)
                    (<[captcha_id := challenge]> (video_captcha_sessions st))
                    (pow_used_nonces st))
      end
  | _, _ => (failure "Missing captcha_id or slider_value.", st)
  end.

End Video.

Import Video.

(** ** The PoW challenge endpoint (main.py) *)

Module Endpoints.

(** The dict POST /pow-challenge returns. *)
Record pow_challenge_response := mkPowChallengeResponse {
  pcr_challenge : pow_challenge;
  pcr_risk_level : string;
}.

(** [pow_challenge], on the body after field extraction: the fingerprint
    when it is a dict, and what [parse_trajectory] and [parse_behavior]
    return. *)
Definition pow_challenge_endpoint (env : pow_env)
    (fingerprint : option (gmap string pyval))
    (parsed_trajectory : list TrajectoryPoint)
    (parsed_behavior : option BehaviorData)
    (urandom : list Z) (now : Q) : pow_challenge_response :=
  let risk :=
    compute_pow_difficulty fingerprint
      (match parsed_trajectory with [] => None | _ => Some parsed_trajectory end)
      parsed_behavior in
  let challenge := generate_pow_challenge env (pd_difficulty risk) urandom now in
  mkPowChallengeResponse challenge (risk_level risk).

End Endpoints.

Import Endpoints.

(** ** Notions used in the further statements *)

Module Invariants.

(** Every stored slider position lies in [0, 1]. *)
Definition sliders_in_range (st : stores) : Prop :=
  forall id ch, video_captcha_sessions st !! id = Some ch ->
                (0 <= current_slider ch)%Q /\ (current_slider ch <= 1)%Q.

(** The string has no ":" in it. *)
Definition no_colon (s : string) : Prop := ~ In ":"%char (list_ascii_of_string s).

(** The session has no fingerprint to score: none, or an empty dict. *)
Definition fingerprint_missing (s : CaptchaSession) : Prop :=
  fingerprint s = None \/ fingerprint s = Some ∅.

(** The session has fewer than 4 trajectory points, or none. *)
Definition trajectory_short (s : CaptchaSession) : Prop :=
  match trajectory s with
  | None => True
  | Some traj => (length traj < 4)%nat
  end.

End Invariants.

Import Invariants.

(** ** Jigsaw geometry (main.py) *)

Module Geometry.

Definition GRID_SIZE : Z := 3.
Definition CAPTCHA_SIZE : Z := 300.
Definition PIECE_SIZE : Z := CAPTCHA_SIZE / GRID_SIZE.

Definition point : Type := Q * Q.

(** One point of [_cubic_bezier], at parameter [t]. *)
Definition bezier_at (p0 p1 p2 p3 : point) (t : Q) : point :=
  let u := (1 - t)%Q in
  ((u ^ 3 * fst p0 + 3 * u ^ 2 * t * fst p1 + 3 * u * t ^ 2 * fst p2
    + t ^ 3 * fst p3)%Q,
   (u ^ 3 * snd p0 + 3 * u ^ 2 * t * snd p1 + 3 * u * t ^ 2 * snd p2
    + t ^ 3 * snd p3)%Q).

(** [_cubic_bezier]: [i / steps] raises for [steps = 0], and a negative
    [steps] leaves the loop without a turn. *)
Definition _cubic_bezier (p0 p1 p2 p3 : point) (steps : Z) : outcome (list point) :=
  if steps =? 0 then Raised "ZeroDivisionError"
  else Returned
         (map (fun i => bezier_at p0 p1 p2 p3 (inject_Z (Z.of_nat i) / inject_Z steps))
              (seq 0 (Z.to_nat (steps + 1)))).

Section Edges.

(** [math.hypot]; its values are not rational in general, so it is left
    open and the edge functions are read for whatever it returns. *)
Variable hypot : Q -> Q -> Q.

(** [_generate_edge_points] *)
Definition _generate_edge_points (start end_ : point) (direction : Z)
    : outcome (list point) :=
  let dx := (fst end_ - fst start)%Q in
  let dy := (snd end_ - snd start)%Q in
  let length := hypot dx dy in
  if Qeq_bool length 0 then Returned [start; end_]
  else
    let tx := (dx / length)%Q in
    let ty := (dy / length)%Q in
    let nx := (- ty * inject_Z direction)%Q in
    let ny := (tx * inject_Z direction)%Q in
    let local_to_global (u v : Q) : point :=
      ((fst start + u * dx + v * length * nx)%Q,
       (snd start + u * dy + v * length * ny)%Q) in
    let pts := [local_to_global 0%Q 0%Q; local_to_global (38 # 100) 0%Q] in
    Py.bind (_cubic_bezier (local_to_global (38 # 100) 0%Q)
               (local_to_global (43 # 100) (6 # 100))
               (local_to_global (32 # 100) (10 # 100))
               (local_to_global (32 # 100) (16 # 100)) 30) (fun c2 =>
    let pts := pts ++ tail c2 in
    Py.bind (_cubic_bezier (local_to_global (32 # 100) (16 # 100))
               (local_to_global (32 # 100) (28 # 100))
               (local_to_global (68 # 100) (28 # 100))
               (local_to_global (68 # 100) (16 # 100)) 30) (fun c3 =>
    let pts := pts ++ tail c3 in
    Py.bind (_cubic_bezier (local_to_global (68 # 100) (16 # 100))
               (local_to_global (68 # 100) (10 # 100))
               (local_to_global (57 # 100) (6 # 100))
               (local_to_global (62 # 100) 0%Q) 30) (fun c4 =>
    let pts := pts ++ tail c4 in
    Returned (pts ++ [local_to_global 1%Q 0%Q])))).

(** The dict of [_generate_edge_grid]: horizontal and vertical internal
    edges by (row, col). *)
Record edge_grid := mkEdgeGrid {
  edges_h : gmap (Z * Z) (list point);
  edges_v : gmap (Z * Z) (list point);
}.

(** [random.choice([-1, 1])] returning the element of index 1 or 0. *)
Definition pick_direction (second : bool) : Z := if second then 1 else -1.

(** [(float(x), float(y))] *)
Definition fpoint (x y : Z) : point := (inject_Z x, inject_Z y).

(** [range(a, b)] *)
Definition range (a b : Z) : list Z :=
  map (fun i => a + Z.of_nat i) (seq 0 (Z.to_nat (b - a))).

(** The two nested loops of [_generate_edge_grid] as the lists of keys
    they visit, in order. *)
Definition horizontal_keys : list (Z * Z) :=
  flat_map (fun row => map (fun col => (row, col)) (range 0 GRID_SIZE))
           (range 1 GRID_SIZE).

Definition vertical_keys : list (Z * Z) :=
  flat_map (fun row => map (fun col => (row, col)) (range 1 GRID_SIZE))
           (range 0 GRID_SIZE).

(** One turn of a loop: the edge stored under the key, or the exception
    of [_generate_edge_points]; the counter is the number of calls of
    [random.choice] so far. *)
Definition add_edge (horizontal : bool) (picks : nat -> bool)
    (acc : outcome (gmap (Z * Z) (list point) * nat)) (key : Z * Z)
    : outcome (gmap (Z * Z) (list point) * nat) :=
  Py.bind acc (fun '(m, k) =>
    let '(row, col) := key in
    let x0 := col * PIECE_SIZE in
    let y0 := row * PIECE_SIZE in
    let start := fpoint x0 y0 in
    let end_ := if horizontal then fpoint (x0 + PIECE_SIZE) y0
                else fpoint x0 (y0 + PIECE_SIZE) in
    let direction := pick_direction (picks k) in
    Py.bind (_generate_edge_points start end_ direction)
            (fun pts => Returned (<[key := pts]> m, S k))).

(** [_generate_edge_grid]; [picks k] is what the call number [k] of
    [random.choice] returns. *)
Definition _generate_edge_grid (picks : nat -> bool) : outcome edge_grid :=
  Py.bind (fold_left (add_edge true picks) horizontal_keys (Returned (∅, 0%nat)))
    (fun '(h, k) =>
  Py.bind (fold_left (add_edge false picks) vertical_keys (Returned (∅, k)))
    (fun '(v, _) => Returned (mkEdgeGrid h v))).

End Edges.

(** [edges["h"][key]] and [edges["v"][key]] *)
Definition lookup_edge (m : gmap (Z * Z) (list point)) (key : Z * Z)
    : outcome (list point) :=
  match m !! key with
  | Some pts => Returned pts
  | None => Raised "KeyError"
  end.

(** [_build_piece_polygon] *)
Definition _build_piece_polygon (row col : Z) (edges : edge_grid)
    : outcome (list point) :=
  let poly : list point := [] in
  let x0 := col * PIECE_SIZE in
  let y0 := row * PIECE_SIZE in
  Py.bind (if row =? 0
           then Returned (poly ++ [fpoint x0 y0; fpoint (x0 + PIECE_SIZE) y0])
           else Py.bind (lookup_edge (edges_h edges) (row, col))
                        (fun pts => Returned (poly ++ pts))) (fun poly =>
  Py.bind (if col =? GRID_SIZE - 1
           then Returned (poly ++ [fpoint (x0 + PIECE_SIZE) y0;
                                   fpoint (x0 + PIECE_SIZE) (y0 + PIECE_SIZE)])
           else Py.bind (lookup_edge (edges_v edges) (row, col + 1))
                        (fun pts => Returned (poly ++ pts))) (fun poly =>
  Py.bind (if row =? GRID_SIZE - 1
           then Returned (poly ++ [fpoint (x0 + PIECE_SIZE) (y0 + PIECE_SIZE);
                                   fpoint x0 (y0 + PIECE_SIZE)])
           else Py.bind (lookup_edge (edges_h edges) (row + 1, col))
                        (fun pts => Returned (poly ++ rev pts))) (fun poly =>
  Py.bind (if col =? 0
           then Returned (poly ++ [fpoint x0 (y0 + PIECE_SIZE); fpoint x0 y0])
           else Py.bind (lookup_edge (edges_v edges) (row, col))
                        (fun pts => Returned (poly ++ rev pts))) (fun poly =>
  Returned poly)))).

End Geometry.

Import Geometry.

(** ** Issuing an image challenge (main.py, [generate_captcha]) *)

Module Issue.

(** An entry of the list [_slice_image] returns, [(piece_id, image,
    (offset_x, offset_y))], without the image. *)
Record piece := mkPiece {
  piece_id : string;
  off_x : Z;
  off_y : Z;
}.

(** [{"piece_id": ..., "x": ..., "y": ...}] *)
Record placed := mkPlaced {
  placed_id : string;
  placed_x : Z;
  placed_y : Z;
}.

(** [random.choice(seq)] returning the element of index [draw] (taken
    modulo the length); an empty sequence raises. *)
Definition choice {A} (seq : list A) (draw : nat) : outcome A :=
  match seq !! (draw mod length seq)%nat with
  | Some a => Returned a
  | None => Raised "IndexError"
  end.

(** [l[:count]] *)
Definition slice_to {A} (l : list A) (count : Z) : list A :=
  if 0 <=? count then take (Z.to_nat count) l
  else take (length l - Z.to_nat (- count)) l.

Definition grid_slots : list (Z * Z) :=
  flat_map (fun row => map (fun col => (col * PIECE_SIZE, row * PIECE_SIZE))
                           (range 0 GRID_SIZE))
           (range 0 GRID_SIZE).

(** [_random_grid_positions]; [shuffle] is what [random.shuffle] makes of
    the list. *)
Definition _random_grid_positions (shuffle : list (Z * Z) -> list (Z * Z))
    (count : Z) : list (Z * Z) :=
  slice_to (shuffle grid_slots) count.

Definition solved_state (pieces : list piece) : list placed :=
  map (fun p => mkPlaced (piece_id p) (off_x p) (off_y p)) pieces.

(** [zip] stops at the shorter list. *)
Definition shuffled_state (pieces : list piece) (shuffled_positions : list (Z * Z))
    : list placed :=
  zip_with (fun p s => mkPlaced (piece_id p) (fst s) (snd s))
           pieces shuffled_positions.

(** One turn of the loop over [kf_positions]; the counter is the number
    of calls of [random.shuffle] so far. *)
Definition add_keyframe (pieces : list piece) (solved_position : Z)
    (shuffles : nat -> list (Z * Z) -> list (Z * Z))
    (acc : gmap string (list placed) * nat) (kf : Z)
    : gmap string (list placed) * nat :=
  let '(keyframes, k) := acc in
  if kf =? solved_position
  then (<[Py.str_of_int kf := solved_state pieces]> keyframes, k)
  else
    let shuffled_positions := _random_grid_positions (shuffles k) (Py.len pieces) in
    (<[Py.str_of_int kf := shuffled_state pieces shuffled_positions]> keyframes, S k).

(** The dict [generate_captcha] returns; of each entry of ["pieces"] only
    the offsets are kept. *)
Record captcha_payload := mkCaptchaPayload {
  cp_captcha_id : string;
  cp_pieces : gmap string (Z * Z);
  cp_keyframes : gmap string (list placed);
}.

(** [generate_captcha], from the list of pieces on.  [num_interior] and
    [samples] are the draws of [_generate_keyframe_positions],
    [solved_draw] the one of [random.choice], [shuffles k] the shuffle
    number [k], and [captcha_id] is [str(uuid.uuid4())]. *)
Definition generate_captcha (pieces : list piece) (num_interior : Z)
    (samples : nat -> list Z) (solved_draw : nat)
    (shuffles : nat -> list (Z * Z) -> list (Z * Z)) (captcha_id : string)
    (st : stores) : outcome captcha_payload * stores :=
  let kf_positions := _generate_keyframe_positions num_interior samples in
  let non_start := List.filter (fun p => negb (p =? 0)) kf_positions in
  match choice non_start solved_draw with
  | Raised e => (Raised e, st)
  | Returned solved_position =>
      let keyframes :=
        fst (fold_left (add_keyframe pieces solved_position shuffles)
                       kf_positions (∅, 0%nat)) in
      let pieces_payload :=
        fold_left (fun m p => <[piece_id p := (off_x p, off_y p)]> m) pieces ∅ in
      (Returned (mkCaptchaPayload captcha_id pieces_payload keyframes),
       mkStores (<[captcha_id := {| solved_value := solved_position;
                                   fingerprint := None;
                                   trajectory := None;
                                   behavior := None |}]> (captcha_sessions st))
                (video_captcha_sessions st) (pow_used_nonces st))
  end.

End Issue.

Import Issue.

(** ** Notions used in the statements on the geometry *)

Module Outlines.

(** Two points with equal coordinates. *)
Definition same_point (p q : point) : Prop :=
  (fst p == fst q)%Q /\ (snd p == snd q)%Q.

(** The grid corner at column [col] and row [row], in pixels. *)
Definition corner (col row : Z) : point :=
  fpoint (col * PIECE_SIZE) (row * PIECE_SIZE).

(** A list of points that runs from [p] to [q]. *)
Definition runs_from_to (pts : list point) (p q : point) : Prop :=
  exists first final,
    head pts = Some first /\ same_point first p
    /\ last pts = Some final /\ same_point final q.

(** The edges of a grid: every internal edge is stored and runs from its
    left (or upper) corner to its right (or lower) corner. *)
Definition edges_in_place (g : edge_grid) : Prop :=
  (forall row col, 1 <= row <= 2 -> 0 <= col <= 2 ->
     exists pts, edges_h g !! (row, col) = Some pts
                 /\ runs_from_to pts (corner col row) (corner (col + 1) row))
  /\ (forall row col, 0 <= row <= 2 -> 1 <= col <= 2 ->
     exists pts, edges_v g !! (row, col) = Some pts
                 /\ runs_from_to pts (corner col row) (corner col (row + 1))).

End Outlines.

Import Outlines.

(** ** Sample inputs of the further statements *)

Module MoreSamples.

(** A behaviour object with a null, a negative number, a number in a
    string, a boolean and a float. *)
Definition sample_behavior : json :=
  JDict [("start_time", JInt 100); ("end_time", JNull);
         ("total_duration_ms", JInt (-5)); ("event_count", JStr "12");
         ("mouse_down_count", JBool true); ("mouse_move_count", JFloat (7 # 2));
         ("events", JList [JNull])].

Definition sample_parsed_behavior : ParsedBehavior :=
  mkParsedBehavior 100 0 0 12 1 3 [JNull].


(** [math.hypot] on the edges of the grid, which are all parallel to an
    axis. *)
Definition axis_hypot (dx dy : Q) : Q := (Qabs dx + Qabs dy)%Q.

Definition alternating_picks (k : nat) : bool := Nat.even k.

Definition sample_grid : edge_grid :=
  match _generate_edge_grid axis_hypot alternating_picks with
  | Returned g => g
  | Raised _ => mkEdgeGrid ∅ ∅
  end.

Definition sample_outline (row col : Z) : list point :=
  match _build_piece_polygon row col sample_grid with
  | Returned poly => poly
  | Raised _ => []
  end.

(** Three pieces, three interior keyframes at 20, 50 and 80, and
    shuffles that rotate the slots. *)
Definition sample_pieces : list piece :=
  [mkPiece "p1" 0 0; mkPiece "p2" 88 0; mkPiece "p3" 200 75].

Definition sample_interior : nat -> list Z := fun _ => [50; 20; 80].

Definition sample_shuffles : nat -> list (Z * Z) -> list (Z * Z) :=
  fun k slots => drop (S k) slots ++ take (S k) slots.

Definition sample_issue : outcome captcha_payload * stores :=
  generate_captcha sample_pieces 3 sample_interior 1 sample_shuffles "img-9"
                   no_session.

End MoreSamples.

Import MoreSamples.

(** ** The analyzer and the coordinator on binary64 floats (fingerprint.py,
    main.py)

    The definitions above read a Python float as a rational and let every
    operation on it return.  Here the floats are the binary64 numbers of
    the kernel, whose operations round as Python's do, and the calls that
    can raise on them do: [int()] on a NaN or an infinity, [float()] and
    the subtraction on a slider value that is not a number, [**] on
    overflow. *)

Module Binary64.

Import Floats.

#[local] Set Warnings "-inexact-float".

(** What the float library does where the language leaves room: the
    builtin [sum] over floats (plain left-to-right additions up to
    CPython 3.11, compensated since 3.12) and [x ** 2] (the platform's
    [pow]; OverflowError when the result is out of range). *)
Record float_lib := mkFloatLib {
  py_sum : list float -> float;
  py_square : float -> outcome float;
}.

(** [int(x)]: ValueError on a NaN, OverflowError on an infinity, else the
    value cut toward zero. *)
Definition int_of_float (x : float) : outcome Z :=
  match Prim2SF x with
  | S754_nan => Raised "ValueError"
  | S754_infinity _ => Raised "OverflowError"
  | S754_zero _ => Returned 0
  | S754_finite s m e =>
      let magnitude := if 0 <=? e then Z.pos m * 2 ^ e else Z.pos m / 2 ^ (- e) in
      Returned (if s then - magnitude else magnitude)
  end.

(** [float(n)] for an int: the nearest float, a tie going to the even
    one; OverflowError past the largest. *)
Definition float_of_int (n : Z) : outcome float :=
  let x := SF2Prim (binary_normalize prec emax n 0 false) in
  if is_infinity x then Raised "OverflowError" else Returned x.

(** [len(xs)] as the divisor of a float. *)
Definition float_of_len {A} (xs : list A) : float :=
  SF2Prim (binary_normalize prec emax (Py.len xs) 0 false).

(** [min(a, b)] and [max(a, b)]: the first argument unless the second
    compares strictly beyond it, so a NaN second argument is dropped. *)
Definition py_min (a b : float) : float := if (b <? a)%float then b else a.
Definition py_max (a b : float) : float := if (a <? b)%float then b else a.

Record TrajectoryPoint := mkTrajectoryPoint {
  tp_timestamp : Z;
  value : float;
  delta : float;
  velocity : float;
  time_delta_ms : Z;
}.

Record CaptchaSession := mkCaptchaSession {
  solved_value : Z;
  fingerprint : option (gmap string pyval);
  trajectory : option (list TrajectoryPoint);
  behavior : option BehaviorData;
}.

(** The elements of a list comprehension or generator in order, up to
    the first that raises. *)
Fixpoint each {A B} (f : A -> outcome B) (xs : list A) : outcome (list B) :=
  match xs with
  | [] => Returned []
  | x :: rest =>
      Py.bind (f x) (fun y => Py.bind (each f rest) (fun ys => Returned (y :: ys)))
  end.

Section Analysis.

Variable lib : float_lib.

(** [sum(xs) / len(xs)], then
    [sum((v - mean) ** 2 for v in xs) / len(xs)]. *)
Definition variance (xs : list float) : outcome float :=
  let mean := (py_sum lib xs / float_of_len xs)%float in
  Py.bind (each (fun v => py_square lib (v - mean)%float) xs) (fun squares =>
  Returned (py_sum lib squares / float_of_len xs)%float).

Definition trajectory_rules (traj : list TrajectoryPoint) (st : risk_state)
    : outcome risk_state :=
  let velocities := map velocity (filter (fun p => 0 < time_delta_ms p) traj) in
  Py.bind
    (match velocities with
     | [] => Returned st
     | _ =>
         Py.bind (variance velocities) (fun vel_variance =>
         Returned (when (vel_variance <? 0.003)%float
                        (flag "linear_velocity_pattern" 20) st))
     end) (fun st =>
  let non_zero_deltas :=
    map (fun p => abs (delta p))
        (filter (fun p => (delta p =? 0)%float = false) traj) in
  Py.bind
    (match non_zero_deltas with
     | [] => Returned st
     | _ =>
         Py.bind (variance non_zero_deltas) (fun delta_variance =>
         Returned (when ((delta_variance <? 0.2)%float
                         && (4 <=? Py.len non_zero_deltas))
                        (flag "uniform_delta_pattern" 15) st))
     end) (fun st =>
  Py.bind (each (fun p => int_of_float (value p)) traj) (fun values =>
  let unique_values : gset Z := list_to_set values in
  let st := when (Z.of_nat (size unique_values) <? 4)
                 (flag "low_slider_entropy" 15) st in
  let time_deltas := filter (fun d => 0 < d) (map time_delta_ms traj) in
  let st :=
    match time_deltas with
    | [] => st
    | _ =>
        let pauses := filter (fun d => 120 <= d) time_deltas in
        when (Py.len pauses =? 0) (flag "no_movement_pauses" 15) st
    end in
  Returned st))).

(** [if session.fingerprint:] an absent or an empty dict is falsy. *)
Definition fingerprint_part (s : CaptchaSession) (st : risk_state) : risk_state :=
  match fingerprint s with
  | Some fp =>
      if negb (Nat.eqb (size fp) 0) then fingerprint_rules fp st
      else flag "missing_fingerprint" 30 st
  | None => flag "missing_fingerprint" 30 st
  end.

(** [if session.trajectory and len(session.trajectory) >= 4:] *)
Definition trajectory_part (s : CaptchaSession) (st : risk_state)
    : outcome risk_state :=
  match trajectory s with
  | Some traj =>
      if negb (Py.len traj =? 0) && (4 <=? Py.len traj) then trajectory_rules traj st
      else Returned (flag "insufficient_trajectory_data" 30 st)
  | None => Returned (flag "insufficient_trajectory_data" 30 st)
  end.

(** [if session.behavior:] a dataclass instance is always truthy. *)
Definition behavior_part (s : CaptchaSession) (st : risk_state) : risk_state :=
  match behavior s with
  | Some b => behavior_rules b st
  | None => flag "missing_behavior_data" 25 st
  end.

(** The locals [flags], [score] when the rules are done, before the
    clamp, or the exception that left the trajectory rules. *)
Definition run_rules (s : CaptchaSession) : outcome risk_state :=
  Py.bind (trajectory_part s (fingerprint_part s ([], 100))) (fun st =>
  Returned (behavior_part s st)).

Definition analyze_bot_risk (session : CaptchaSession) : outcome risk_result :=
  Py.bind (run_rules session) (fun st =>
  let score := Z.max 0 (Z.min 100 (snd st)) in
  let is_bot := score <? 60 in
  Returned
    {| is_bot := is_bot;
       confidence_score := score;
       flags := fst st;
       details :=
         {| fingerprint_present :=
              match fingerprint session with Some _ => true | None => false end;
            trajectory_points :=
              match trajectory session with
              | Some traj => if negb (Py.len traj =? 0) then Py.len traj else 0
              | None => 0
              end;
            details_total_duration_ms :=
              match behavior session with Some b => total_duration_ms b | None => 0 end;
            movement_events :=
              match behavior session with Some b => mouse_move_count b | None => 0 end |} |}).

Definition compute_pow_difficulty (fingerprint : option (gmap string pyval))
    (trajectory : option (list TrajectoryPoint)) (behavior : option BehaviorData)
    : outcome Fingerprint.pow_difficulty :=
  let session := mkCaptchaSession 0 fingerprint trajectory behavior in
  Py.bind (analyze_bot_risk session) (fun result =>
  let score := confidence_score result in
  let '(risk_level, difficulty) :=
    if 70 <=? score then ("low", 15)
    else if 40 <=? score then ("medium", 19)
    else ("high", 22) in
  Returned {| pd_difficulty := difficulty;
              risk_level := risk_level;
              score := score;
              pd_flags := flags result |}).

End Analysis.

(** The value of [body.get("slider_value")] when it is not null: a
    number, a boolean, a string together with what [float()] makes of it,
    or a list or an object. *)
Inductive slider_json :=
| SInt (n : Z)
| SFloat (x : float)
| SBool (b : bool)
| SStr (s : string) (as_float : outcome float)
| SOther.

(** [float(slider_value)] *)
Definition float_of_slider (v : slider_json) : outcome float :=
  match v with
  | SInt n => float_of_int n
  | SFloat x => Returned x
  | SBool b => Returned (if b then 1 else 0)%float
  | SStr _ as_float => as_float
  | SOther => Raised "TypeError"
  end.

(** [abs(slider_value - session.solved_value) <= TOLERANCE]: a string, a
    list or an object cannot be subtracted from. *)
Definition puzzle_solved (v : slider_json) (solved TOLERANCE : Z) : outcome bool :=
  match v with
  | SInt n => Returned (Z.abs (n - solved) <=? TOLERANCE)
  | SBool b => Returned (Z.abs ((if b then 1 else 0) - solved) <=? TOLERANCE)
  | SFloat x =>
      Py.bind (float_of_int solved) (fun s =>
      Py.bind (float_of_int TOLERANCE) (fun t =>
      Returned (abs (x - s) <=? t)%float))
  | SStr _ _ | SOther => Raised "TypeError"
  end.

(** An entry of [video_captcha_sessions]; the feather mask, an image, is
    left out. *)
Record video_challenge := mkVideoChallenge {
  roi_true_x : Z;
  roi_true_y : Z;
  roi_start_x : Z;
  roi_start_y : Z;
  roi_size : Z;
  secret_target : float;
  current_slider : float;
}.

(** The module-level stores. *)
Record stores := mkStores {
  captcha_sessions : gmap string CaptchaSession;
  video_captcha_sessions : gmap string video_challenge;
  pow_used_nonces : gmap string Q;
}.

(** The JSON body of POST /verify-captcha, field by field; [None] is a key
    that is absent or null.  As above, but for [slider_value], which is
    kept as it came, and for the floats of the parsed trajectory. *)
Record verify_body := mkBody {
  captcha_id : option string;
  slider_value : option slider_json;
  mode : option string;
  body_fingerprint : option (gmap string pyval);
  parsed_trajectory : list TrajectoryPoint;
  parsed_behavior : option BehaviorData;
  pow_salt : option string;
  pow_nonce : option Z;
  pow_difficulty : option Z;
  pow_timestamp : option Z;
  pow_signature : option string;
}.

(** The telemetry written into the session taken from the store. *)
Definition attach_telemetry (session : CaptchaSession)
    (fingerprint : option (gmap string pyval))
    (parsed_trajectory : list TrajectoryPoint)
    (parsed_behavior : option BehaviorData) : CaptchaSession :=
  {| solved_value := solved_value session;
     fingerprint := fingerprint;
     trajectory :=
       match parsed_trajectory with
       | [] => trajectory session
       | _ => Some parsed_trajectory
       end;
     behavior :=
       match parsed_behavior with
       | Some b => Some b
       | None => behavior session
       end |}.

(** The synthetic session of video mode:
    [CaptchaSession(solved_value=int(target * 1000), ...)]. *)
Definition temp_session (target : float) (fingerprint : option (gmap string pyval))
    (parsed_trajectory : list TrajectoryPoint)
    (parsed_behavior : option BehaviorData) : outcome CaptchaSession :=
  Py.bind (int_of_float (target * 1000)%float) (fun solved =>
  Returned {| solved_value := solved;
              fingerprint := fingerprint;
              trajectory := Some parsed_trajectory;
              behavior := parsed_behavior |}).

Section Coordinator.

Variable lib : float_lib.

(** Step 2 of [verify_captcha], video branch: the response or the
    exception, and the stores afterwards. *)
Definition verify_video (st : stores) (captcha_id : string)
    (slider_value : slider_json) (body : verify_body)
    : outcome response * stores :=
  match video_captcha_sessions st !! captcha_id with
  | None => (Returned (failure "Invalid or expired captcha_id."), st)
  | Some challenge =>
      match float_of_slider slider_value with
      | Raised e => (Raised e, st)
      | Returned slider =>
          let submitted_val := (py_max 0 (py_min 1 (slider / 1000)))%float in
          let target := secret_target challenge in
          match temp_session target (body_fingerprint body)
                  (parsed_trajectory body) (parsed_behavior body) with
          | Raised e => (Raised e, st)
          | Returned temp_session =>
              match analyze_bot_risk lib temp_session with
              | Raised e => (Raised e, st)
              | Returned bot_analysis =>
                  let slider_ok := (abs (target - submitted_val) <=? 0.03)%float in
                  let success := slider_ok && negb (is_bot bot_analysis) in
                  let st' :=
                    if success
                    then mkStores (captcha_sessions st)
                                  (delete captcha_id (video_captcha_sessions st))
                                  (pow_used_nonces st)
                    else st in
                  (Returned (mkResponse success (Some bot_analysis) None), st')
              end
          end
      end
  end.

(** Step 2 of [verify_captcha], image branch: the session is popped
    before anything can raise. *)
Definition verify_image (st : stores) (captcha_id : string)
    (slider_value : slider_json) (body : verify_body)
    : outcome response * stores :=
  let popped := captcha_sessions st !! captcha_id in
  let st' := mkStores (delete captcha_id (captcha_sessions st))
                      (video_captcha_sessions st) (pow_used_nonces st) in
  match popped with
  | None => (Returned (failure "Invalid or expired captcha_id."), st')
  | Some session =>
      let session := attach_telemetry session (body_fingerprint body)
                       (parsed_trajectory body) (parsed_behavior body) in
      let TOLERANCE := 3 in
      match puzzle_solved slider_value (solved_value session) TOLERANCE with
      | Raised e => (Raised e, st')
      | Returned puzzle_solved =>
          match analyze_bot_risk lib session with
          | Raised e => (Raised e, st')
          | Returned bot_analysis =>
              let success := puzzle_solved && negb (is_bot bot_analysis) in
              (Returned (mkResponse success (Some bot_analysis) None), st')
          end
      end
  end.

(** [verify_captcha]: the response or the exception, and the stores
    afterwards.  [clk] holds the clock readings of its [verify_pow] call. *)
Definition verify_captcha (env : pow_env) (st : stores) (clk : verify_clock)
    (body : verify_body) : outcome response * stores :=
  let mode :=
    Py.lower (match mode body with Some m => m | None => "image" end) in
  match captcha_id body, slider_value body with
  | Some captcha_id, Some slider_value =>
      match pow_salt body, pow_nonce body, pow_difficulty body,
            pow_timestamp body, pow_signature body with
      | Some salt, Some nonce, Some difficulty, Some timestamp, Some signature =>
          let '(pow_error, ledger) :=
            verify_pow env (pow_used_nonces st) clk salt difficulty timestamp
                       signature nonce in
          let st := mkStores (captcha_sessions st) (video_captcha_sessions st)
                             ledger in
          match pow_error with
          | Raised e => (Raised e, st)
          | Returned (Some msg) => (Returned (failure msg), st)
          | Returned None =>
              if String.eqb mode "video"
              then verify_video st captcha_id slider_value body
              else verify_image st captcha_id slider_value body
          end
      | _, _, _, _, _ => (Returned (failure "Missing PoW fields."), st)
      end
  | _, _ => (Returned (failure "Missing captcha_id or slider_value."), st)
  end.

End Coordinator.

(** *** Notions used in the statements on these definitions *)

(** The request asks for video mode. *)
Definition is_video (body : verify_body) : bool :=
  String.eqb (Py.lower (match mode body with Some m => m | None => "image" end))
             "video".

(** The request carries a slider value and all PoW fields, and
    [verify_pow] returns [None] for them. *)
Definition pow_gate_passed (env : pow_env) (st : stores) (clk : verify_clock)
    (body : verify_body) : bool :=
  match slider_value body, pow_salt body, pow_nonce body, pow_difficulty body,
        pow_timestamp body, pow_signature body with
  | Some _, Some salt, Some nonce, Some difficulty, Some timestamp, Some signature =>
      match fst (verify_pow env (pow_used_nonces st) clk salt difficulty
                   timestamp signature nonce) with
      | Returned None => true
      | _ => false
      end
  | _, _, _, _, _, _ => false
  end.

(** The session has no fingerprint to score: none, or an empty dict. *)
Definition fingerprint_missing (s : CaptchaSession) : Prop :=
  fingerprint s = None \/ fingerprint s = Some ∅.

(** The session has fewer than 4 trajectory points, or none. *)
Definition trajectory_short (s : CaptchaSession) : Prop :=
  match trajectory s with
  | None => True
  | Some traj => (length traj < 4)%nat
  end.

(** The number a finite float stands for. *)
Definition float_value (x : float) : option Q :=
  match Prim2SF x with
  | S754_zero _ => Some 0%Q
  | S754_finite s m e =>
      let magnitude :=
        if 0 <=? e then inject_Z (Z.pos m * 2 ^ e)
        else (Z.pos m # Pos.pow 2 (Z.to_pos (- e)))%Q in
      Some (if s then (- magnitude)%Q else magnitude)
  | _ => None
  end.

(** A sum by additions from left to right and a square by one rounded
    multiplication: what CPython up to 3.11 and a correctly rounded [pow]
    compute, and what every version computes where the additions and the
    square are exact. *)
Definition plain_lib : float_lib :=
  {| py_sum := fun xs => fold_left PrimFloat.add xs 0%float;
     py_square := fun x =>
       let y := (x * x)%float in
       if is_infinity y && negb (is_infinity x) then Raised "OverflowError"
       else Returned y |}.

End Binary64.

(** ** Sample inputs on binary64 floats *)

Module FloatSamples.

Import Floats Binary64.

#[local] Set Warnings "-inexact-float".

Definition fpt (v d vel : float) (dt : Z) : TrajectoryPoint :=
  mkTrajectoryPoint 0 v d vel dt.

(** The human trajectory of the samples above; its velocities and deltas
    are sums of powers of two, so that sums and squares are exact. *)
Definition human_trajectory : list TrajectoryPoint :=
  [ fpt 0 0 0 0; fpt 5 5 0.5 10; fpt 12 7 0.25 150;
    fpt 30 18 1 20; fpt 42 12 0.125 16 ].

(** Telemetry with one velocity of 1e200, as the JSON number 1e200
    gives it. *)
Definition overflow_trajectory : list TrajectoryPoint :=
  [ fpt 0 0 1e200 10; fpt 5 5 0 10; fpt 12 7 0 150; fpt 30 18 0 20 ].

Definition overflow_session : CaptchaSession :=
  mkCaptchaSession 0 (Some human_fingerprint) (Some overflow_trajectory)
                   (Some human_behavior).

(** A scripted client: webdriver set, twenty evenly spaced samples. *)
Definition bot_trajectory : list TrajectoryPoint :=
  map (fun i => fpt (SF2Prim (binary_normalize prec emax (5 * Z.of_nat i) 0 false))
                    5 0.5 10) (seq 1 20).

Definition human_session (solved : Z) : CaptchaSession :=
  mkCaptchaSession solved (Some human_fingerprint) (Some human_trajectory)
                   (Some human_behavior).

(** A request that presents the demo challenge with its nonce. *)
Definition demo_body (cid : string) (slider : slider_json) (m : option string)
    : verify_body :=
  {| captcha_id := Some cid;
     slider_value := Some slider;
     mode := m;
     body_fingerprint := Some human_fingerprint;
     parsed_trajectory := human_trajectory;
     parsed_behavior := Some human_behavior;
     pow_salt := Some (salt demo_challenge);
     pow_nonce := Some demo_nonce;
     pow_difficulty := Some (difficulty demo_challenge);
     pow_timestamp := Some (timestamp demo_challenge);
     pow_signature := Some (signature demo_challenge) |}.


Definition one_image_session : stores :=
  mkStores {[ "img-1" := mkCaptchaSession 42 None None None ]} ∅ ∅.

(** A video session with target 0.59375, and one with the float next to
    0.6. *)
Definition one_video_session : stores :=
  mkStores ∅ {[ "vid-1" := mkVideoChallenge 10 20 30 40 216 0.59375 0 ]} ∅.

Definition video_session_06 : stores :=
  mkStores ∅ {[ "vid-2" := mkVideoChallenge 10 20 30 40 216 0.6 0 ]} ∅.

Definition no_session : stores := mkStores ∅ ∅ ∅.

End FloatSamples.

(** * Properties *)

Example sha256_abc :
  Py.hex (Sha256.sha256 (Py.encode "abc"))
  = "ba7816bf8f01cfea414140de5dae2223b00361a396177a9cb410ff61f20015ad".
Proof. vm_compute. reflexivity. Qed.

Example hmac_rfc4231_case2 :
  Py.hex (Sha256.hmac_sha256 (Py.encode "Jefe") (Py.encode "what do ya want for nothing?"))
  = "5bdcc146bf60754e6a042426089575c75a003f089d2739839dec58b964ec3843".
Proof. vm_compute. reflexivity. Qed.

Example hmac_long_key :
  Py.hex (Sha256.hmac_sha256 (repeat 107 100) (Py.encode "msg"))
  = "bd56a1782c2830e8abc6ed866a57a1230661e650b84c62f7ee3accc5fa5af491".
Proof. vm_compute. reflexivity. Qed.


Example demo_challenge_value :
  generate_pow_challenge reference_env 15 demo_urandom (1740000000 # 1)
  = PowChallenge "000102030405060708090a0b0c0d0e0f" 15 1740000000
      "14a6a935571f51049f30bd05d4dfaa3f21c7b3be8f0f46289febcf588418f230".
Proof. vm_compute. reflexivity. Qed.

Example demo_pow_hash :
  Py.hex (pow_hash (Py.encode "000102030405060708090a0b0c0d0e0f") 2950)
  = "0001055444cff2596ab5347a5dcacd8da69e9f4d64138145730e3e20bc9b78f9"
  /\ nonce_passes (Py.encode "000102030405060708090a0b0c0d0e0f") 15 2950 = true
  /\ nonce_passes (Py.encode "000102030405060708090a0b0c0d0e0f") 16 2950 = false.
Proof. vm_compute. repeat split; reflexivity. Qed.

(** The scenarios of the specification. *)

Example scenario_tolerance :
  (exists a, fst (verify_captcha reference_env one_image_session first_clock
                    (demo_body "img-1" 45 None))
             = Returned {| success := true; analysis := Some a; error := None |})
  /\ (exists a, fst (verify_captcha reference_env one_image_session first_clock
                       (demo_body "img-1" 46 None))
                = Returned {| success := false; analysis := Some a; error := None |}).
Proof. split; eexists; vm_compute; reflexivity. Qed.

Example scenario_bot :
  let r := analyze_bot_risk
             (mkCaptchaSession 0 (Some bot_fingerprint) (Some bot_trajectory)
                               (Some bot_behavior)) in
  confidence_score r = 0 /\ is_bot r = true
  /\ flags r = [ "webdriver_detected"; "linear_velocity_pattern";
                 "uniform_delta_pattern"; "no_movement_pauses";
                 "suspiciously_fast"; "insufficient_mouse_movement" ]
  /\ pd_difficulty (compute_pow_difficulty (Some bot_fingerprint)
                      (Some bot_trajectory) (Some bot_behavior)) = 22.
Proof. vm_compute. auto. Qed.

Example scenario_video :
  let out := verify_captcha reference_env video_session_06 first_clock
               (demo_body "vid-2" 600 (Some "video")) in
  (exists a, fst out
             = Returned {| success := true; analysis := Some a; error := None |})
  /\ video_captcha_sessions (snd out) !! "vid-2" = None.
Proof.
  cbv zeta. split; [eexists |]; vm_compute; reflexivity.
Qed.

(** ** The risk analyzer *)

Section RiskRules.

Lemma total_points_app l1 l2 :
  total_points (l1 ++ l2) = total_points l1 + total_points l2.
Proof.
  induction l1 as [| n l1 IH]; simpl; [reflexivity |].
  rewrite IH. lia.
Qed.

Lemma reaches_refl st : reaches [] st st.
Proof.
  destruct st as [fl sc]. exists []. split; [constructor |].
  simpl. rewrite app_nil_r. f_equal. lia.
Qed.

Lemma reaches_skip n r st st1 : reaches r st st1 -> reaches (n :: r) st st1.
Proof.
  intros (l & Hl & E). exists l. split; [| exact E].
  simpl. by apply sublist_inserts_r.
Qed.

Lemma reaches_flag n p r st st1 :
  reaches r st st1 -> points_of n = p -> reaches (n :: r) st (flag n p st1).
Proof.
  intros (l & Hl & E) Hp. exists (l ++ [n]). split.
  - simpl. by apply sublist_app.
  - subst st1. unfold flag. simpl.
    rewrite <- app_assoc, total_points_app. simpl. rewrite Hp. f_equal. lia.
Qed.

Lemma reaches_when c n p r st st1 :
  reaches r st st1 -> points_of n = p ->
  reaches (n :: r) st (when c (flag n p) st1).
Proof.
  intros H Hp. destruct c; simpl.
  - by apply reaches_flag.
  - by apply reaches_skip.
Qed.

(** Every rule of the table takes points away: the running score goes
    strictly down each time a flag is appended. *)
Lemma flag_lowers_score name pts st :
  In (name, pts) rule_table -> snd (flag name pts st) < snd st.
Proof.
  intros Hin. unfold flag. simpl.
  assert (0 < pts); [| lia].
  unfold rule_table in Hin. simpl in Hin.
  repeat (destruct Hin as [[= _ <-] | Hin]; [lia |]). destruct Hin.
Qed.

Ltac rule_steps H :=
  repeat first
    [ exact H
    | apply reaches_when; [| reflexivity]
    | apply reaches_flag; [| reflexivity]
    | lazymatch goal with
      | |- reaches _ _ (if ?c then _ else _) => destruct c
      | |- reaches _ _ (match ?l with [] => _ | _ :: _ => _ end) => destruct l
      end
    | apply reaches_skip ].

Section Run.

Variable s : CaptchaSession.

Lemma fingerprint_part_reaches r st st1 :
  reaches r st st1 ->
  reaches ("missing_fingerprint" :: "missing_canvas_fingerprint"
           :: "missing_timezone" :: "webdriver_detected"
           :: "invalid_screen_resolution" :: "suspicious_user_agent" :: r)
          st (fingerprint_part s st1).
Proof.
  intros H. unfold fingerprint_part.
  destruct (fingerprint s) as [fp |]; [| rule_steps H].
  destruct (negb _); [| rule_steps H].
  unfold fingerprint_rules. cbv zeta. apply reaches_skip. rule_steps H.
Qed.

Lemma trajectory_part_reaches r st st1 :
  reaches r st st1 ->
  reaches ("insufficient_trajectory_data" :: "no_movement_pauses"
           :: "low_slider_entropy" :: "uniform_delta_pattern"
           :: "linear_velocity_pattern" :: r)
          st (trajectory_part s st1).
Proof.
  intros H. unfold trajectory_part.
  destruct (trajectory s) as [traj |]; [| rule_steps H].
  destruct (_ && _); [| rule_steps H].
  unfold trajectory_rules. cbv zeta. apply reaches_skip. rule_steps H.
Qed.

Lemma behavior_part_reaches r st st1 :
  reaches r st st1 ->
  reaches ("missing_behavior_data" :: "low_event_count"
           :: "limited_mouse_movement" :: "insufficient_mouse_movement"
           :: "missing_mousedown" :: "suspiciously_slow" :: "very_fast"
           :: "suspiciously_fast" :: "invalid_behavior_duration" :: r)
          st (behavior_part s st1).
Proof.
  intros H. unfold behavior_part.
  destruct (behavior s) as [b |]; [| rule_steps H].
  unfold behavior_rules. cbv zeta. apply reaches_skip. rule_steps H.
Qed.

(** The flags of a run are a selection of the rule table, in its order,
    and the score before the clamp is 100 minus their points. *)
Lemma run_rules_spec :
  sublist (fst (run_rules s)) (map fst rule_table)
  /\ snd (run_rules s) = 100 - total_points (fst (run_rules s)).
Proof.
  pose proof (behavior_part_reaches _ _ _
               (trajectory_part_reaches _ _ _
                 (fingerprint_part_reaches _ _ _ (reaches_refl ([], 100)))))
    as (l & Hl & E).
  fold (run_rules s) in E. rewrite E. simpl. split; [exact Hl | reflexivity].
Qed.

End Run.

Lemma rule_table_NoDup : NoDup (map fst rule_table).
Proof. apply (bool_decide_unpack _). vm_compute. exact I. Qed.

Lemma points_of_nonneg name : 0 <= points_of name.
Proof.
  unfold points_of, rule_table. simpl.
  repeat (destruct (String.eqb name _); [lia |]). lia.
Qed.

Lemma total_points_submseteq l1 l2 :
  l1 ⊆+ l2 -> total_points l1 <= total_points l2.
Proof.
  induction 1 as [| x l1 l2 _ IH | x y l | x l1 l2 _ IH | l1 l2 l3 _ IH1 _ IH2];
    simpl; try lia.
  pose proof (points_of_nonneg x). lia.
Qed.

Lemma flags_NoDup s : NoDup (flags (analyze_bot_risk s)).
Proof.
  simpl. eapply sublist_NoDup; [apply rule_table_NoDup |].
  apply (proj1 (run_rules_spec s)).
Qed.

End RiskRules.

Section RiskClaims.


(** C10.  Two sessions with the same fingerprint, trajectory and behaviour
    get the same analysis, whatever their [solved_value]. *)
Theorem analyze_bot_risk_ignores_solved_value (s1 s2 : CaptchaSession) :
  fingerprint s1 = fingerprint s2 ->
  trajectory s1 = trajectory s2 ->
  behavior s1 = behavior s2 ->
  analyze_bot_risk s1 = analyze_bot_risk s2.
Proof.
  intros Hf Ht Hb.
  unfold analyze_bot_risk, run_rules, behavior_part, trajectory_part,
    fingerprint_part.
  rewrite Hf, Ht, Hb. reflexivity.
Qed.

End RiskClaims.

(** ** Proof-of-Work *)

Section HexDigests.

Lemma hex_digit_lowercase n : In (Py.hex_digit n) hex_alphabet.
Proof.
  unfold Py.hex_digit. apply nth_In.
  change (length hex_alphabet) with 16%nat.
  pose proof (Z.mod_pos_bound n 16). lia.
Qed.

Lemma hex_chars bs :
  list_ascii_of_string (Py.hex bs) = flat_map Py.hex_of_byte bs.
Proof. unfold Py.hex. apply list_ascii_of_string_of_list_ascii. Qed.

Lemma hex_length bs : String.length (Py.hex bs) = (2 * length bs)%nat.
Proof.
  assert (H : forall s, String.length s = length (list_ascii_of_string s)).
  { induction s as [| c s IH]; simpl; [reflexivity | by rewrite IH]. }
  rewrite H, hex_chars.
  induction bs as [| b bs IH]; simpl; [reflexivity | rewrite IH; lia].
Qed.

Lemma hex_lowercase bs :
  Forall (fun c => In c hex_alphabet) (list_ascii_of_string (Py.hex bs)).
Proof.
  rewrite hex_chars.
  induction bs as [| b bs IH]; simpl; [constructor |].
  constructor; [apply hex_digit_lowercase |].
  constructor; [apply hex_digit_lowercase | exact IH].
Qed.

Lemma hex_alphabet_ascii c : In c hex_alphabet -> Py.is_ascii_char c = true.
Proof.
  intros H. repeat (destruct H as [<- | H]; [reflexivity |]). destruct H.
Qed.

Lemma hex_isascii bs : Py.isascii (Py.hex bs) = true.
Proof.
  unfold Py.isascii. apply forallb_forall. intros c Hc.
  apply hex_alphabet_ascii.
  pose proof (hex_lowercase bs) as Hall.
  rewrite List.Forall_forall in Hall. by apply Hall.
Qed.

Lemma be_bytes_length n x : length (Sha256.be_bytes n x) = n.
Proof. unfold Sha256.be_bytes. by rewrite length_map, length_rev, length_seq. Qed.

Lemma sha256_length msg : length (Sha256.sha256 msg) = 32%nat.
Proof.
  unfold Sha256.sha256, Sha256.digest_of. cbv zeta.
  match goal with |- context [Sha256.blocks ?n ?h0 ?ws] =>
    generalize (Sha256.blocks n h0 ws) end. intros h.
  cbn [flat_map]. rewrite !length_app, !be_bytes_length. reflexivity.
Qed.

Lemma hmac_sha256_length key msg : length (Sha256.hmac_sha256 key msg) = 32%nat.
Proof. unfold Sha256.hmac_sha256. apply sha256_length. Qed.

Lemma hmac_hexdigest_length secret payload :
  String.length (hmac_hexdigest secret payload) = 64%nat.
Proof. unfold hmac_hexdigest. by rewrite hex_length, hmac_sha256_length. Qed.

Lemma compare_digest_same sig : Py.isascii sig = true -> Py.compare_digest sig sig = Returned true.
Proof.
  intros H. unfold Py.compare_digest. rewrite H. simpl. by rewrite String.eqb_refl.
Qed.

End HexDigests.

Section PoWClaims.

(** C2.  A challenge that [generate_pow_challenge] issues, for any key,
    difficulty, salt bytes and clock reading, carries the HMAC-SHA256 of
    "salt.difficulty.timestamp" as 64 lowercase hex digits; [verify_pow]
    recomputes the same value, so its signature check passes and it never
    answers "Invalid PoW signature." to the unmodified challenge. *)
Theorem issued_signature_verifies (env : pow_env) (d : Z) (urandom : list Z) (now : Q) :
  let c := generate_pow_challenge env d urandom now in
  signature c
    = Py.hex (Sha256.hmac_sha256 (Py.encode (POW_SERVER_SECRET env))
               (Py.encode (salt c +:+ "." +:+ Py.str_of_int (difficulty c)
                           +:+ "." +:+ Py.str_of_int (timestamp c))))
  /\ String.length (signature c) = 64%nat
  /\ Forall (fun ch => In ch hex_alphabet) (list_ascii_of_string (signature c))
  /\ forall ledger clk nonce,
       signature_passes env (salt c) (difficulty c) (timestamp c) (signature c)
       /\ fst (verify_pow env ledger clk (salt c) (difficulty c) (timestamp c)
                 (signature c) nonce)
          <> Returned (Some "Invalid PoW signature.").
Proof.
  intros c. subst c. cbn [generate_pow_challenge signature salt difficulty timestamp].
  split; [reflexivity |].
  split; [apply hmac_hexdigest_length |].
  split; [apply hex_lowercase |].
  intros ledger clk nonce.
  assert (Hpass : signature_passes env (Py.hex urandom) d (Py.int_of_float now)
            (hmac_hexdigest (POW_SERVER_SECRET env)
               (canonical_payload (Py.hex urandom) d (Py.int_of_float now)))).
  { apply compare_digest_same, hex_isascii. }
  split; [exact Hpass |].
  unfold verify_pow. cbv zeta. unfold signature_passes in Hpass. rewrite Hpass.
  destruct (_ || _); [discriminate |].
  destruct (_ !! _); [discriminate |].
  destruct (_verify_pow_nonce _ _ _ _) as [[|] | e]; discriminate.
Qed.

Lemma int_of_float_floor x : (0 <= x)%Q -> Py.int_of_float x = Qfloor x.
Proof.
  destruct x as [n d]. unfold Qle, Py.int_of_float, Qfloor. simpl. intros H.
  apply Z.quot_div_nonneg; lia.
Qed.

Lemma floor_after x y (k : Z) :
  (x + inject_Z k <= y)%Q -> Qfloor x + k <= Qfloor y.
Proof.
  intros H.
  pose proof (Qfloor_le x) as Hx. pose proof (Qlt_floor y) as Hy.
  assert (Hlt : (inject_Z (Qfloor x + k) < inject_Z (Qfloor y + 1))%Q).
  { rewrite inject_Z_plus. lra. }
  rewrite <- Zlt_Qlt in Hlt. lia.
Qed.

(** C3.  For a challenge that passes the signature check, [verify_pow]
    answers "PoW challenge expired." exactly when the age, the clock in
    whole seconds minus the timestamp, is negative or above 300; so a
    challenge stamped from a clock reading is refused as expired when it
    is presented 301 seconds or more after that reading. *)
Theorem verify_pow_freshness (env : pow_env) (ledger : gmap string Q)
    (clk : verify_clock) (salt : string) (d ts : Z) (sig : string) (nonce : Z) :
  signature_passes env salt d ts sig ->
  let age := Py.int_of_float (t_age clk) - ts in
  let result := fst (verify_pow env ledger clk salt d ts sig nonce) in
  (result = Returned (Some "PoW challenge expired.") <-> age < 0 \/ age > 300)
  /\ (forall issued_at : Q,
        (0 <= issued_at)%Q -> ts = Py.int_of_float issued_at ->
        (issued_at + inject_Z 301 <= t_age clk)%Q ->
        result = Returned (Some "PoW challenge expired.")).
Proof.
  intros Hsig age result.
  assert (Hiff : result = Returned (Some "PoW challenge expired.")
                 <-> age < 0 \/ age > 300).
  { subst result. unfold verify_pow. cbv zeta.
    unfold signature_passes in Hsig. rewrite Hsig. fold age.
    unfold POW_CHALLENGE_TTL.
    destruct ((age <? 0) || (age >? 300)) eqn:Hage.
    - simpl. split; [intros _ | reflexivity].
      apply orb_true_iff in Hage. lia.
    - apply orb_false_iff in Hage.
      split; [| lia].
      destruct (_ !! _); [discriminate |].
      destruct (_verify_pow_nonce _ _ _ _) as [[|] | e]; discriminate. }
  split; [exact Hiff |].
  intros issued_at H0 Hts Hlate. apply Hiff. right. subst age ts.
  rewrite (int_of_float_floor issued_at H0).
  rewrite int_of_float_floor
    by (change (inject_Z 301) with (301 # 1)%Q in Hlate; lra).
  pose proof (floor_after issued_at (t_age clk) 301 Hlate). lia.
Qed.




(** C1 fails on the code.  The demo challenge has timestamp 1740000000.
    Its nonce is presented at 1740000000.25 and accepted; the ledger entry
    expires at 1740000300.375.  Presented again at 1740000300.5 the
    challenge is still fresh (age 300 in whole seconds), the entry has
    just been purged, and the same (salt, nonce) is accepted again. *)
Theorem replayed_nonce_accepted_twice :
  run_calls reference_env ∅ [call_at first_clock; call_at replay_clock]
  = [Returned None; Returned None]
  /\ (t_age first_clock <= t_purge first_clock)%Q
  /\ (t_purge first_clock <= t_burn first_clock)%Q
  /\ (t_burn first_clock <= t_age replay_clock)%Q
  /\ (t_age replay_clock <= t_purge replay_clock)%Q
  /\ (t_purge replay_clock <= t_burn replay_clock)%Q.
Proof.
  split; [vm_compute; reflexivity |].
  repeat split; vm_compute; discriminate.
Qed.

End PoWClaims.

(** ** Verification coordinator *)

(** An image-mode request naming an id that is not in the store does not
    succeed. *)
Lemma image_miss_fails env st clk body cid resp :
  captcha_id body = Some cid ->
  is_video body = false ->
  captcha_sessions st !! cid = None ->
  fst (verify_captcha env st clk body) = Returned resp ->
  success resp = false.
Proof.
  intros Hid Hmode Hmiss. unfold verify_captcha. rewrite Hid.
  destruct (slider_value body) as [slider |];
    [| simpl; intros [= <-]; reflexivity].
  destruct (pow_salt body), (pow_nonce body), (pow_difficulty body),
    (pow_timestamp body), (pow_signature body);
    try (simpl; intros [= <-]; reflexivity).
  destruct (verify_pow _ _ _ _ _ _ _ _) as [[[msg |] | e] ledger];
    try (simpl; intros [= <-]; reflexivity); try discriminate.
  cbv zeta. fold (is_video body). rewrite Hmode.
  unfold verify_image. cbn [captcha_sessions]. rewrite Hmiss.
  simpl. intros [= <-]. reflexivity.
Qed.

Section CoordinatorClaims.

(** One request naming [cid], met by the service in the stores [st]. *)
Context (env : pow_env) (st : stores) (clk : verify_clock)
        (body : verify_body) (cid : string).
Hypothesis Hid : captcha_id body = Some cid.

(** Past the PoW gate, [verify_captcha] is its image or video branch on
    the stores with the updated ledger. *)
Lemma verify_captcha_after_gate :
  pow_gate_passed env st clk body = true ->
  exists slider ledger,
    slider_value body = Some slider
    /\ verify_captcha env st clk body
       = let st1 := mkStores (captcha_sessions st) (video_captcha_sessions st) ledger in
         let r := if is_video body then verify_video st1 cid slider body
                  else verify_image st1 cid slider body in
         (Returned (fst r), snd r).
Proof.
  intros Hgate. unfold pow_gate_passed in Hgate. unfold verify_captcha.
  rewrite Hid.
  destruct (slider_value body) as [slider |]; [| discriminate].
  destruct (pow_salt body), (pow_nonce body), (pow_difficulty body),
    (pow_timestamp body), (pow_signature body); try discriminate.
  destruct (verify_pow _ _ _ _ _ _ _ _) as [[[msg |] | e] ledger];
    try discriminate.
  exists slider, ledger. split; [reflexivity |].
  cbv zeta. fold (is_video body).
  destruct (is_video body);
    [destruct (verify_video _ _ _ _) | destruct (verify_image _ _ _ _)];
    reflexivity.
Qed.

(** Short of the PoW gate, the two session stores are left as they were. *)
Lemma verify_captcha_before_gate :
  pow_gate_passed env st clk body = false ->
  captcha_sessions (snd (verify_captcha env st clk body)) = captcha_sessions st
  /\ video_captcha_sessions (snd (verify_captcha env st clk body))
     = video_captcha_sessions st.
Proof.
  intros Hgate. unfold pow_gate_passed in Hgate. unfold verify_captcha.
  rewrite Hid.
  destruct (slider_value body) as [slider |]; [| by split].
  destruct (pow_salt body), (pow_nonce body), (pow_difficulty body),
    (pow_timestamp body), (pow_signature body); try by split.
  destruct (verify_pow _ _ _ _ _ _ _ _) as [[[msg |] | e] ledger];
    try discriminate; by split.
Qed.

(** C7, as the code has it.  An image-mode attempt naming [cid] that
    passes the PoW gate removes the session of [cid] from the store,
    whether it then succeeds or fails, and no later image-mode attempt
    naming [cid] succeeds; an attempt that stops before the gate is passed
    leaves the store as it was. *)
Theorem image_session_taken_past_pow_gate :
  is_video body = false ->
  let st' := snd (verify_captcha env st clk body) in
  (pow_gate_passed env st clk body = true ->
     captcha_sessions st' = delete cid (captcha_sessions st)
     /\ captcha_sessions st' !! cid = None
     /\ forall clk2 body2 resp,
          captcha_id body2 = Some cid -> is_video body2 = false ->
          fst (verify_captcha env st' clk2 body2) = Returned resp ->
          success resp = false)
  /\ (pow_gate_passed env st clk body = false ->
        captcha_sessions st' = captcha_sessions st).
Proof.
  intros Hmode st'. split.
  - intros Hgate.
    destruct (verify_captcha_after_gate Hgate) as (slider & ledger & Hs & E).
    assert (Hdel : captcha_sessions st' = delete cid (captcha_sessions st)).
    { subst st'. rewrite E. cbv zeta. rewrite Hmode. unfold verify_image.
      cbn [captcha_sessions snd].
      destruct (captcha_sessions st !! cid); reflexivity. }
    assert (Hnone : captcha_sessions st' !! cid = None).
    { rewrite Hdel. apply lookup_delete_eq. }
    split; [exact Hdel |]. split; [exact Hnone |].
    intros clk2 body2 resp Hid2 Hmode2 Hresp.
    by eapply image_miss_fails.
  - intros Hgate. subst st'.
    by destruct (verify_captcha_before_gate Hgate).
Qed.

Lemma round_nearest_floor x :
  Qfloor x <= round_nearest x <= Qfloor x + 1.
Proof.
  unfold round_nearest. cbv zeta.
  repeat match goal with |- context [if ?c then _ else _] => destruct c end; lia.
Qed.

End CoordinatorClaims.

(** ** Keyframe positions *)

Section KeyframeClaims.

Lemma gaps_ok_spec (ps : list Z) :
  gaps_ok ps = true <->
  forall i a b, ps !! i = Some a -> ps !! S i = Some b -> 8 <= b - a.
Proof.
  unfold gaps_ok, MIN_GAP. rewrite forallb_forall. split.
  - intros H i a b Ha Hb.
    assert (Hin : In i (seq 0 (length ps - 1))).
    { apply in_seq. apply lookup_lt_Some in Hb. lia. }
    specialize (H i Hin). rewrite !nth_lookup, Ha, Hb in H. simpl in H. lia.
  - intros H i Hin. apply in_seq in Hin.
    destruct (lookup_lt_is_Some_2 ps i) as [a Ha]; [lia |].
    destruct (lookup_lt_is_Some_2 ps (S i)) as [b Hb]; [lia |].
    rewrite !nth_lookup, Ha, Hb. simpl. specialize (H i a b Ha Hb). lia.
Qed.

Lemma retry_Some samples k n ps :
  retry samples k n = Some ps ->
  exists j, ps = [0] ++ merge_sort Z.le (samples j) ++ [100]
            /\ gaps_ok ps = true.
Proof.
  revert k. induction n as [| n IH]; intros k; simpl; [discriminate |].
  intros H.
  destruct (gaps_ok (0 :: merge_sort Z.le (samples k) ++ [100])) eqn:Hg.
  - injection H as <-. exists k. split; [reflexivity | exact Hg].
  - by apply (IH (S k)).
Qed.

Lemma fallback_cases n :
  3 <= n <= 5 ->
  (n = 3 /\ fallback n = [0; 25; 50; 75; 100])
  \/ (n = 4 /\ fallback n = [0; 20; 40; 60; 80; 100])
  \/ (n = 5 /\ fallback n = [0; 16; 32; 48; 64; 80; 100]).
Proof.
  intros H.
  assert (Hn : n = 3 \/ n = 4 \/ n = 5) by lia.
  destruct Hn as [-> | [-> | ->]]; [left | right; left | right; right];
    split; reflexivity.
Qed.

(** What does hold of every result, when [random.randint] and
    [random.sample] return what they are asked for: 0 first and 100 last,
    5 to 7 positions, every gap at least 8 (so strictly increasing) on
    both paths, and evenly spaced fallback positions for 3 or 4 interior
    points. *)
Lemma keyframe_positions_shape (num_interior : Z) (samples : nat -> list Z) :
  3 <= num_interior <= 5 ->
  (forall k, length (samples k) = Z.to_nat num_interior) ->
  let ps := _generate_keyframe_positions num_interior samples in
  head ps = Some 0 /\ last ps = Some 100
  /\ (5 <= length ps <= 7)%nat
  /\ (forall i a b, ps !! i = Some a -> ps !! S i = Some b -> 8 <= b - a)
  /\ (retry samples 0 200 = None -> num_interior <> 5 -> evenly_spaced ps).
Proof.
  intros Hn Hlen ps. subst ps. unfold _generate_keyframe_positions.
  destruct (retry samples 0 200) as [ps |] eqn:Hr.
  - destruct (retry_Some _ _ _ _ Hr) as (j & -> & Hg).
    split; [reflexivity |].
    split; [by rewrite app_assoc, last_snoc |].
    split.
    + simpl. rewrite length_app. simpl.
      rewrite (Permutation_length (merge_sort_Permutation Z.le (samples j))), Hlen.
      lia.
    + split; [by apply gaps_ok_spec | discriminate].
  - destruct (fallback_cases num_interior Hn) as [[-> ->] | [[-> ->] | [-> ->]]].
    + repeat split; try done; try (simpl; lia).
      * apply gaps_ok_spec. reflexivity.
      * intros _ _. exists 25. intros i a b Ha Hb.
        do 5 (destruct i as [| i]; [simpl in *; simplify_eq; lia |]).
        discriminate.
    + repeat split; try done; try (simpl; lia).
      * apply gaps_ok_spec. reflexivity.
      * intros _ _. exists 20. intros i a b Ha Hb.
        do 6 (destruct i as [| i]; [simpl in *; simplify_eq; lia |]).
        discriminate.
    + repeat split; try done; try (simpl; lia).
      apply gaps_ok_spec. reflexivity.
Qed.

(** C9 fails on the code.  With 5 interior points and 200 draws that miss
    the gap check, the fallback returns multiples of 100 // 6 = 16 and
    then 100: the last gap is 20 where the others are 16. *)
Theorem fallback_not_evenly_spaced :
  retry stuck_samples 0 200 = None
  /\ _generate_keyframe_positions 5 stuck_samples = [0; 16; 32; 48; 64; 80; 100]
  /\ ~ evenly_spaced (_generate_keyframe_positions 5 stuck_samples).
Proof.
  assert (E : _generate_keyframe_positions 5 stuck_samples
              = [0; 16; 32; 48; 64; 80; 100]) by (vm_compute; reflexivity).
  split; [vm_compute; reflexivity |]. split; [exact E |].
  rewrite E. intros [step H].
  pose proof (H 0%nat 0 16 eq_refl eq_refl).
  pose proof (H 5%nat 80 100 eq_refl eq_refl). lia.
Qed.

End KeyframeClaims.

(** ** The statements at concrete inputs *)

Section Instances.

Lemma demo_signature_passes :
  signature_passes reference_env (salt demo_challenge) (difficulty demo_challenge)
    (timestamp demo_challenge) (signature demo_challenge).
Proof. vm_compute. reflexivity. Defined.

(** The demo challenge, presented 301 s after it was issued, is refused
    as expired. *)
Lemma verify_pow_freshness_witness :
  fst (verify_pow reference_env ∅ late_clock (salt demo_challenge)
         (difficulty demo_challenge) (timestamp demo_challenge)
         (signature demo_challenge) demo_nonce)
  = Returned (Some "PoW challenge expired.").
Proof.
  pose proof (verify_pow_freshness reference_env ∅ late_clock
                (salt demo_challenge) (difficulty demo_challenge)
                (timestamp demo_challenge) (signature demo_challenge)
                demo_nonce demo_signature_passes) as H.
  cbv zeta in H. destruct H as [_ H].
  apply (H (13920000001 # 8)%Q).
  - vm_compute. discriminate.
  - vm_compute. reflexivity.
  - vm_compute. discriminate.
Defined.


Lemma analyze_bot_risk_ignores_solved_value_witness :
  analyze_bot_risk (human_session 17) = analyze_bot_risk (human_session 83).
Proof.
  apply analyze_bot_risk_ignores_solved_value; reflexivity.
Defined.

(** C7 as stated fails: an attempt naming the session but lacking the PoW
    fields is rejected and leaves the session in the store, where the next
    attempt finds it and succeeds. *)
Lemma image_session_survives_rejected_attempt :
  let out := verify_captcha reference_env one_image_session first_clock
               (body_without_pow "img-1" 42) in
  fst out = Returned {| success := false; analysis := None;
                        error := Some "Missing PoW fields." |}
  /\ captcha_sessions (snd out) !! "img-1" = Some (mkCaptchaSession 42 None None None)
  /\ exists a, fst (verify_captcha reference_env (snd out) first_clock
                      (demo_body "img-1" 42 None))
               = Returned {| success := true; analysis := Some a; error := None |}.
Proof.
  cbv zeta. split; [vm_compute; reflexivity |].
  split; [vm_compute; reflexivity |].
  eexists. vm_compute. reflexivity.
Qed.

(** Past the gate the session is gone, here after a wrong answer. *)
Lemma image_session_taken_past_pow_gate_witness :
  captcha_sessions
    (snd (verify_captcha reference_env one_image_session first_clock
            (demo_body "img-1" 90 None))) !! "img-1" = None.
Proof.
  pose proof (image_session_taken_past_pow_gate reference_env one_image_session
                first_clock (demo_body "img-1" 90 None) "img-1"
                eq_refl eq_refl) as H.
  cbv zeta in H. destruct H as [H _].
  apply H. vm_compute. reflexivity.
Defined.

End Instances.

(** * Further properties of the code *)

(** ** Parsing the telemetry *)

Section TelemetryProps.

Variable float_of_str : string -> option Q.

Lemma parse_point_time_delta point tp :
  parse_point float_of_str point = Some tp -> 0 <= time_delta_ms tp.
Proof.
  unfold parse_point. destruct point; try discriminate.
  repeat match goal with
         | |- context [match ?o with Some _ => _ | None => _ end] =>
             destruct o; try discriminate
         end.
  intros [= <-]. simpl. lia.
Qed.

Lemma omap_length_le {A B} (g : A -> option B) (l : list A) :
  (length (omap g l) <= length l)%nat.
Proof.
  induction l as [| a l IH]; csimpl; [lia |].
  destruct (g a); csimpl; lia.
Qed.

(** X1.  [parse_trajectory] hands the analyzer at most 600 points, each with a
    time delta that is not negative, whatever JSON it is given. *)
Theorem parse_trajectory_bounded (trajectory : json) :
  (length (parse_trajectory float_of_str trajectory) <= 600)%nat
  /\ Forall (fun tp => 0 <= time_delta_ms tp)
            (parse_trajectory float_of_str trajectory).
Proof.
  unfold parse_trajectory. destruct trajectory; try (split; [simpl; lia | constructor]).
  split.
  - etrans; [apply omap_length_le |]. rewrite length_take. lia.
  - apply Forall_forall. intros tp Htp.
    apply list_elem_of_omap in Htp as (point & _ & Hp).
    by eapply parse_point_time_delta.
Qed.

(** X2.  Only the first 600 items of the list are looked at, dropped or not;
    and an item that is skipped leaves the points of the others as they
    are. *)
Theorem parse_trajectory_skips :
  (forall items extra,
      (600 <= length items)%nat ->
      parse_trajectory float_of_str (JList (items ++ extra))
      = parse_trajectory float_of_str (JList items))
  /\ (forall before bad after,
        parse_point float_of_str bad = None ->
        (length (before ++ bad :: after) <= 600)%nat ->
        parse_trajectory float_of_str (JList (before ++ bad :: after))
        = parse_trajectory float_of_str (JList (before ++ after))).
Proof.
  split.
  - intros items extra Hlen. unfold parse_trajectory.
    by rewrite take_app_le.
  - intros before bad after Hbad Hlen. unfold parse_trajectory.
    rewrite length_app in Hlen. simpl in Hlen.
    rewrite !take_ge by (rewrite ?length_app; simpl; lia).
    rewrite !omap_app. simpl. by rewrite Hbad.
Qed.

End TelemetryProps.

Section BehaviorProps.

Lemma py_int_or_zero_falsy v :
  json_truthy v = false -> py_int (or_zero v) = Some 0.
Proof. intros H. unfold or_zero. by rewrite H. Qed.

(** X3.  [parse_behavior] answers only for a JSON object; the four counters
    it returns are never negative; and a field that is absent, null, zero
    or otherwise falsy comes out as 0. *)
Theorem parse_behavior_sanitised (behavior : json) (r : ParsedBehavior) :
  parse_behavior behavior = Some r ->
  exists d,
    behavior = JDict d
    /\ 0 <= pb_total_duration_ms r /\ 0 <= pb_event_count r
    /\ 0 <= pb_mouse_down_count r /\ 0 <= pb_mouse_move_count r
    /\ (json_truthy (dict_get d "start_time" (JInt 0)) = false -> pb_start_time r = 0)
    /\ (json_truthy (dict_get d "end_time" (JInt 0)) = false -> pb_end_time r = 0)
    /\ (json_truthy (dict_get d "total_duration_ms" (JInt 0)) = false ->
        pb_total_duration_ms r = 0)
    /\ (json_truthy (dict_get d "event_count" (JInt 0)) = false -> pb_event_count r = 0)
    /\ (json_truthy (dict_get d "mouse_down_count" (JInt 0)) = false ->
        pb_mouse_down_count r = 0)
    /\ (json_truthy (dict_get d "mouse_move_count" (JInt 0)) = false ->
        pb_mouse_move_count r = 0).
Proof.
  unfold parse_behavior. destruct behavior as [| | | | | | d]; try discriminate.
  destruct (py_int (or_zero (dict_get d "start_time" (JInt 0)))) as [a |] eqn:Ha;
    [| discriminate].
  destruct (py_int (or_zero (dict_get d "end_time" (JInt 0)))) as [b |] eqn:Hb;
    [| discriminate].
  destruct (py_int (or_zero (dict_get d "total_duration_ms" (JInt 0)))) as [c |] eqn:Hc;
    [| discriminate].
  destruct (py_int (or_zero (dict_get d "event_count" (JInt 0)))) as [e |] eqn:He;
    [| discriminate].
  destruct (py_int (or_zero (dict_get d "mouse_down_count" (JInt 0)))) as [g |] eqn:Hg;
    [| discriminate].
  destruct (py_int (or_zero (dict_get d "mouse_move_count" (JInt 0)))) as [h |] eqn:Hh;
    [| discriminate].
  intros [= <-]. exists d. cbn [pb_start_time pb_end_time pb_total_duration_ms
    pb_event_count pb_mouse_down_count pb_mouse_move_count].
  split; [reflexivity |].
  repeat split; try lia;
    intros Hf; apply py_int_or_zero_falsy in Hf; congruence || (simplify_eq; lia).
Qed.

End BehaviorProps.

(** ** Overlay position *)

Section BounceProps.

Local Open Scope Q_scope.

Lemma inject_Z_minus (a b : Z) : inject_Z (a - b) == inject_Z a - inject_Z b.
Proof. unfold Z.sub. rewrite inject_Z_plus, inject_Z_opp. reflexivity. Qed.

Lemma float_mod_range x m : 0 < m -> 0 <= float_mod x m /\ float_mod x m < m.
Proof.
  intros Hm. unfold float_mod.
  pose proof (Qfloor_le (x / m)) as H1.
  pose proof (Qlt_floor (x / m)) as H2.
  rewrite inject_Z_plus in H2.
  assert (Hx : x == (x / m) * m) by (field; lra).
  apply (Qmult_le_compat_r _ _ m) in H1; [| lra].
  apply (Qmult_lt_compat_r _ _ m) in H2; [| lra].
  rewrite <- Hx in H1, H2.
  change (inject_Z 1) with 1 in H2.
  split; lra.
Qed.

Lemma Qfloor_unit y : 0 <= y -> y < 1 -> Qfloor y = 0%Z.
Proof.
  intros H0 H1.
  pose proof (Qfloor_le y) as Hl. pose proof (Qlt_floor y) as Hu.
  assert (Ha : inject_Z (Qfloor y) < inject_Z 1) by (change (inject_Z 1) with 1; lra).
  assert (Hb : inject_Z (-1) < inject_Z (Qfloor y)).
  { rewrite inject_Z_plus in Hu. change (inject_Z 1) with 1 in Hu.
    change (inject_Z (-1)) with (-1 # 1). lra. }
  rewrite <- Zlt_Qlt in Ha, Hb. lia.
Qed.

Lemma float_mod_small x m : 0 <= x -> x < m -> float_mod x m == x.
Proof.
  intros H0 Hm. unfold float_mod.
  rewrite (Qfloor_unit (x / m)).
  - change (inject_Z 0) with 0. ring.
  - apply Qle_shift_div_l; lra.
  - apply Qlt_shift_div_r; lra.
Qed.

Lemma int_of_float_ceiling x : x <= 0 -> Py.int_of_float x = Qceiling x.
Proof.
  destruct x as [n d]. unfold Qle, Py.int_of_float, Qceiling, Qfloor, Qopp.
  simpl. intros H.
  replace n with (- - n)%Z at 1 by lia.
  rewrite Z.quot_opp_l by lia.
  rewrite Z.quot_div_nonneg by lia. reflexivity.
Qed.

Lemma int_of_float_comp x y : x == y -> Py.int_of_float x = Py.int_of_float y.
Proof.
  intros E. destruct (Qlt_le_dec x 0) as [Hneg | Hpos].
  - rewrite !int_of_float_ceiling by lra. by rewrite E.
  - rewrite !int_of_float_floor by lra. by rewrite E.
Qed.

Lemma int_of_float_between (a b : Z) x :
  inject_Z a <= x -> x <= inject_Z b ->
  (a <= Py.int_of_float x <= b)%Z.
Proof.
  intros Ha Hb. destruct (Qlt_le_dec x 0) as [Hneg | Hpos].
  - rewrite int_of_float_ceiling by lra.
    pose proof (Qceiling_resp_le _ _ Ha) as H1.
    pose proof (Qceiling_resp_le _ _ Hb) as H2.
    rewrite Qceiling_Z in H1, H2. lia.
  - rewrite int_of_float_floor by lra.
    pose proof (Qfloor_resp_le _ _ Ha) as H1.
    pose proof (Qfloor_resp_le _ _ Hb) as H2.
    rewrite Qfloor_Z in H1, H2. lia.
Qed.

Lemma Qlt_bool_true a b : Py.Qlt_bool a b = true <-> a < b.
Proof.
  unfold Py.Qlt_bool. rewrite negb_true_iff. split.
  - intros H. apply Qnot_le_lt. intros Hle. apply Qle_bool_iff in Hle. congruence.
  - intros H. destruct (Qle_bool b a) eqn:E; [| reflexivity].
    apply Qle_bool_iff in E. lra.
Qed.

Lemma Qlt_bool_false a b : Py.Qlt_bool a b = false <-> b <= a.
Proof.
  unfold Py.Qlt_bool. rewrite negb_false_iff. apply Qle_bool_iff.
Qed.

(** The folded value [normalized] of [_bounce_pos] lies in [0, span]. *)
Lemma bounce_fold_range (v : Q) (span : Z) :
  (0 < span)%Z ->
  let n := float_mod v (inject_Z (2 * span)) in
  let n' := if Py.Qlt_bool (inject_Z span) n then inject_Z (2 * span) - n else n in
  0 <= n' /\ n' <= inject_Z span.
Proof.
  intros Hs n n'.
  assert (H2 : inject_Z (2 * span) == 2 * inject_Z span).
  { rewrite inject_Z_mult. reflexivity. }
  assert (Hpos : 0 < inject_Z span).
  { change 0 with (inject_Z 0). rewrite <- Zlt_Qlt. lia. }
  destruct (float_mod_range v (inject_Z (2 * span))) as [Hn0 Hn1]; [lra |].
  fold n in Hn0, Hn1. subst n'.
  destruct (Py.Qlt_bool (inject_Z span) n) eqn:E.
  - apply Qlt_bool_true in E. split; lra.
  - apply Qlt_bool_false in E. split; lra.
Qed.

(** X4.  [_bounce_pos] lands in [minimum, maximum] for every value when the
    interval is not empty, so an overlay placed at
    [_bounce_pos(raw, 0, max_x - roi_size)] lies inside the frame; when
    [maximum <= minimum] it answers [minimum]. *)
Theorem bounce_pos_in_range (value : Q) (minimum maximum : Z) :
  ((minimum <= maximum)%Z ->
   (minimum <= _bounce_pos value minimum maximum <= maximum)%Z)
  /\ ((maximum <= minimum)%Z -> _bounce_pos value minimum maximum = minimum).
Proof.
  unfold _bounce_pos. cbv zeta. split; intros H.
  - destruct (maximum - minimum <=? 0)%Z eqn:E; [apply Z.leb_le in E; lia |].
    apply Z.leb_gt in E.
    destruct (bounce_fold_range (value - inject_Z minimum) (maximum - minimum) E)
      as [H0 H1].
    cbv zeta in H0, H1.
    apply int_of_float_between.
    + lra.
    + pose proof (inject_Z_minus maximum minimum). lra.
  - destruct (maximum - minimum <=? 0)%Z eqn:E; [reflexivity |].
    apply Z.leb_gt in E. lia.
Qed.

(** X5.  A value already inside the interval stays where it is, up to the
    cut to a whole number, and a value past [maximum] by less than the
    span comes back as far as it went out. *)
Theorem bounce_pos_reflects (value : Q) (minimum maximum : Z) :
  (minimum < maximum)%Z ->
  (inject_Z minimum <= value -> value <= inject_Z maximum ->
   _bounce_pos value minimum maximum = Py.int_of_float value)
  /\ (forall d : Q,
        0 <= d -> d < inject_Z (maximum - minimum) ->
        _bounce_pos (inject_Z maximum + d) minimum maximum
        = _bounce_pos (inject_Z maximum - d) minimum maximum).
Proof.
  intros Hlt.
  assert (Hs : (0 < maximum - minimum)%Z) by lia.
  assert (Hspan : inject_Z (maximum - minimum) == inject_Z maximum - inject_Z minimum)
    by apply inject_Z_minus.
  assert (H2 : inject_Z (2 * (maximum - minimum))
               == 2 * (inject_Z maximum - inject_Z minimum)).
  { rewrite inject_Z_mult, inject_Z_minus. reflexivity. }
  assert (Hpos : 0 < inject_Z maximum - inject_Z minimum).
  { rewrite <- Hspan. change 0 with (inject_Z 0). rewrite <- Zlt_Qlt. lia. }
  assert (Hin : forall v, inject_Z minimum <= v -> v <= inject_Z maximum ->
            _bounce_pos v minimum maximum = Py.int_of_float v).
  { intros v Hlo Hhi. unfold _bounce_pos. cbv zeta.
    destruct (maximum - minimum <=? 0)%Z eqn:E; [apply Z.leb_le in E; lia |].
    assert (Hm : float_mod (v - inject_Z minimum) (inject_Z (2 * (maximum - minimum)))
                 == v - inject_Z minimum) by (apply float_mod_small; lra).
    destruct (Py.Qlt_bool _ _) eqn:B.
    - apply Qlt_bool_true in B. rewrite Hm in B. lra.
    - apply int_of_float_comp. rewrite Hm. ring. }
  split; [apply Hin |].
  intros d Hd0 Hd1.
  rewrite (Hin (inject_Z maximum - d)) by lra.
  unfold _bounce_pos. cbv zeta.
  destruct (maximum - minimum <=? 0)%Z eqn:E; [apply Z.leb_le in E; lia |].
  assert (Hm : float_mod (inject_Z maximum + d - inject_Z minimum)
                 (inject_Z (2 * (maximum - minimum)))
               == inject_Z maximum + d - inject_Z minimum)
    by (apply float_mod_small; lra).
  destruct (Py.Qlt_bool _ _) eqn:B.
  - apply int_of_float_comp. rewrite Hm, H2. ring.
  - apply Qlt_bool_false in B. rewrite Hm in B.
    assert (Hd : d == 0) by lra.
    apply int_of_float_comp. rewrite Hm, Hd. ring.
Qed.

End BounceProps.

Section VideoStoreProps.

(** How [verify_captcha] can change the two session stores: not at all,
    or by removing the entry of the id it was given. *)
Lemma verify_captcha_stores env st clk body :
  let st' := snd (verify_captcha env st clk body) in
  (video_captcha_sessions st' = video_captcha_sessions st
   \/ exists cid, captcha_id body = Some cid /\ is_video body = true
                  /\ video_captcha_sessions st' = delete cid (video_captcha_sessions st))
  /\ (captcha_sessions st' = captcha_sessions st
      \/ exists cid, captcha_id body = Some cid /\ is_video body = false
                     /\ captcha_sessions st' = delete cid (captcha_sessions st)).
Proof.
  cbv zeta. unfold verify_captcha.
  destruct (captcha_id body) as [cid |]; [| by split; left].
  destruct (slider_value body) as [slider |]; [| by split; left].
  destruct (pow_salt body), (pow_nonce body), (pow_difficulty body),
    (pow_timestamp body), (pow_signature body); try by split; left.
  destruct (verify_pow _ _ _ _ _ _ _ _) as [[[msg |] | e] ledger];
    try by split; left.
  cbv zeta. fold (is_video body).
  destruct (is_video body) eqn:Hmode.
  - unfold verify_video. cbn [video_captcha_sessions captcha_sessions].
    destruct (video_captcha_sessions st !! cid) as [ch |]; [| by split; left].
    destruct (_ && _); cbn; split; eauto.
  - unfold verify_image. cbn [video_captcha_sessions captcha_sessions].
    destruct (captcha_sessions st !! cid) as [session |]; cbn; split; eauto.
Qed.

End VideoStoreProps.

Section VideoProps.

Lemma clamp_unit (x : Q) : (0 <= Qmax 0 (Qmin 1 x))%Q /\ (Qmax 0 (Qmin 1 x) <= 1)%Q.
Proof.
  split.
  - apply Q.le_max_l.
  - apply Q.max_lub; [discriminate | apply Q.le_min_l].
Qed.

(** X6.  A slider update changes nothing but the [current_slider] of the
    session it names, which it sets inside [0, 1]: the secret target, the
    geometry, the other sessions, the image sessions and the nonce ledger
    stay as they are; an update that fails changes nothing at all. *)
Theorem update_video_slider_effect (st : stores) (cid : option string) (sv : option Q) :
  let out := update_video_slider st cid sv in
  captcha_sessions (snd out) = captcha_sessions st
  /\ pow_used_nonces (snd out) = pow_used_nonces st
  /\ (success (fst out) = false -> snd out = st)
  /\ forall id ch',
       video_captcha_sessions (snd out) !! id = Some ch' ->
       exists ch,
         video_captcha_sessions st !! id = Some ch
         /\ secret_target ch' = secret_target ch
         /\ (roi_true_x ch', roi_true_y ch', roi_start_x ch', roi_start_y ch', roi_size ch')
            = (roi_true_x ch, roi_true_y ch, roi_start_x ch, roi_start_y ch, roi_size ch)
         /\ (cid <> Some id -> ch' = ch)
         /\ (cid = Some id -> success (fst out) = true ->
             (0 <= current_slider ch')%Q /\ (current_slider ch' <= 1)%Q).
Proof.
  cbv zeta. unfold update_video_slider.
  destruct cid as [cid |], sv as [sv |];
    try (cbn; repeat split; try done; intros id ch' H; exists ch'; repeat split; done).
  destruct (video_captcha_sessions st !! cid) as [ch0 |] eqn:Hcid;
    [| cbn; repeat split; try done; intros id ch' H; exists ch'; repeat split; done].
  cbn [fst snd captcha_sessions pow_used_nonces video_captcha_sessions success].
  split; [reflexivity |]. split; [reflexivity |]. split; [discriminate |].
  intros id ch' H. destruct (decide (cid = id)) as [-> | Hne].
  - rewrite lookup_insert_eq in H. injection H as <-.
    exists ch0. cbn.
    split; [done |]. split; [done |]. split; [done |].
    split; [intros Hc; by destruct Hc |].
    intros _ _. apply clamp_unit.
  - rewrite lookup_insert_ne in H by done.
    exists ch'. split; [done |]. split; [done |]. split; [done |].
    split; [done |]. intros [= ->]. done.
Qed.

(** X7.  The live slider position has no say in verification: after any
    slider update [verify_captcha] gives the response it would have given
    without it. *)
Theorem slider_update_does_not_affect_verification
    (env : pow_env) (st : stores) (cid : option string) (sv : option Q)
    (clk : verify_clock) (body : verify_body) :
  fst (verify_captcha env (snd (update_video_slider st cid sv)) clk body)
  = fst (verify_captcha env st clk body).
Proof.
  unfold update_video_slider.
  destruct cid as [cid |], sv as [sv |]; try reflexivity.
  destruct (video_captcha_sessions st !! cid) as [ch0 |] eqn:Hcid; [| reflexivity].
  cbn [snd]. unfold verify_captcha.
  cbn [captcha_sessions pow_used_nonces video_captcha_sessions].
  destruct (captcha_id body) as [id |]; [| reflexivity].
  destruct (slider_value body) as [slider |]; [| reflexivity].
  destruct (pow_salt body), (pow_nonce body), (pow_difficulty body),
    (pow_timestamp body), (pow_signature body); try reflexivity.
  destruct (verify_pow _ _ _ _ _ _ _ _) as [[[msg |] | e] ledger]; try reflexivity.
  cbv zeta. destruct (String.eqb _ "video").
  - unfold verify_video. cbn [video_captcha_sessions].
    destruct (decide (cid = id)) as [-> | Hne].
    + rewrite lookup_insert_eq, Hcid. reflexivity.
    + rewrite lookup_insert_ne by done.
      destruct (video_captcha_sessions st !! id); reflexivity.
  - unfold verify_image. cbn [captcha_sessions].
    destruct (captcha_sessions st !! id); reflexivity.
Qed.

(** X8.  [generate_video_captcha] raises only for a missing or unreadable
    asset or a frame without area, never from [random.randint], and then
    leaves the stores alone.  When it returns, the new session sits under
    the returned id with the drawn target, slider 0 and an overlay side
    between 1 and the shorter frame side; the other sessions are as
    before. *)
Theorem generate_video_captcha_session (asset : video_asset) (draws : video_draws)
    (st : stores) :
  let out := generate_video_captcha asset draws st in
  match fst out with
  | Raised e =>
      snd out = st /\ e <> "ValueError"
      /\ (asset_exists asset = false \/ asset_opens asset = false
          \/ Py.int_of_float (prop_frame_width asset) <= 0
          \/ Py.int_of_float (prop_frame_height asset) <= 0)
  | Returned p =>
      asset_exists asset = true /\ asset_opens asset = true
      /\ width p = Py.int_of_float (prop_frame_width asset) /\ 0 < width p
      /\ height p = Py.int_of_float (prop_frame_height asset) /\ 0 < height p
      /\ vp_captcha_id p = draw_captcha_id draws
      /\ (slider_min p, slider_max p, slider_start p) = (0, 1000, 0)
      /\ captcha_sessions (snd out) = captcha_sessions st
      /\ pow_used_nonces (snd out) = pow_used_nonces st
      /\ (forall id, id <> vp_captcha_id p ->
            video_captcha_sessions (snd out) !! id = video_captcha_sessions st !! id)
      /\ exists ch,
           video_captcha_sessions (snd out) !! vp_captcha_id p = Some ch
           /\ secret_target ch = draw_target draws
           /\ current_slider ch = 0%Q
           /\ 1 <= roi_size ch <= Z.min (width p) (height p)
  end.
Proof.
  cbv zeta. unfold generate_video_captcha.
  destruct (asset_exists asset); cbn [negb]; [| cbn; repeat split; auto; discriminate].
  destruct (asset_opens asset); cbn [negb]; [| cbn; repeat split; auto; discriminate].
  cbv zeta.
  set (w := Py.int_of_float (prop_frame_width asset)).
  set (h := Py.int_of_float (prop_frame_height asset)).
  destruct ((w <=? 0) || (h <=? 0)) eqn:E.
  { cbn. repeat split; [discriminate |].
    apply orb_true_iff in E. destruct E as [E | E]; apply Z.leb_le in E; auto. }
  apply orb_false_iff in E. destruct E as [Ew Eh].
  apply Z.leb_gt in Ew, Eh.
  assert (Hroi : 1 <= roi_size_of w h <= Z.min w h).
  { unfold roi_size_of. cbv zeta. lia. }
  unfold randint.
  destruct (w - roi_size_of w h <? 0) eqn:Ex; [apply Z.ltb_lt in Ex; lia |].
  destruct (h - roi_size_of w h <? 0) eqn:Ey; [apply Z.ltb_lt in Ey; lia |].
  cbn [fst snd width height vp_captcha_id slider_min slider_max slider_start
       captcha_sessions pow_used_nonces video_captcha_sessions].
  repeat split; try done.
  - intros id Hne. by rewrite lookup_insert_ne.
  - eexists. rewrite lookup_insert_eq. repeat split; cbn; lia.
Qed.

(** X9.  Every stored slider position stays inside [0, 1] across the three
    operations on video sessions. *)
Theorem sliders_stay_in_range (st : stores) :
  sliders_in_range st ->
  (forall asset draws, sliders_in_range (snd (generate_video_captcha asset draws st)))
  /\ (forall cid sv, sliders_in_range (snd (update_video_slider st cid sv)))
  /\ (forall env clk body, sliders_in_range (snd (verify_captcha env st clk body))).
Proof.
  intros Hinv. split; [| split].
  - intros asset draws id ch. unfold generate_video_captcha, randint.
    repeat match goal with
           | |- context [if ?c then _ else _] => destruct c; cbv zeta
           end;
      cbn [snd video_captcha_sessions]; try apply Hinv.
    intros H.
    destruct (decide (draw_captcha_id draws = id)) as [E | Hne]; [subst id |].
    + rewrite lookup_insert_eq in H. injection H as <-. cbn. split; discriminate.
    + rewrite lookup_insert_ne in H by done. by eapply Hinv.
  - intros cid sv id ch. unfold update_video_slider.
    destruct cid as [cid |], sv as [sv |]; try apply Hinv.
    destruct (video_captcha_sessions st !! cid) as [ch0 |]; [| apply Hinv].
    cbn [snd video_captcha_sessions]. intros H.
    destruct (decide (cid = id)) as [-> | Hne].
    + rewrite lookup_insert_eq in H. injection H as <-. cbn. apply clamp_unit.
    + rewrite lookup_insert_ne in H by done. by eapply Hinv.
  - intros env clk body id ch H.
    destruct (verify_captcha_stores env st clk body) as [[Hv | (cid & _ & _ & Hv)] _];
      cbv zeta in Hv; rewrite Hv in H.
    + by eapply Hinv.
    + apply lookup_delete_Some in H as [_ H]. by eapply Hinv.
Qed.

End VideoProps.

(** ** The nonce ledger and [verify_pow] *)

Section LedgerProps.

Lemma Qle_bool_false a b : Qle_bool a b = false <-> (b < a)%Q.
Proof.
  split.
  - intros H. apply Qnot_le_lt. intros Hle. apply Qle_bool_iff in Hle. congruence.
  - intros H. destruct (Qle_bool a b) eqn:E; [| reflexivity].
    apply Qle_bool_iff in E. lra.
Qed.

Lemma purge_lookup now (ledger : gmap string Q) key exp :
  _purge_expired_nonces now ledger !! key = Some exp
  <-> ledger !! key = Some exp /\ (now < exp)%Q.
Proof.
  unfold _purge_expired_nonces. rewrite map_lookup_filter_Some. simpl.
  by rewrite Qle_bool_false.
Qed.

Lemma purge_lookup_None now (ledger : gmap string Q) key :
  ledger !! key = None -> _purge_expired_nonces now ledger !! key = None.
Proof.
  intros H. destruct (_purge_expired_nonces now ledger !! key) eqn:E; [| done].
  apply purge_lookup in E as [E _]. congruence.
Qed.

(** X10.  [_purge_expired_nonces] keeps exactly the entries that expire
    strictly after its clock reading, adds none, and a second purge at
    an earlier or equal reading removes nothing more. *)
Theorem purge_keeps_exactly_live (now : Q) (ledger : gmap string Q) :
  (forall key exp,
      _purge_expired_nonces now ledger !! key = Some exp
      <-> ledger !! key = Some exp /\ (now < exp)%Q)
  /\ (forall earlier, (earlier <= now)%Q ->
        _purge_expired_nonces earlier (_purge_expired_nonces now ledger)
        = _purge_expired_nonces now ledger).
Proof.
  split; [intros; apply purge_lookup |].
  intros earlier Hle. apply map_eq. intros key.
  destruct (_purge_expired_nonces now ledger !! key) as [exp |] eqn:E.
  - apply purge_lookup. split; [exact E |].
    apply purge_lookup in E as [_ E]. lra.
  - by apply purge_lookup_None.
Qed.

End LedgerProps.

Section VerifyPowProps.

Context (env : pow_env) (ledger : gmap string Q) (clk : verify_clock)
        (salt : string) (d ts : Z) (sig : string) (nonce : Z).

Let age : Z := Py.int_of_float (t_age clk) - ts.
Let key : string := replay_key salt nonce.
Let purged : gmap string Q := _purge_expired_nonces (t_purge clk) ledger.
Let out := verify_pow env ledger clk salt d ts sig nonce.

(** What [verify_pow] does once the four checks pass. *)
Lemma verify_pow_accepts :
  signature_passes env salt d ts sig ->
  0 <= age <= 300 ->
  purged !! key = None ->
  _verify_pow_nonce env salt d nonce = Returned true ->
  out = (Returned None, <[key := (t_burn clk + inject_Z 300)%Q]> purged).
Proof.
  intros Hsig Hage Hfree Hhash. subst out. unfold verify_pow. cbv zeta.
  unfold signature_passes in Hsig. rewrite Hsig. fold age.
  unfold POW_CHALLENGE_TTL.
  destruct ((age <? 0) || (age >? 300)) eqn:E; [apply orb_true_iff in E; lia |].
  fold purged. fold key. rewrite Hfree, Hhash. reflexivity.
Qed.

Lemma verify_pow_success_inv :
  fst out = Returned None ->
  signature_passes env salt d ts sig
  /\ 0 <= age <= 300
  /\ purged !! key = None
  /\ _verify_pow_nonce env salt d nonce = Returned true.
Proof.
  subst out. unfold verify_pow, signature_passes. cbv zeta. fold age.
  unfold POW_CHALLENGE_TTL.
  destruct (Py.compare_digest _ _) as [[|] | e]; try discriminate.
  destruct ((age <? 0) || (age >? 300)) eqn:E; [discriminate |].
  apply orb_false_iff in E.
  fold purged. fold key.
  destruct (purged !! key) eqn:Hk; [discriminate |].
  destruct (_verify_pow_nonce env salt d nonce) as [[|] | e]; try discriminate.
  intros _. repeat split; try done; lia.
Qed.

Lemma c_int_range x : -2147483648 <= c_int x < 2147483648.
Proof. unfold c_int. pose proof (Z.mod_pos_bound (x + 2147483648) 4294967296). lia. Qed.

(** X11.  [verify_pow] returns [None] exactly when the signature matches, the
    age in whole seconds is within 0..300, the key is not in the purged
    ledger and the native solver, loaded and given an ASCII salt, returns
    the nonce; so without the solver library, or for a nonce outside the
    signed 32-bit range, no call succeeds. *)
Theorem verify_pow_succeeds_iff :
  (fst out = Returned None
   <-> signature_passes env salt d ts sig
       /\ 0 <= age <= 300
       /\ purged !! key = None
       /\ exists solve,
            _native_solver env = Some solve
            /\ Py.isascii salt = true
            /\ c_int (solve (map Py.code (list_ascii_of_string salt))
                            (c_int d) (c_int nonce) 1) = nonce)
  /\ (fst out = Returned None ->
      -2147483648 <= nonce < 2147483648 /\ _native_solver env <> None).
Proof.
  assert (Hhash : _verify_pow_nonce env salt d nonce = Returned true
                  <-> exists solve,
                        _native_solver env = Some solve
                        /\ Py.isascii salt = true
                        /\ c_int (solve (map Py.code (list_ascii_of_string salt))
                                        (c_int d) (c_int nonce) 1) = nonce).
  { unfold _verify_pow_nonce, Py.encode_ascii.
    destruct (_native_solver env) as [solve |].
    - destruct (Py.isascii salt); simpl.
      + split.
        * intros [= H]. apply Z.eqb_eq in H. eauto.
        * intros (s' & [= <-] & _ & H). by rewrite H, Z.eqb_refl.
      + split; [discriminate | intros (? & _ & ? & _); discriminate].
    - split; [discriminate | intros (? & ? & _); discriminate]. }
  split.
  - split.
    + intros H. destruct (verify_pow_success_inv H) as (? & ? & ? & Hh).
      repeat split; try done; try lia. by apply Hhash.
    + intros (Hsig & Hage & Hfree & Hs).
      apply Hhash in Hs. by rewrite (verify_pow_accepts Hsig Hage Hfree Hs).
  - intros H. destruct (verify_pow_success_inv H) as (_ & _ & _ & Hh).
    apply Hhash in Hh as (solve & Hsolve & _ & Hn).
    split; [| congruence].
    rewrite <- Hn. apply c_int_range.
Qed.



End VerifyPowProps.

Section ReplayKeys.

Lemma uint_digits_no_colon (u : Decimal.uint) :
  no_colon (DecimalString.NilEmpty.string_of_uint u).
Proof.
  unfold no_colon.
  induction u; simpl; intros H; try (destruct H as [H | H]; [discriminate | auto]);
    auto.
Qed.

Lemma str_of_int_no_colon n : no_colon (Py.str_of_int n).
Proof.
  unfold Py.str_of_int, DecimalString.NilZero.string_of_int,
    DecimalString.NilZero.string_of_uint.
  destruct (Z.to_int n) as [u | u]; destruct u;
    try apply uint_digits_no_colon;
    unfold no_colon; simpl; intros H;
    repeat (destruct H as [H | H]; [discriminate |]);
    try (by apply (uint_digits_no_colon u)); auto.
Qed.

Lemma str_of_int_inj a b : Py.str_of_int a = Py.str_of_int b -> a = b.
Proof.
  unfold Py.str_of_int. intros H.
  assert (Hnn : forall n, Z.to_int n <> Decimal.Pos Decimal.Nil
                          /\ Z.to_int n <> Decimal.Neg Decimal.Nil).
  { intros [| p | p]; simpl; split; try discriminate;
      intros [= E]; by apply DecimalPos.Unsigned.to_uint_nonnil in E. }
  assert (E : Some (Z.to_int a) = Some (Z.to_int b)).
  { rewrite <- (DecimalString.NilZero.isi (Z.to_int a)) by apply Hnn.
    rewrite <- (DecimalString.NilZero.isi (Z.to_int b)) by apply Hnn.
    by rewrite H. }
  injection E as E.
  rewrite <- (DecimalZ.of_to a), <- (DecimalZ.of_to b).
  by rewrite E.
Qed.

Lemma append_nil_l (s : string) : "" +:+ s = s.
Proof. reflexivity. Qed.

Lemma append_cons (c : ascii) (a s : string) : String c a +:+ s = String c (a +:+ s).
Proof. reflexivity. Qed.

Lemma colon_in_middle (a r : string) :
  In ":"%char (list_ascii_of_string (a +:+ String ":" r)).
Proof.
  induction a as [| x a IH].
  - rewrite append_nil_l. simpl. auto.
  - rewrite append_cons. simpl. auto.
Qed.

Lemma split_at_last_colon (a a' r r' : string) :
  no_colon r -> no_colon r' ->
  a +:+ ":" +:+ r = a' +:+ ":" +:+ r' -> a = a' /\ r = r'.
Proof.
  unfold no_colon. intros Hr Hr'. revert a'.
  change (":" +:+ r) with (String ":" r). change (":" +:+ r') with (String ":" r').
  induction a as [| c a IH]; intros [| c' a'];
    rewrite ?append_nil_l, ?append_cons.
  - intros [= H]. by subst.
  - intros [= Hc H]. exfalso. apply Hr. rewrite H. apply colon_in_middle.
  - intros [= Hc H]. exfalso. apply Hr'. rewrite <- H. apply colon_in_middle.
  - intros [= Hc H]. destruct (IH a' H) as [E1 E2]. by subst.
Qed.

(** X13.  The ledger key tells the pair apart: two presentations share a key
    only when they share both salt and nonce, so a nonce burned for one
    pair never makes [verify_pow] answer "already used" or change the
    entry for another. *)
Theorem replay_key_injective (salt1 salt2 : string) (nonce1 nonce2 : Z) :
  (replay_key salt1 nonce1 = replay_key salt2 nonce2 ->
   salt1 = salt2 /\ nonce1 = nonce2)
  /\ forall env ledger clk d ts sig,
       (salt1, nonce1) <> (salt2, nonce2) ->
       snd (verify_pow env ledger clk salt1 d ts sig nonce1)
         !! replay_key salt2 nonce2
       = ledger !! replay_key salt2 nonce2
       \/ snd (verify_pow env ledger clk salt1 d ts sig nonce1)
            !! replay_key salt2 nonce2
          = _purge_expired_nonces (t_purge clk) ledger !! replay_key salt2 nonce2.
Proof.
  assert (Hinj : replay_key salt1 nonce1 = replay_key salt2 nonce2 ->
                 salt1 = salt2 /\ nonce1 = nonce2).
  { unfold replay_key. intros H.
    apply split_at_last_colon in H as [-> H]; try apply str_of_int_no_colon.
    split; [done | by apply str_of_int_inj]. }
  split; [exact Hinj |].
  intros env ledger clk d ts sig Hne.
  assert (Hk : replay_key salt1 nonce1 <> replay_key salt2 nonce2).
  { intros H. apply Hinj in H as [-> ->]. by apply Hne. }
  unfold verify_pow. cbv zeta.
  destruct (Py.compare_digest _ _) as [[|] | e]; cbn [snd]; try by left.
  destruct (_ || _); cbn [snd]; [by left |].
  destruct (_ !! replay_key salt1 nonce1); cbn [snd]; [by right |].
  destruct (_verify_pow_nonce _ _ _ _) as [[|] | e]; cbn [snd]; try by right.
  right. by rewrite lookup_insert_ne.
Qed.

End ReplayKeys.

Section PowRoundTrips.




End PowRoundTrips.

(** ** Outcomes of [verify_captcha] *)

Section CoordinatorProps.

Context (env : pow_env) (st : stores) (clk : verify_clock) (body : verify_body).

Let out := verify_captcha env st clk body.





(** X19.  [verify_captcha] touches at most the session named in the request,
    and only in the store of the requested mode: a video-mode request
    leaves the image sessions alone, an image-mode request the video
    sessions, and sessions under other ids are never changed. *)
Theorem verify_captcha_store_frame :
  (is_video body = true -> captcha_sessions (snd out) = captcha_sessions st)
  /\ (is_video body = false ->
      video_captcha_sessions (snd out) = video_captcha_sessions st)
  /\ forall id,
       captcha_id body <> Some id ->
       captcha_sessions (snd out) !! id = captcha_sessions st !! id
       /\ video_captcha_sessions (snd out) !! id = video_captcha_sessions st !! id.
Proof.
  destruct (verify_captcha_stores env st clk body) as [Hv Hi].
  cbv zeta in Hv, Hi. fold out in Hv, Hi.
  split; [| split].
  - intros Hmode. destruct Hi as [Hi | (cid & _ & Hm & _)]; [done | congruence].
  - intros Hmode. destruct Hv as [Hv | (cid & _ & Hm & _)]; [done | congruence].
  - intros id Hne. split.
    + destruct Hi as [-> | (cid & Hc & _ & ->)]; [done |].
      apply lookup_delete_ne. congruence.
    + destruct Hv as [-> | (cid & Hc & _ & ->)]; [done |].
      apply lookup_delete_ne. congruence.
Qed.

End CoordinatorProps.

Section ReplayedRequest.


End ReplayedRequest.

(** ** More on the risk analysis *)

Section RiskProps.

Lemma total_points_nonneg l : 0 <= total_points l.
Proof.
  induction l as [| n l IH]; simpl; [lia |].
  pose proof (points_of_nonneg n). lia.
Qed.

Lemma reaches_lowers r st st1 : reaches r st st1 -> snd st1 <= snd st.
Proof.
  intros (l & _ & ->). simpl. pose proof (total_points_nonneg l). lia.
Qed.

Variable s : CaptchaSession.

(** X22.  The flags of an analysis are pairwise distinct names of the rule
    table, listed in the order of the rules. *)
Theorem flags_in_rule_order :
  sublist (flags (analyze_bot_risk s)) (map fst rule_table)
  /\ NoDup (flags (analyze_bot_risk s)).
Proof.
  split; [apply (proj1 (run_rules_spec s)) | apply flags_NoDup].
Qed.

End RiskProps.

Section EndpointProps.

Lemma analysis_of_empty_trajectory sv fp beh :
  analyze_bot_risk (mkCaptchaSession sv fp (Some []) beh)
  = analyze_bot_risk (mkCaptchaSession 0 fp None beh).
Proof. reflexivity. Qed.

(** X23.  The two endpoints judge the same telemetry alike: the risk score
    behind the difficulty that POST /pow-challenge issues is the score of
    the analysis that video-mode verification returns, so a video attempt
    can only succeed on telemetry for which the difficulty issued was 15
    or 19, with a score of 60 or more. *)
Theorem difficulty_matches_verification (env : pow_env)
    (fp : option (gmap string pyval)) (traj : list TrajectoryPoint)
    (beh : option BehaviorData) (urandom : list Z) (now : Q) (target : Q) :
  let issued := pow_challenge_endpoint env fp traj beh urandom now in
  let a := analyze_bot_risk (temp_session target fp traj beh) in
  (difficulty (pcr_challenge issued) = 15 /\ pcr_risk_level issued = "low"
   /\ 70 <= confidence_score a)
  \/ (difficulty (pcr_challenge issued) = 19 /\ pcr_risk_level issued = "medium"
      /\ 40 <= confidence_score a < 70)
  \/ (difficulty (pcr_challenge issued) = 22 /\ pcr_risk_level issued = "high"
      /\ confidence_score a < 40 /\ is_bot a = true).
Proof.
  cbv zeta. unfold pow_challenge_endpoint, compute_pow_difficulty.
  cbv zeta.
  assert (E : analyze_bot_risk (temp_session target fp traj beh)
              = analyze_bot_risk
                  (mkCaptchaSession 0 fp
                     (match traj with [] => None | _ => Some traj end) beh)).
  { destruct traj; reflexivity. }
  rewrite E.
  set (sc := confidence_score _).
  assert (Hb : is_bot (analyze_bot_risk
                  (mkCaptchaSession 0 fp
                     (match traj with [] => None | _ => Some traj end) beh))
               = (sc <? 60)) by reflexivity.
  rewrite Hb.
  destruct (70 <=? sc) eqn:H70.
  { left. split; [reflexivity |]. split; [reflexivity | lia]. }
  destruct (40 <=? sc) eqn:H40.
  { right; left. split; [reflexivity |]. split; [reflexivity | lia]. }
  right; right. split; [reflexivity |]. split; [reflexivity |].
  split; [lia |]. apply Z.ltb_lt. lia.
Qed.

End EndpointProps.

(** ** Jigsaw geometry *)

Section BezierProps.

Local Open Scope Q_scope.

Lemma bezier_at_start p0 p1 p2 p3 t :
  t == 0 -> same_point (bezier_at p0 p1 p2 p3 t) p0.
Proof.
  intros Ht. unfold bezier_at, same_point. cbv zeta. cbn [fst snd].
  split; rewrite Ht; ring.
Qed.

Lemma bezier_at_end p0 p1 p2 p3 t :
  t == 1 -> same_point (bezier_at p0 p1 p2 p3 t) p3.
Proof.
  intros Ht. unfold bezier_at, same_point. cbv zeta. cbn [fst snd].
  split; rewrite Ht; ring.
Qed.

(** The loop of [_cubic_bezier] for a positive number of steps. *)
Lemma cubic_bezier_returns p0 p1 p2 p3 (steps : Z) :
  (1 <= steps)%Z ->
  exists first rest,
    _cubic_bezier p0 p1 p2 p3 steps = Returned (first :: rest)
    /\ length rest = Z.to_nat steps
    /\ same_point first p0
    /\ (exists final, last (first :: rest) = Some final /\ same_point final p3).
Proof.
  intros Hs. unfold _cubic_bezier.
  destruct (steps =? 0)%Z eqn:E; [apply Z.eqb_eq in E; lia |].
  replace (Z.to_nat (steps + 1)) with (S (Z.to_nat steps)) by lia.
  set (f := fun i : nat => bezier_at p0 p1 p2 p3 (inject_Z (Z.of_nat i) / inject_Z steps)).
  assert (Hne : ~ inject_Z steps == 0).
  { change 0 with (inject_Z 0). rewrite inject_Z_injective. lia. }
  exists (f 0%nat), (map f (seq 1 (Z.to_nat steps))).
  split; [reflexivity |].
  split; [by rewrite length_map, length_seq |].
  split.
  - apply bezier_at_start. change (inject_Z (Z.of_nat 0)) with 0. field. exact Hne.
  - exists (f (Z.to_nat steps)). split.
    + change (f 0%nat :: map f (seq 1 (Z.to_nat steps)))
        with (map f (seq 0 (S (Z.to_nat steps)))).
      rewrite seq_S, map_app. simpl. apply last_snoc.
    + apply bezier_at_end. rewrite Z2Nat.id by lia. field. exact Hne.
Qed.

(** X24.  A curve of [_cubic_bezier] with at least one step has [steps + 1]
    points, begins at its first control point and ends at its last; with
    0 steps the call raises ZeroDivisionError, and with a negative number
    it returns no point. *)
Theorem cubic_bezier_endpoints (p0 p1 p2 p3 : point) (steps : Z) :
  ((1 <= steps)%Z ->
   exists pts first final,
     _cubic_bezier p0 p1 p2 p3 steps = Returned pts
     /\ Z.of_nat (length pts) = (steps + 1)%Z
     /\ head pts = Some first /\ same_point first p0
     /\ last pts = Some final /\ same_point final p3)
  /\ (steps = 0%Z -> _cubic_bezier p0 p1 p2 p3 steps = Raised "ZeroDivisionError")
  /\ ((steps < 0)%Z -> _cubic_bezier p0 p1 p2 p3 steps = Returned []).
Proof.
  split; [| split].
  - intros Hs.
    destruct (cubic_bezier_returns p0 p1 p2 p3 steps Hs)
      as (first & rest & E & Hlen & Hfirst & final & Hlast & Hfinal).
    exists (first :: rest), first, final.
    repeat split; try done; try apply Hfirst; try apply Hfinal.
    simpl. lia.
  - intros ->. reflexivity.
  - intros Hs. unfold _cubic_bezier.
    destruct (steps =? 0)%Z eqn:E; [apply Z.eqb_eq in E; lia |].
    replace (Z.to_nat (steps + 1)) with 0%nat by lia. reflexivity.
Qed.

End BezierProps.

Lemma same_point_refl p : same_point p p.
Proof. split; reflexivity. Qed.

Lemma runs_pair (a b : point) : runs_from_to [a; b] a b.
Proof. exists a, b. repeat split; reflexivity. Qed.

Section EdgeProps.

Variable hypot : Q -> Q -> Q.

Local Open Scope Q_scope.

(** The two shapes of an edge: the two end points, or the straight
    start, three curves of 30 points each after their first, and the
    straight end. *)
Lemma edge_points_cases (start end_ : point) (direction : Z) :
  (Qeq_bool (hypot (fst end_ - fst start) (snd end_ - snd start)) 0 = true
   /\ _generate_edge_points hypot start end_ direction = Returned [start; end_])
  \/ (Qeq_bool (hypot (fst end_ - fst start) (snd end_ - snd start)) 0 = false
      /\ exists first second r2 r3 r4 final,
           _generate_edge_points hypot start end_ direction
           = Returned (((([first; second] ++ r2) ++ r3) ++ r4) ++ [final])
           /\ length r2 = 30%nat /\ length r3 = 30%nat /\ length r4 = 30%nat
           /\ same_point first start /\ same_point final end_).
Proof.
  unfold _generate_edge_points. cbv zeta.
  destruct (Qeq_bool _ 0); [left; by split | right].
  split; [reflexivity |].
  match goal with
  | |- context [Py.bind (_cubic_bezier ?a ?b ?c ?d 30) _] =>
      destruct (cubic_bezier_returns a b c d 30 ltac:(lia))
        as (f2 & r2 & -> & L2 & _)
  end.
  cbn [Py.bind tail].
  match goal with
  | |- context [Py.bind (_cubic_bezier ?a ?b ?c ?d 30) _] =>
      destruct (cubic_bezier_returns a b c d 30 ltac:(lia))
        as (f3 & r3 & -> & L3 & _)
  end.
  cbn [Py.bind tail].
  match goal with
  | |- context [Py.bind (_cubic_bezier ?a ?b ?c ?d 30) _] =>
      destruct (cubic_bezier_returns a b c d 30 ltac:(lia))
        as (f4 & r4 & -> & L4 & _)
  end.
  cbn [Py.bind tail].
  eexists _, _, r2, r3, r4, _. split; [reflexivity |].
  split; [exact L2 |]. split; [exact L3 |]. split; [exact L4 |].
  split; unfold same_point; cbn [fst snd]; split; ring.
Qed.

Lemma edge_points_run (start end_ : point) (direction : Z) :
  exists pts,
    _generate_edge_points hypot start end_ direction = Returned pts
    /\ runs_from_to pts start end_.
Proof.
  destruct (edge_points_cases start end_ direction)
    as [[_ ->] | (_ & first & second & r2 & r3 & r4 & final & -> & _ & _ & _ & Hf & Hl)].
  - eexists. split; [reflexivity | apply runs_pair].
  - eexists. split; [reflexivity |].
    exists first, final. split; [reflexivity |]. split; [exact Hf |].
    split; [apply last_snoc | exact Hl].
Qed.

(** X25.  Every edge of [_generate_edge_points] runs from [start] to [end]:
    the call never raises, its first point is [start] and its last is
    [end], whatever the direction and whatever [math.hypot] returns, and
    it has 93 points, or the 2 end points when the length is 0. *)
Theorem edge_points_endpoints (start end_ : point) (direction : Z) :
  exists pts,
    _generate_edge_points hypot start end_ direction = Returned pts
    /\ length pts
       = (if Qeq_bool (hypot (fst end_ - fst start) (snd end_ - snd start)) 0
          then 2 else 93)%nat
    /\ runs_from_to pts start end_.
Proof.
  destruct (edge_points_cases start end_ direction)
    as [[-> ->] | (-> & first & second & r2 & r3 & r4 & final & -> & L2 & L3 & L4
                   & Hf & Hl)].
  - eexists. split; [reflexivity |]. split; [reflexivity | apply runs_pair].
  - eexists. split; [reflexivity |]. split.
    + rewrite !length_app, L2, L3, L4. reflexivity.
    + exists first, final. split; [reflexivity |]. split; [exact Hf |].
      split; [apply last_snoc | exact Hl].
Qed.

End EdgeProps.

Section GridProps.

Variable hypot : Q -> Q -> Q.
Variable picks : nat -> bool.

Lemma runs_app (l1 l2 : list point) p q q' r :
  runs_from_to l1 p q -> runs_from_to l2 q' r -> runs_from_to (l1 ++ l2) p r.
Proof.
  intros (f1 & e1 & Hf1 & Sf1 & _) (f2 & e2 & _ & _ & He2 & Se2).
  exists f1, e2. split.
  { destruct l1; [discriminate | exact Hf1]. }
  split; [exact Sf1 |]. split; [| exact Se2].
  rewrite last_app, He2. reflexivity.
Qed.

Lemma runs_rev (l : list point) p q :
  runs_from_to l p q -> runs_from_to (rev l) q p.
Proof.
  intros (f & e & Hf & Sf & He & Se).
  exists e, f. split.
  { destruct l as [| a l] using rev_ind; [discriminate |].
    rewrite rev_app_distr. rewrite last_snoc in He. simpl. congruence. }
  split; [exact Se |]. split; [| exact Sf].
  destruct l as [| a l]; [discriminate |].
  simpl in *. rewrite last_snoc. congruence.
Qed.

(** The loops of [_generate_edge_grid]: every key visited holds an edge
    between the two points computed from it, the others are untouched. *)
Lemma add_edge_fold (horizontal : bool) (keys : list (Z * Z)) :
  forall m k,
  exists m',
    fold_left (add_edge hypot horizontal picks) keys (Returned (m, k))
    = Returned (m', (k + length keys)%nat)
    /\ forall row col,
         ((row, col) ∈ keys ->
          exists pts,
            m' !! (row, col) = Some pts
            /\ runs_from_to pts
                 (fpoint (col * PIECE_SIZE) (row * PIECE_SIZE))
                 (if horizontal
                  then fpoint (col * PIECE_SIZE + PIECE_SIZE) (row * PIECE_SIZE)
                  else fpoint (col * PIECE_SIZE) (row * PIECE_SIZE + PIECE_SIZE)))
         /\ ((row, col) ∉ keys -> m' !! (row, col) = m !! (row, col)).
Proof.
  induction keys as [| [r c] keys IH]; intros m k.
  - exists m. split; [simpl; by rewrite Nat.add_0_r |].
    intros row col. split; [intros H; by apply elem_of_nil in H | done].
  - cbn [fold_left add_edge Py.bind]. cbv zeta.
    match goal with
    | |- context [_generate_edge_points hypot ?a ?b ?d] =>
        destruct (edge_points_run hypot a b d) as (pts & -> & Hrun)
    end.
    cbn [Py.bind].
    destruct (IH (<[(r, c) := pts]> m) (S k)) as (m' & -> & Hm').
    exists m'. split; [f_equal; f_equal; simpl; lia |].
    intros row col. split.
    + intros Hin. destruct (decide ((row, col) ∈ keys)) as [Hk | Hk].
      { by apply Hm'. }
      apply elem_of_cons in Hin as [E | Hin]; [| done].
      injection E as -> ->.
      exists pts. split; [| exact Hrun].
      rewrite (proj2 (Hm' r c) Hk). apply lookup_insert_eq.
    + intros Hout. apply not_elem_of_cons in Hout as [Hne Hk].
      rewrite (proj2 (Hm' row col) Hk). by apply lookup_insert_ne.
Qed.

Lemma generate_edge_grid_in_place :
  exists g, _generate_edge_grid hypot picks = Returned g /\ edges_in_place g.
Proof.
  unfold _generate_edge_grid.
  destruct (add_edge_fold true horizontal_keys ∅ 0%nat) as (h & -> & Hh).
  cbn [Py.bind].
  destruct (add_edge_fold false vertical_keys ∅ (0 + length horizontal_keys)%nat)
    as (v & -> & Hv).
  cbn [Py.bind].
  eexists. split; [reflexivity |].
  split; intros row col Hr Hc; cbn [edges_h edges_v].
  - destruct (proj1 (Hh row col)) as (pts & E & Hrun).
    { assert (row = 1 \/ row = 2) as [-> | ->] by lia;
        (assert (col = 0 \/ col = 1 \/ col = 2) as [-> | [-> | ->]] by lia);
        apply (bool_decide_unpack _); vm_compute; exact I. }
    exists pts. split; [exact E |].
    unfold corner.
    replace ((col + 1) * PIECE_SIZE) with (col * PIECE_SIZE + PIECE_SIZE)
      by (change PIECE_SIZE with 100; lia).
    exact Hrun.
  - destruct (proj1 (Hv row col)) as (pts & E & Hrun).
    { assert (row = 0 \/ row = 1 \/ row = 2) as [-> | [-> | ->]] by lia;
        (assert (col = 1 \/ col = 2) as [-> | ->] by lia);
        apply (bool_decide_unpack _); vm_compute; exact I. }
    exists pts. split; [exact E |].
    unfold corner.
    replace ((row + 1) * PIECE_SIZE) with (row * PIECE_SIZE + PIECE_SIZE)
      by (change PIECE_SIZE with 100; lia).
    exact Hrun.
Qed.

End GridProps.

Lemma corner_right col row :
  fpoint (col * PIECE_SIZE + PIECE_SIZE) (row * PIECE_SIZE) = corner (col + 1) row.
Proof. unfold corner. f_equal. change PIECE_SIZE with 100. lia. Qed.

Lemma corner_below col row :
  fpoint (col * PIECE_SIZE) (row * PIECE_SIZE + PIECE_SIZE) = corner col (row + 1).
Proof. unfold corner. f_equal. change PIECE_SIZE with 100. lia. Qed.

Lemma corner_opposite col row :
  fpoint (col * PIECE_SIZE + PIECE_SIZE) (row * PIECE_SIZE + PIECE_SIZE)
  = corner (col + 1) (row + 1).
Proof. unfold corner. f_equal; change PIECE_SIZE with 100; lia. Qed.

(** The four sides of [_build_piece_polygon] on a grid whose edges are in
    place. *)
Lemma piece_polygon_sides (g : edge_grid) (row col : Z) :
  edges_in_place g -> 0 <= row <= 2 -> 0 <= col <= 2 ->
  exists top right bottom left,
    _build_piece_polygon row col g = Returned (((top ++ right) ++ bottom) ++ left)
    /\ runs_from_to top (corner col row) (corner (col + 1) row)
    /\ runs_from_to right (corner (col + 1) row) (corner (col + 1) (row + 1))
    /\ runs_from_to bottom (corner (col + 1) (row + 1)) (corner col (row + 1))
    /\ runs_from_to left (corner col (row + 1)) (corner col row).
Proof.
  intros [Hh Hv] Hr Hc. unfold _build_piece_polygon. cbv zeta.
  change (GRID_SIZE - 1) with 2.
  rewrite corner_right, corner_below, corner_opposite.
  change (fpoint (col * PIECE_SIZE) (row * PIECE_SIZE)) with (corner col row).
  assert (Htop : exists top,
    (if row =? 0 then Returned ([] ++ [corner col row; corner (col + 1) row])
     else Py.bind (lookup_edge (edges_h g) (row, col))
                  (fun pts => Returned ([] ++ pts))) = Returned top
    /\ runs_from_to top (corner col row) (corner (col + 1) row)).
  { destruct (Z.eqb_spec row 0) as [E | E].
    - eexists. split; [reflexivity | apply runs_pair].
    - destruct (Hh row col ltac:(lia) ltac:(lia)) as (pts & El & Hrun).
      unfold lookup_edge. rewrite El. exists pts. split; [reflexivity | exact Hrun]. }
  destruct Htop as (top & -> & Htop). cbn [Py.bind].
  assert (Hright : exists right,
    (if col =? 2
     then Returned (top ++ [corner (col + 1) row; corner (col + 1) (row + 1)])
     else Py.bind (lookup_edge (edges_v g) (row, col + 1))
                  (fun pts => Returned (top ++ pts))) = Returned (top ++ right)
    /\ runs_from_to right (corner (col + 1) row) (corner (col + 1) (row + 1))).
  { destruct (Z.eqb_spec col 2) as [E | E].
    - eexists. split; [reflexivity | apply runs_pair].
    - destruct (Hv row (col + 1) ltac:(lia) ltac:(lia)) as (pts & El & Hrun).
      unfold lookup_edge. rewrite El. exists pts. split; [reflexivity | exact Hrun]. }
  destruct Hright as (right & -> & Hright). cbn [Py.bind].
  assert (Hbottom : exists bottom,
    (if row =? 2
     then Returned ((top ++ right)
                    ++ [corner (col + 1) (row + 1); corner col (row + 1)])
     else Py.bind (lookup_edge (edges_h g) (row + 1, col))
                  (fun pts => Returned ((top ++ right) ++ rev pts)))
    = Returned ((top ++ right) ++ bottom)
    /\ runs_from_to bottom (corner (col + 1) (row + 1)) (corner col (row + 1))).
  { destruct (Z.eqb_spec row 2) as [E | E].
    - eexists. split; [reflexivity | apply runs_pair].
    - destruct (Hh (row + 1) col ltac:(lia) ltac:(lia)) as (pts & El & Hrun).
      unfold lookup_edge. rewrite El. exists (rev pts).
      split; [reflexivity | by apply runs_rev]. }
  destruct Hbottom as (bottom & -> & Hbottom). cbn [Py.bind].
  assert (Hleft : exists left,
    (if col =? 0
     then Returned (((top ++ right) ++ bottom)
                    ++ [corner col (row + 1); corner col row])
     else Py.bind (lookup_edge (edges_v g) (row, col))
                  (fun pts => Returned (((top ++ right) ++ bottom) ++ rev pts)))
    = Returned (((top ++ right) ++ bottom) ++ left)
    /\ runs_from_to left (corner col (row + 1)) (corner col row)).
  { destruct (Z.eqb_spec col 0) as [E | E].
    - eexists. split; [reflexivity | apply runs_pair].
    - destruct (Hv row col ltac:(lia) ltac:(lia)) as (pts & El & Hrun).
      unfold lookup_edge. rewrite El. exists (rev pts).
      split; [reflexivity | by apply runs_rev]. }
  destruct Hleft as (left & -> & Hleft). cbn [Py.bind].
  exists top, right, bottom, left. done.
Qed.

(** X26.  The outline of every piece is a closed loop around its cell: for each
    of the 9 cells, [_build_piece_polygon] on the grid of
    [_generate_edge_grid] returns (no KeyError) four sides in clockwise
    order, each running from one corner of the cell to the next, so that
    the outline starts and ends at the cell's top-left corner. *)
Theorem piece_outline_closed (hypot : Q -> Q -> Q) (picks : nat -> bool)
    (row col : Z) :
  0 <= row <= 2 -> 0 <= col <= 2 ->
  exists g top right bottom left,
    _generate_edge_grid hypot picks = Returned g
    /\ _build_piece_polygon row col g = Returned (((top ++ right) ++ bottom) ++ left)
    /\ runs_from_to top (corner col row) (corner (col + 1) row)
    /\ runs_from_to right (corner (col + 1) row) (corner (col + 1) (row + 1))
    /\ runs_from_to bottom (corner (col + 1) (row + 1)) (corner col (row + 1))
    /\ runs_from_to left (corner col (row + 1)) (corner col row)
    /\ runs_from_to (((top ++ right) ++ bottom) ++ left)
         (corner col row) (corner col row).
Proof.
  intros Hr Hc.
  destruct (generate_edge_grid_in_place hypot picks) as (g & Eg & Hg).
  destruct (piece_polygon_sides g row col Hg Hr Hc)
    as (top & right & bottom & left & E & Ht & Hri & Hb & Hl).
  exists g, top, right, bottom, left.
  split; [exact Eg |]. split; [exact E |].
  split; [exact Ht |]. split; [exact Hri |]. split; [exact Hb |].
  split; [exact Hl |].
  eapply runs_app; [| exact Hl].
  eapply runs_app; [| exact Hb].
  eapply runs_app; [exact Ht | exact Hri].
Qed.

Lemma part_here {A} (e r : list A) : exists before after, e ++ r = before ++ e ++ after.
Proof. by exists [], r. Qed.

Lemma part_cons {A} (a : A) (l e : list A) :
  (exists before after, l = before ++ e ++ after) ->
  exists before after, a :: l = before ++ e ++ after.
Proof. intros (b & r & ->). by exists (a :: b), r. Qed.

Lemma part_app {A} (k l e : list A) :
  (exists before after, l = before ++ e ++ after) ->
  exists before after, k ++ l = before ++ e ++ after.
Proof. intros (b & r & ->). exists (k ++ b), r. by rewrite <- app_assoc. Qed.

Lemma end_here {A} (e : list A) : exists rest, e = rest ++ e.
Proof. by exists []. Qed.

Lemma end_cons {A} (a : A) (l e : list A) :
  (exists rest, l = rest ++ e) -> exists rest, a :: l = rest ++ e.
Proof. intros (b & ->). by exists (a :: b). Qed.

Lemma end_app {A} (k l e : list A) :
  (exists rest, l = rest ++ e) -> exists rest, k ++ l = rest ++ e.
Proof. intros (b & ->). exists (k ++ b). by rewrite <- app_assoc. Qed.

Ltac find_part :=
  repeat first [ apply part_here | apply end_here
               | apply part_cons | apply end_cons
               | apply part_app | apply end_app ].

(** X27.  Neighbouring pieces interlock: whatever the edges dict, when two
    vertically adjacent outlines are built, the lower one begins with the
    stored edge between them and the upper one contains the same points
    in reverse order; when two horizontally adjacent outlines are built,
    the left one contains the stored edge between them and the right one
    ends with the same points in reverse order. *)
Theorem neighbours_share_edge (g : edge_grid) (row col : Z)
    (upper lower left right : list point) :
  (row <> 2 -> row <> -1 ->
   _build_piece_polygon row col g = Returned upper ->
   _build_piece_polygon (row + 1) col g = Returned lower ->
   exists edge before after rest,
     edges_h g !! (row + 1, col) = Some edge
     /\ upper = before ++ rev edge ++ after
     /\ lower = edge ++ rest)
  /\ (col <> 2 -> col <> -1 ->
   _build_piece_polygon row col g = Returned left ->
   _build_piece_polygon row (col + 1) g = Returned right ->
   exists edge before after rest,
     edges_v g !! (row, col + 1) = Some edge
     /\ left = before ++ edge ++ after
     /\ right = rest ++ rev edge).
Proof.
  split.
  - intros H2 H1 Eu El. unfold _build_piece_polygon in Eu, El. cbv zeta in Eu, El.
    change (GRID_SIZE - 1) with 2 in Eu, El.
    rewrite (proj2 (Z.eqb_neq (row + 1) 0)) in El by lia.
    rewrite (proj2 (Z.eqb_neq row 2)) in Eu by lia.
    unfold lookup_edge in Eu, El.
    destruct (edges_h g !! (row + 1, col)) as [edge |] eqn:Ee.
    2: { cbn [Py.bind] in El. discriminate. }
    exists edge.
    cbn [Py.bind] in El.
    assert (exists rest, lower = edge ++ rest) as [rest Hrest].
    { repeat match type of El with
             | context [if ?b then _ else _] => destruct b
             | context [match ?m !! ?k with _ => _ end] => destruct (m !! k)
             end; cbn [Py.bind] in El; try discriminate;
        injection El as <-; cbn [app]; rewrite <- ?app_assoc; eauto. }
    assert (exists before after, upper = before ++ rev edge ++ after)
      as (before & after & Hup).
    { repeat match type of Eu with
             | context [if ?b then _ else _] => destruct b
             | context [match ?m !! ?k with _ => _ end] => destruct (m !! k)
             end; cbn [Py.bind] in Eu; try discriminate;
        injection Eu as <-; rewrite <- ?app_assoc;
        find_part. }
    exists before, after, rest. done.
  - intros H2 H1 Eu El. unfold _build_piece_polygon in Eu, El. cbv zeta in Eu, El.
    change (GRID_SIZE - 1) with 2 in Eu, El.
    rewrite (proj2 (Z.eqb_neq (col + 1) 0)) in El by lia.
    rewrite (proj2 (Z.eqb_neq col 2)) in Eu by lia.
    unfold lookup_edge in Eu, El.
    destruct (edges_v g !! (row, col + 1)) as [edge |] eqn:Ee.
    2: { repeat match type of Eu with
                | context [if ?b then _ else _] => destruct b
                | context [match ?m !! ?k with _ => _ end] => destruct (m !! k)
                end; cbn [Py.bind] in Eu; discriminate. }
    exists edge.
    assert (exists rest, right = rest ++ rev edge) as [rest Hrest].
    { repeat match type of El with
             | context [if ?b then _ else _] => destruct b
             | context [match ?m !! ?k with _ => _ end] => destruct (m !! k)
             end; cbn [Py.bind] in El; try discriminate;
        injection El as <-; rewrite <- ?app_assoc; find_part. }
    assert (exists before after, left = before ++ edge ++ after)
      as (before & after & Hup).
    { repeat match type of Eu with
             | context [if ?b then _ else _] => destruct b
             | context [match ?m !! ?k with _ => _ end] => destruct (m !! k)
             end; cbn [Py.bind] in Eu; try discriminate;
        injection Eu as <-; rewrite <- ?app_assoc;
        find_part. }
    exists before, after, rest. done.
Qed.

(** ** Issuing an image challenge *)

Section IssueProps.

Lemma choice_returns {A} (l : list A) (draw : nat) :
  l <> [] -> exists a, choice l draw = Returned a /\ In a l.
Proof.
  intros Hne. unfold choice.
  destruct (lookup_lt_is_Some_2 l (draw mod length l)%nat) as [a Ha].
  { apply Nat.mod_upper_bound. destruct l; [done | simpl; lia]. }
  rewrite Ha. exists a. split; [reflexivity |].
  apply list_elem_of_In. by eapply list_elem_of_lookup_2.
Qed.

(** Positions whose consecutive gaps are at least 8 grow by at least 8
    per index. *)
Lemma gaps_accumulate (ps : list Z) :
  (forall i a b, ps !! i = Some a -> ps !! S i = Some b -> 8 <= b - a) ->
  forall d i a b, ps !! i = Some a -> ps !! (i + d)%nat = Some b ->
                  8 * Z.of_nat d <= b - a.
Proof.
  intros Hgap. induction d as [| d IH]; intros i a b Ha Hb.
  - rewrite Nat.add_0_r in Hb. simplify_eq. lia.
  - replace (i + S d)%nat with (S (i + d)) in Hb by lia.
    destruct (lookup_lt_is_Some_2 ps (i + d)%nat) as [c Hc].
    { apply lookup_lt_Some in Hb. lia. }
    specialize (IH i a c Ha Hc). specialize (Hgap _ _ _ Hc Hb). lia.
Qed.

(** Every keyframe position other than 0 lies between 8 and 100. *)
Lemma keyframe_positions_bounds (num_interior : Z) (samples : nat -> list Z) p :
  3 <= num_interior <= 5 ->
  (forall k, length (samples k) = Z.to_nat num_interior) ->
  In p (_generate_keyframe_positions num_interior samples) ->
  p = 0 \/ 8 <= p <= 100.
Proof.
  intros Hn Hlen Hin.
  destruct (keyframe_positions_shape num_interior samples Hn Hlen)
    as (Hhead & Hlast & Hsize & Hgap & _).
  set (ps := _generate_keyframe_positions num_interior samples) in *.
  apply list_elem_of_In, list_elem_of_lookup in Hin as [i Hi].
  assert (H0 : ps !! 0%nat = Some 0) by (destruct ps; [done | exact Hhead]).
  assert (Hl : ps !! (length ps - 1)%nat = Some 100).
  { rewrite <- Hlast, last_lookup. f_equal. lia. }
  pose proof (lookup_lt_Some _ _ _ Hi) as Hlt.
  pose proof (gaps_accumulate ps Hgap i 0%nat 0 p H0 Hi) as Hlow.
  pose proof (gaps_accumulate ps Hgap (length ps - 1 - i) i p 100 Hi) as Hup.
  replace (i + (length ps - 1 - i))%nat with (length ps - 1)%nat in Hup by lia.
  specialize (Hup Hl).
  destruct i as [| i]; [left; congruence | right; lia].
Qed.

(** What a call of [generate_captcha] leaves behind. *)
Lemma generate_captcha_returns (pieces : list piece) (num_interior : Z)
    (samples : nat -> list Z) (solved_draw : nat)
    (shuffles : nat -> list (Z * Z) -> list (Z * Z)) (captcha_id : string)
    (st : stores) :
  3 <= num_interior <= 5 ->
  (forall k, length (samples k) = Z.to_nat num_interior) ->
  exists solved_position,
    In solved_position (_generate_keyframe_positions num_interior samples)
    /\ 8 <= solved_position <= 100
    /\ generate_captcha pieces num_interior samples solved_draw shuffles
         captcha_id st
       = (Returned
            (mkCaptchaPayload captcha_id
               (fold_left (fun m p => <[piece_id p := (off_x p, off_y p)]> m)
                          pieces ∅)
               (fst (fold_left (add_keyframe pieces solved_position shuffles)
                       (_generate_keyframe_positions num_interior samples)
                       (∅, 0%nat)))),
          mkStores (<[captcha_id := {| solved_value := solved_position;
                                      fingerprint := None;
                                      trajectory := None;
                                      behavior := None |}]> (captcha_sessions st))
                   (video_captcha_sessions st) (pow_used_nonces st)).
Proof.
  intros Hn Hlen. unfold generate_captcha. cbv zeta.
  set (ps := _generate_keyframe_positions num_interior samples).
  destruct (keyframe_positions_shape num_interior samples Hn Hlen)
    as (_ & Hlast & _).
  fold ps in Hlast.
  assert (Hne : List.filter (fun p => negb (p =? 0)) ps <> []).
  { intros E.
    assert (Hin : In 100 (List.filter (fun p => negb (p =? 0)) ps)).
    { apply filter_In. split; [| reflexivity].
      apply last_Some in Hlast as [l' El]. rewrite El.
      apply in_or_app. right. by left. }
    rewrite E in Hin. destruct Hin. }
  destruct (choice_returns _ solved_draw Hne) as (s & -> & Hs).
  apply filter_In in Hs as [Hs Hs0].
  exists s. split; [exact Hs |]. split; [| reflexivity].
  destruct (keyframe_positions_bounds num_interior samples s Hn Hlen Hs)
    as [-> | H]; [discriminate | exact H].
Qed.

(** X28.  A call of [generate_captcha] never raises at [random.choice]: it
    returns the payload under the fresh id and stores one new session
    whose answer is a keyframe position between 8 and 100, so never the
    slider's start 0; the other sessions, the video sessions and the
    nonce ledger are left as they were. *)
Theorem generate_captcha_session (pieces : list piece) (num_interior : Z)
    (samples : nat -> list Z) (solved_draw : nat)
    (shuffles : nat -> list (Z * Z) -> list (Z * Z)) (captcha_id : string)
    (st : stores) :
  3 <= num_interior <= 5 ->
  (forall k, length (samples k) = Z.to_nat num_interior) ->
  let out := generate_captcha pieces num_interior samples solved_draw shuffles
               captcha_id st in
  exists payload session,
    fst out = Returned payload
    /\ cp_captcha_id payload = captcha_id
    /\ captcha_sessions (snd out) !! captcha_id = Some session
    /\ In (solved_value session) (_generate_keyframe_positions num_interior samples)
    /\ 8 <= solved_value session <= 100
    /\ fingerprint session = None /\ trajectory session = None
    /\ behavior session = None
    /\ (forall id, id <> captcha_id ->
          captcha_sessions (snd out) !! id = captcha_sessions st !! id)
    /\ video_captcha_sessions (snd out) = video_captcha_sessions st
    /\ pow_used_nonces (snd out) = pow_used_nonces st.
Proof.
  intros Hn Hlen out.
  destruct (generate_captcha_returns pieces num_interior samples solved_draw
              shuffles captcha_id st Hn Hlen) as (s & Hin & Hs & E).
  subst out. rewrite E. cbn [fst snd captcha_sessions video_captcha_sessions
                              pow_used_nonces].
  eexists _, _. split; [reflexivity |]. split; [reflexivity |].
  split; [apply lookup_insert_eq |].
  cbn [solved_value fingerprint trajectory behavior].
  split; [exact Hin |]. split; [exact Hs |].
  split; [reflexivity |]. split; [reflexivity |]. split; [reflexivity |].
  split; [| split; reflexivity].
  intros id Hne. by apply lookup_insert_ne.
Qed.

(** The loop over the keyframe positions: the solved position holds the
    true offsets, every other visited position a shuffled state, and no
    other key is written. *)
Lemma add_keyframe_fold pieces s shuffles (kfs : list Z) :
  forall m k,
    let m' := fst (fold_left (add_keyframe pieces s shuffles) kfs (m, k)) in
    (In s kfs -> m' !! Py.str_of_int s = Some (solved_state pieces))
    /\ (forall kf, In kf kfs -> kf <> s ->
          exists j, m' !! Py.str_of_int kf
                    = Some (shuffled_state pieces
                              (_random_grid_positions (shuffles j) (Py.len pieces))))
    /\ (forall key, (forall kf, In kf kfs -> key <> Py.str_of_int kf) ->
          m' !! key = m !! key).
Proof.
  induction kfs as [| kf0 kfs IH]; intros m k m'.
  - subst m'. simpl. split; [done |]. split; [done | done].
  - subst m'. cbn [fold_left].
    destruct (Z.eq_dec kf0 s) as [-> | Hne0].
    + replace (add_keyframe pieces s shuffles (m, k) s)
        with (<[Py.str_of_int s := solved_state pieces]> m, k)
        by (unfold add_keyframe; by rewrite Z.eqb_refl).
      specialize (IH (<[Py.str_of_int s := solved_state pieces]> m) k).
      cbv zeta in IH. destruct IH as (IHs & IHo & IHk).
      split; [| split].
      * intros _. destruct (in_dec Z.eq_dec s kfs) as [Hin | Hout]; [by apply IHs |].
        rewrite IHk; [apply lookup_insert_eq |].
        intros kf Hkf E. apply str_of_int_inj in E. congruence.
      * intros kf [-> | Hin] Hne; [done | by apply IHo].
      * intros key Hkey. rewrite IHk.
        -- apply lookup_insert_ne. intros E. by apply (Hkey s); [left |].
        -- intros kf Hkf. apply Hkey. by right.
    + set (val := shuffled_state pieces
                    (_random_grid_positions (shuffles k) (Py.len pieces))).
      replace (add_keyframe pieces s shuffles (m, k) kf0)
        with (<[Py.str_of_int kf0 := val]> m, S k)
        by (unfold add_keyframe; by rewrite (proj2 (Z.eqb_neq _ _) Hne0)).
      specialize (IH (<[Py.str_of_int kf0 := val]> m) (S k)).
      cbv zeta in IH. destruct IH as (IHs & IHo & IHk).
      split; [| split].
      * intros [E | Hin]; [done | by apply IHs].
      * intros kf Hkf Hne.
        destruct (in_dec Z.eq_dec kf kfs) as [Hin | Hout]; [by apply IHo |].
        destruct Hkf as [<- | Hin]; [| done].
        exists k. rewrite IHk; [apply lookup_insert_eq |].
        intros kf Hkf E. apply str_of_int_inj in E. congruence.
      * intros key Hkey. rewrite IHk.
        -- apply lookup_insert_ne. intros E. by apply (Hkey kf0); [left |].
        -- intros kf Hkf. apply Hkey. by right.
Qed.

(** X29.  The keyframes of the payload: the one under the stored answer places
    every piece at its true offset, every other keyframe position holds
    the pieces paired with the grid slots of one shuffle, and the dict has
    no key besides the keyframe positions. *)
Theorem solved_keyframe_holds_true_offsets (pieces : list piece)
    (num_interior : Z) (samples : nat -> list Z) (solved_draw : nat)
    (shuffles : nat -> list (Z * Z) -> list (Z * Z)) (captcha_id : string)
    (st : stores) :
  3 <= num_interior <= 5 ->
  (forall k, length (samples k) = Z.to_nat num_interior) ->
  let out := generate_captcha pieces num_interior samples solved_draw shuffles
               captcha_id st in
  exists payload session,
    fst out = Returned payload
    /\ captcha_sessions (snd out) !! captcha_id = Some session
    /\ cp_keyframes payload !! Py.str_of_int (solved_value session)
       = Some (map (fun p => mkPlaced (piece_id p) (off_x p) (off_y p)) pieces)
    /\ (forall kf,
          In kf (_generate_keyframe_positions num_interior samples) ->
          kf <> solved_value session ->
          exists j,
            cp_keyframes payload !! Py.str_of_int kf
            = Some (shuffled_state pieces
                      (_random_grid_positions (shuffles j) (Py.len pieces))))
    /\ (forall key,
          is_Some (cp_keyframes payload !! key) ->
          exists kf, In kf (_generate_keyframe_positions num_interior samples)
                     /\ key = Py.str_of_int kf).
Proof.
  intros Hn Hlen out.
  destruct (generate_captcha_returns pieces num_interior samples solved_draw
              shuffles captcha_id st Hn Hlen) as (s & Hin & Hs & E).
  subst out. rewrite E. cbn [fst snd captcha_sessions].
  eexists _, _. split; [reflexivity |].
  split; [apply lookup_insert_eq |].
  cbn [solved_value cp_keyframes].
  destruct (add_keyframe_fold pieces s shuffles
              (_generate_keyframe_positions num_interior samples) ∅ 0%nat)
    as (Hsolved & Hother & Hkeys).
  split; [by apply Hsolved |]. split; [exact Hother |].
  intros key [v Hv].
  destruct (list_exist_dec (fun kf => key = Py.str_of_int kf)
              (_generate_keyframe_positions num_interior samples)
              (fun kf => decide (key = Py.str_of_int kf)))
    as [(kf & Hkf & ->) | Hnex].
  - exists kf. split; [| reflexivity]. by apply list_elem_of_In.
  - exfalso. rewrite Hkeys in Hv; [by rewrite lookup_empty in Hv |].
    intros kf Hkf ->. apply Hnex.
    exists kf. split; [by apply list_elem_of_In | reflexivity].
Qed.

(** An image-mode request whose slider is more than 3 away from the
    stored answer never succeeds, whatever the rest of the request. *)
Lemma image_far_slider_fails env st clk body cid slider session resp :
  captcha_id body = Some cid -> slider_value body = Some slider ->
  is_video body = false ->
  captcha_sessions st !! cid = Some session ->
  (inject_Z 3 < Qabs (slider - inject_Z (solved_value session)))%Q ->
  fst (verify_captcha env st clk body) = Returned resp ->
  success resp = false.
Proof.
  intros Hid Hs Hmode Hsess Hfar. unfold verify_captcha. rewrite Hid, Hs.
  destruct (pow_salt body), (pow_nonce body), (pow_difficulty body),
    (pow_timestamp body), (pow_signature body);
    try (simpl; intros [= <-]; reflexivity).
  destruct (verify_pow _ _ _ _ _ _ _ _) as [[[msg |] | e] ledger];
    try (simpl; intros [= <-]; reflexivity); try discriminate.
  cbv zeta. fold (is_video body). rewrite Hmode.
  unfold verify_image. cbn [captcha_sessions]. rewrite Hsess.
  cbn [fst attach_telemetry solved_value]. intros [= <-]. cbn [success].
  apply andb_false_intro1. apply Qle_bool_false. exact Hfar.
Qed.

(** X30.  A freshly issued image challenge is never solved by a slider left at
    its start: an image-mode request naming the new captcha with a slider
    value below 5 (0 included) gets no success, whatever its PoW and
    telemetry. *)
Theorem untouched_slider_never_solves (pieces : list piece) (num_interior : Z)
    (samples : nat -> list Z) (solved_draw : nat)
    (shuffles : nat -> list (Z * Z) -> list (Z * Z)) (cid : string)
    (st : stores) (env : pow_env) (clk : verify_clock) (body : verify_body)
    (slider : Q) (resp : response) :
  3 <= num_interior <= 5 ->
  (forall k, length (samples k) = Z.to_nat num_interior) ->
  captcha_id body = Some cid -> slider_value body = Some slider ->
  is_video body = false ->
  (slider < 5)%Q ->
  let issued := generate_captcha pieces num_interior samples solved_draw
                  shuffles cid st in
  fst (verify_captcha env (snd issued) clk body) = Returned resp ->
  success resp = false.
Proof.
  intros Hn Hlen Hid Hs Hmode Hlow issued.
  destruct (generate_captcha_returns pieces num_interior samples solved_draw
              shuffles cid st Hn Hlen) as (s & Hin & Hsb & E).
  subst issued. rewrite E. cbn [snd].
  eapply image_far_slider_fails; try done.
  - cbn [captcha_sessions]. apply lookup_insert_eq.
  - cbn [solved_value].
    assert (H8 : (inject_Z 8 <= inject_Z s)%Q) by (rewrite <- Zle_Qle; lia).
    change (inject_Z 8) with (8 # 1)%Q in H8. change (inject_Z 3) with (3 # 1)%Q.
    apply Qabs_case; intros; lra.
Qed.

End IssueProps.

(** ** Instances of the further statements *)

Section FurtherInstances.

Lemma demo_first_call_accepted :
  fst (verify_pow reference_env ∅ first_clock (salt demo_challenge)
         (difficulty demo_challenge) (timestamp demo_challenge)
         (signature demo_challenge) demo_nonce) = Returned None.
Proof. vm_compute. reflexivity. Defined.


Lemma parse_trajectory_skips_witness :
  parse_trajectory (fun _ => None)
    (JList ([JDict [("value", JInt 3)]] ++ JStr "x" :: [JDict []]))
  = parse_trajectory (fun _ => None) (JList ([JDict [("value", JInt 3)]] ++ [JDict []])).
Proof.
  apply (parse_trajectory_skips (fun _ => None)).
  - reflexivity.
  - simpl. lia.
Defined.

Lemma parse_behavior_sanitised_witness :
  parse_behavior sample_behavior = Some sample_parsed_behavior
  /\ 0 <= pb_total_duration_ms sample_parsed_behavior
  /\ pb_end_time sample_parsed_behavior = 0.
Proof.
  assert (E : parse_behavior sample_behavior = Some sample_parsed_behavior)
    by reflexivity.
  destruct (parse_behavior_sanitised sample_behavior sample_parsed_behavior E)
    as (d & Hd & Hdur & _ & _ & _ & _ & Hend & _).
  split; [exact E |]. split; [exact Hdur |].
  apply Hend. injection Hd as <-. reflexivity.
Defined.

Lemma bounce_pos_in_range_witness :
  0 <= _bounce_pos (47 # 2) 0 10 <= 10.
Proof.
  apply (bounce_pos_in_range (47 # 2) 0 10). lia.
Defined.

Lemma bounce_pos_reflects_witness :
  _bounce_pos (inject_Z 10 + (5 # 2)) 0 10 = _bounce_pos (inject_Z 10 - (5 # 2)) 0 10.
Proof.
  apply (bounce_pos_reflects 0 0 10).
  - lia.
  - vm_compute. discriminate.
  - vm_compute. reflexivity.
Defined.

Lemma sliders_stay_in_range_witness :
  sliders_in_range
    (snd (update_video_slider one_video_session (Some "vid-1") (Some 2500%Q))).
Proof.
  apply (sliders_stay_in_range one_video_session).
  intros id ch H. unfold one_video_session in H. cbn [video_captcha_sessions] in H.
  apply lookup_singleton_Some in H as [_ <-]. cbn. split; discriminate.
Defined.





Lemma cubic_bezier_endpoints_witness :
  exists pts first final,
    _cubic_bezier (0, 0)%Q (1, 2)%Q (3, 2)%Q (4, 0)%Q 30 = Returned pts
    /\ Z.of_nat (length pts) = 30 + 1
    /\ head pts = Some first /\ same_point first (0, 0)%Q
    /\ last pts = Some final /\ same_point final (4, 0)%Q.
Proof.
  apply (cubic_bezier_endpoints (0, 0)%Q (1, 2)%Q (3, 2)%Q (4, 0)%Q 30). lia.
Defined.

Lemma piece_outline_closed_witness :
  exists g top right bottom left,
    _generate_edge_grid axis_hypot alternating_picks = Returned g
    /\ _build_piece_polygon 1 1 g = Returned (((top ++ right) ++ bottom) ++ left)
    /\ runs_from_to top (corner 1 1) (corner (1 + 1) 1)
    /\ runs_from_to right (corner (1 + 1) 1) (corner (1 + 1) (1 + 1))
    /\ runs_from_to bottom (corner (1 + 1) (1 + 1)) (corner 1 (1 + 1))
    /\ runs_from_to left (corner 1 (1 + 1)) (corner 1 1)
    /\ runs_from_to (((top ++ right) ++ bottom) ++ left) (corner 1 1) (corner 1 1).
Proof.
  apply (piece_outline_closed axis_hypot alternating_picks 1 1); lia.
Defined.

Lemma sample_outline_built (row col : Z) :
  0 <= row <= 2 -> 0 <= col <= 2 ->
  _build_piece_polygon row col sample_grid = Returned (sample_outline row col).
Proof.
  intros Hr Hc. unfold sample_outline, sample_grid.
  destruct (generate_edge_grid_in_place axis_hypot alternating_picks)
    as (g & -> & Hg).
  destruct (piece_polygon_sides g row col Hg Hr Hc)
    as (top & right & bottom & left & -> & _).
  reflexivity.
Qed.

Lemma neighbours_share_edge_witness :
  exists edge before after rest,
    edges_h sample_grid !! (0 + 1, 1) = Some edge
    /\ sample_outline 0 1 = before ++ rev edge ++ after
    /\ sample_outline 1 1 = edge ++ rest.
Proof.
  apply (neighbours_share_edge sample_grid 0 1 (sample_outline 0 1)
           (sample_outline 1 1) [] []).
  - lia.
  - lia.
  - apply sample_outline_built; lia.
  - apply sample_outline_built; lia.
Defined.

Lemma generate_captcha_session_witness :
  exists session,
    captcha_sessions (snd sample_issue) !! "img-9" = Some session
    /\ 8 <= solved_value session <= 100.
Proof.
  destruct (generate_captcha_session sample_pieces 3 sample_interior 1
              sample_shuffles "img-9" no_session)
    as (payload & session & _ & _ & Hs & _ & Hb & _).
  - lia.
  - intros k. reflexivity.
  - exists session. split; [exact Hs | exact Hb].
Defined.

Lemma solved_keyframe_holds_true_offsets_witness :
  exists payload session,
    fst sample_issue = Returned payload
    /\ captcha_sessions (snd sample_issue) !! "img-9" = Some session
    /\ cp_keyframes payload !! Py.str_of_int (solved_value session)
       = Some [mkPlaced "p1" 0 0; mkPlaced "p2" 88 0; mkPlaced "p3" 200 75].
Proof.
  destruct (solved_keyframe_holds_true_offsets sample_pieces 3 sample_interior 1
              sample_shuffles "img-9" no_session)
    as (payload & session & Hp & Hs & Hk & _).
  - lia.
  - intros k. reflexivity.
  - exists payload, session. split; [exact Hp |]. split; [exact Hs | exact Hk].
Defined.

Lemma untouched_slider_never_solves_witness :
  fst (verify_captcha reference_env (snd sample_issue) first_clock
         (demo_body "img-9" 0 None))
  = Returned (mkResponse false (Some (analyze_bot_risk (human_session 50))) None)
  /\ success (mkResponse false (Some (analyze_bot_risk (human_session 50))) None)
     = false.
Proof.
  assert (E : fst (verify_captcha reference_env (snd sample_issue) first_clock
                     (demo_body "img-9" 0 None))
              = Returned (mkResponse false
                            (Some (analyze_bot_risk (human_session 50))) None))
    by (vm_compute; reflexivity).
  split; [exact E |].
  apply (untouched_slider_never_solves sample_pieces 3 sample_interior 1
           sample_shuffles "img-9" no_session reference_env first_clock
           (demo_body "img-9" 0 None) 0).
  - lia.
  - intros k. reflexivity.
  - reflexivity.
  - reflexivity.
  - reflexivity.
  - reflexivity.
  - exact E.
Defined.

End FurtherInstances.

(** * The analyzer and the coordinator on binary64 floats *)

Section Binary64Rules.

Import Floats Binary64.

#[local] Set Warnings "-inexact-float".

Variable lib : float_lib.

Ltac outcome_steps :=
  repeat match goal with
         | H : Py.bind ?m _ = Returned _ |- _ =>
             let E := fresh "E" in
             destruct m eqn:E; cbn [Py.bind] in H; [| discriminate H]
         | H : Returned _ = Returned _ |- _ => injection H as H; subst
         end.

Ltac rule_steps64 H :=
  repeat first
    [ exact H
    | apply reaches_when; [| reflexivity]
    | apply reaches_flag; [| reflexivity]
    | lazymatch goal with
      | |- reaches _ _ (if ?c then _ else _) => destruct c
      | |- reaches _ _ (match ?l with [] => _ | _ :: _ => _ end) => destruct l
      end
    | apply reaches_skip ].

Lemma fingerprint_part_reaches64 s r st st1 :
  reaches r st st1 ->
  reaches ("missing_fingerprint" :: "missing_canvas_fingerprint"
           :: "missing_timezone" :: "webdriver_detected"
           :: "invalid_screen_resolution" :: "suspicious_user_agent" :: r)
          st (fingerprint_part s st1).
Proof.
  intros H. unfold fingerprint_part.
  destruct (fingerprint s) as [fp |]; [| rule_steps64 H].
  destruct (negb _); [| rule_steps64 H].
  unfold fingerprint_rules. cbv zeta. apply reaches_skip. rule_steps64 H.
Qed.

Lemma trajectory_rules_reaches64 traj r st st1 st2 :
  reaches r st st1 ->
  trajectory_rules lib traj st1 = Returned st2 ->
  reaches ("no_movement_pauses" :: "low_slider_entropy"
           :: "uniform_delta_pattern" :: "linear_velocity_pattern" :: r)
          st st2.
Proof.
  intros H E. unfold trajectory_rules in E. cbv zeta in E.
  assert (H1 : forall vs sta,
             match vs with
             | [] => Returned st1
             | _ :: _ =>
                 Py.bind (variance lib vs) (fun vel_variance =>
                 Returned (when (vel_variance <? 0.003)%float
                                (flag "linear_velocity_pattern" 20) st1))
             end = Returned sta ->
             reaches ("linear_velocity_pattern" :: r) st sta).
  { intros vs sta Ea. destruct vs.
    - injection Ea as <-. by apply reaches_skip.
    - outcome_steps. by apply reaches_when. }
  match type of E with
  | Py.bind ?m _ = _ => destruct m as [sta |] eqn:Ea; cbn [Py.bind] in E;
                        [| discriminate E]
  end.
  apply H1 in Ea.
  assert (H2 : forall ds stb,
             match ds with
             | [] => Returned sta
             | _ :: _ =>
                 Py.bind (variance lib ds) (fun delta_variance =>
                 Returned (when ((delta_variance <? 0.2)%float
                                 && (4 <=? Py.len ds))
                                (flag "uniform_delta_pattern" 15) sta))
             end = Returned stb ->
             reaches ("uniform_delta_pattern" :: "linear_velocity_pattern" :: r)
                     st stb).
  { intros ds stb Eb. destruct ds.
    - injection Eb as <-. by apply reaches_skip.
    - outcome_steps. by apply reaches_when. }
  match type of E with
  | Py.bind ?m _ = _ => destruct m as [stb |] eqn:Eb; cbn [Py.bind] in E;
                        [| discriminate E]
  end.
  apply H2 in Eb.
  outcome_steps.
  rule_steps64 Eb.
Qed.

Lemma trajectory_part_reaches64 s r st st1 st2 :
  reaches r st st1 ->
  trajectory_part lib s st1 = Returned st2 ->
  reaches ("insufficient_trajectory_data" :: "no_movement_pauses"
           :: "low_slider_entropy" :: "uniform_delta_pattern"
           :: "linear_velocity_pattern" :: r)
          st st2.
Proof.
  intros H E. unfold trajectory_part in E.
  destruct (trajectory s) as [traj |].
  - destruct (_ && _).
    + apply reaches_skip. by eapply trajectory_rules_reaches64.
    + injection E as <-. rule_steps64 H.
  - injection E as <-. rule_steps64 H.
Qed.

Lemma behavior_part_reaches64 s r st st1 :
  reaches r st st1 ->
  reaches ("missing_behavior_data" :: "low_event_count"
           :: "limited_mouse_movement" :: "insufficient_mouse_movement"
           :: "missing_mousedown" :: "suspiciously_slow" :: "very_fast"
           :: "suspiciously_fast" :: "invalid_behavior_duration" :: r)
          st (behavior_part s st1).
Proof.
  intros H. unfold behavior_part.
  destruct (behavior s) as [b |]; [| rule_steps64 H].
  unfold behavior_rules. cbv zeta. apply reaches_skip. rule_steps64 H.
Qed.

(** The flags of a run that returns are a selection of the rule table,
    in its order, and the score before the clamp is 100 minus their
    points. *)
Lemma run_rules_spec64 s st :
  run_rules lib s = Returned st ->
  sublist (fst st) (map fst rule_table)
  /\ snd st = 100 - total_points (fst st).
Proof.
  unfold run_rules. intros E. outcome_steps.
  pose proof (behavior_part_reaches64 s _ _ _
               (trajectory_part_reaches64 s _ _ _ _
                 (fingerprint_part_reaches64 s _ _ _ (reaches_refl ([], 100)))
                 E0))
    as (l & Hl & ->).
  simpl. split; [exact Hl | reflexivity].
Qed.

Lemma analysis_returned s r :
  analyze_bot_risk lib s = Returned r ->
  exists st,
    run_rules lib s = Returned st
    /\ flags r = fst st
    /\ confidence_score r = Z.max 0 (Z.min 100 (snd st))
    /\ is_bot r = (confidence_score r <? 60).
Proof.
  unfold analyze_bot_risk. intros E. outcome_steps.
  eexists. split; [reflexivity |]. by repeat split.
Qed.

Lemma analysis_score s r :
  analyze_bot_risk lib s = Returned r ->
  confidence_score r = Z.max 0 (Z.min 100 (100 - total_points (flags r)))
  /\ NoDup (flags r).
Proof.
  intros E. destruct (analysis_returned s r E) as (st & Hst & Hf & Hs & _).
  destruct (run_rules_spec64 s st Hst) as [Hsub Hsc].
  rewrite Hs, Hf, Hsc. split; [reflexivity |].
  eapply sublist_NoDup; [apply rule_table_NoDup | exact Hsub].
Qed.

(** The analysis raises only out of the rules on a trajectory of four
    points or more. *)
Lemma analysis_returns_without_trajectory s :
  trajectory_short s -> exists r, analyze_bot_risk lib s = Returned r.
Proof.
  intros H. unfold trajectory_short in H.
  unfold analyze_bot_risk, run_rules, trajectory_part.
  destruct (trajectory s) as [traj |]; [| cbn [Py.bind]; eauto].
  assert (E : negb (Py.len traj =? 0) && (4 <=? Py.len traj) = false).
  { unfold Py.len. destruct (4 <=? Z.of_nat (length traj)) eqn:E;
      [apply Z.leb_le in E; lia | apply andb_false_r]. }
  rewrite E. cbn [Py.bind]. eauto.
Qed.

End Binary64Rules.

(** ** The product of a stored target and 1000 *)

Section ScaledTarget.

Import Floats.

#[local] Set Warnings "-inexact-float".

Lemma digits2_pos_log2 (p : positive) :
  Z.pos (digits2_pos p) = Z.log2 (Z.pos p) + 1.
Proof.
  assert (H : forall q, digits2_pos q = Pos.size q).
  { induction q as [q IH | q IH |]; simpl; by rewrite ?IH. }
  rewrite H. destruct p; simpl; lia.
Qed.

Lemma digits2_pos_bounds (p : positive) (d : Z) :
  0 < d -> 2 ^ (d - 1) <= Z.pos p < 2 ^ d -> Z.pos (digits2_pos p) = d.
Proof.
  intros Hd H. rewrite digits2_pos_log2.
  rewrite (Z.log2_unique (Z.pos p) (d - 1)); [lia | lia |].
  replace (Z.succ (d - 1)) with d by lia. exact H.
Qed.

Lemma shr_1_m mrs : 0 <= shr_m mrs -> shr_m (shr_1 mrs) = shr_m mrs / 2.
Proof.
  destruct mrs as [m r s]. cbn [shr_m]. intros Hm.
  destruct m as [| [p | p |] | p]; cbn [shr_1 shr_m];
    [reflexivity | apply (Z.div_unique _ 2 _ 1); lia
    | apply (Z.div_unique _ 2 _ 0); lia | reflexivity | lia].
Qed.

Lemma iter_shr_1_m (p : positive) : forall mrs,
  0 <= shr_m mrs -> shr_m (iter_pos shr_1 p mrs) = shr_m mrs / 2 ^ Z.pos p.
Proof.
  assert (Hpow : forall q : positive, 0 < 2 ^ Z.pos q) by (intros; lia).
  induction p as [p IH | p IH |]; intros mrs Hm; cbn [iter_pos].
  - assert (H1 : 0 <= shr_m (shr_1 mrs)).
    { rewrite shr_1_m by lia. apply Z.div_pos; lia. }
    assert (H2 : 0 <= shr_m (iter_pos shr_1 p (shr_1 mrs))).
    { rewrite IH by lia. apply Z.div_pos; [lia | apply Hpow]. }
    rewrite IH, IH, shr_1_m by lia.
    rewrite !Z.div_div by (try apply Hpow; lia).
    f_equal. rewrite Pos2Z.inj_xI.
    rewrite <- !Z.pow_add_r, <- (Z.pow_succ_r 2) by lia. f_equal. lia.
  - assert (H2 : 0 <= shr_m (iter_pos shr_1 p mrs)).
    { rewrite IH by lia. apply Z.div_pos; [lia | apply Hpow]. }
    rewrite IH, IH by lia.
    rewrite Z.div_div by (try apply Hpow; lia).
    f_equal. rewrite Pos2Z.inj_xO, <- Z.pow_add_r by lia. f_equal. lia.
  - rewrite shr_1_m by lia. reflexivity.
Qed.

Lemma round_nearest_even_cases m l :
  round_nearest_even m l = m \/ round_nearest_even m l = m + 1.
Proof.
  destruct l as [| []]; cbn [round_nearest_even]; try destruct (Z.even m); auto.
Qed.

(** The rounding of [M * 2^ex] where [M] has [prec + d] digits: [d]
    digits are shifted out, the quotient stays or goes up by one, and
    the result is that mantissa, or [2^52] with the next exponent when
    it reached [2^53]. *)
Lemma binary_round_aux_shift (M : positive) (ex : Z) (d : positive) :
  Z.pos (digits2_pos M) = 53 + Z.pos d ->
  -1074 <= ex + Z.pos d <= 970 ->
  let q := Z.pos M / 2 ^ Z.pos d in
  exists m' : positive,
    (Z.pos m' = q \/ Z.pos m' = q + 1)
    /\ binary_round_aux prec emax false (Z.pos M) ex loc_Exact
       = if Z.pos m' <? 2 ^ 53 then S754_finite false m' (ex + Z.pos d)
         else S754_finite false (2 ^ 52) (ex + Z.pos d + 1).
Proof.
  intros Hd He q.
  assert (Hq : 2 ^ 52 <= q < 2 ^ 53).
  { pose proof (digits2_pos_log2 M) as HM. rewrite Hd in HM.
    assert (HL : Z.log2 (Z.pos M) = 52 + Z.pos d) by lia.
    pose proof (Z.log2_spec (Z.pos M) ltac:(lia)) as HS. rewrite HL in HS.
    replace (Z.succ (52 + Z.pos d)) with (53 + Z.pos d) in HS by lia.
    rewrite !Z.pow_add_r in HS by lia.
    subst q. split.
    - apply Z.div_le_lower_bound; lia.
    - apply Z.div_lt_upper_bound; lia. }
  unfold binary_round_aux.
  unfold shr_fexp at 1. cbn [Zdigits2]. rewrite Hd.
  replace (fexp prec emax (53 + Z.pos d + ex) - ex) with (Z.pos d)
    by (unfold fexp, SpecFloat.emin, prec, emax; lia).
  cbn [shr shr_record_of_loc].
  set (mrs := iter_pos shr_1 d _).
  assert (Hm : shr_m mrs = q).
  { subst mrs. rewrite iter_shr_1_m; cbn [shr_m]; [reflexivity | lia]. }
  set (r := round_nearest_even (shr_m mrs) (loc_of_shr_record mrs)).
  assert (Hr : r = q \/ r = q + 1).
  { subst r. rewrite <- Hm. apply round_nearest_even_cases. }
  clearbody r.
  assert (Hpos : exists m' : positive, r = Z.pos m').
  { destruct r; [lia | eauto | lia]. }
  destruct Hpos as [m' Em']. exists m'. rewrite <- Em'.
  split; [exact Hr |].
  destruct (r <? 2 ^ 53) eqn:Hlt.
  - apply Z.ltb_lt in Hlt. rewrite Em'. unfold shr_fexp. cbn [Zdigits2].
    rewrite (digits2_pos_bounds m' 53) by lia.
    replace (fexp prec emax (53 + (ex + Z.pos d)) - (ex + Z.pos d)) with 0
      by (unfold fexp, SpecFloat.emin, prec, emax; lia).
    cbn [shr shr_record_of_loc shr_m].
    replace (ex + Z.pos d <=? emax - prec) with true
      by (symmetry; apply Z.leb_le; unfold prec, emax; lia).
    reflexivity.
  - apply Z.ltb_ge in Hlt.
    assert (E : r = 2 ^ 53) by lia.
    rewrite E. unfold shr_fexp.
    change (Zdigits2 (2 ^ 53)) with 54.
    replace (fexp prec emax (54 + (ex + Z.pos d)) - (ex + Z.pos d)) with 1
      by (unfold fexp, SpecFloat.emin, prec, emax; lia).
    cbn [shr].
    change (shr_m (iter_pos shr_1 1 (shr_record_of_loc (2 ^ 53) loc_Exact)))
      with (2 ^ 52).
    change (2 ^ 52) with (Z.pos (2 ^ 52)).
    replace (ex + Z.pos d + 1 <=? emax - prec) with true
      by (symmetry; apply Z.leb_le; unfold prec, emax; lia).
    reflexivity.
Qed.

Lemma SFleb_finite m1 e1 m2 e2 :
  SFleb (S754_finite false m1 e1) (S754_finite false m2 e2) = true ->
  e1 < e2 \/ (e1 = e2 /\ Z.pos m1 <= Z.pos m2).
Proof.
  unfold SFleb, SFcompare.
  change (Pos.compare_cont Eq m1 m2) with (m1 ?= m2)%positive.
  destruct (Z.compare_spec e1 e2); [| by left | discriminate].
  destruct (Pos.compare_spec m1 m2); [| | discriminate]; intros _; right; lia.
Qed.

(** A float in [0.4, 0.8] times 1000: the product is a finite float
    between 400 and 800, up to the rounding of the last digit. *)
Lemma scaled_target_product (t : float) :
  (0.4 <=? t)%float = true -> (t <=? 0.8)%float = true ->
  exists (m : positive) (e : Z),
    Prim2SF (t * 1000)%float = S754_finite false m e
    /\ ((e = -44 /\ 400 * 2 ^ 44 <= Z.pos m < 512 * 2 ^ 44)
        \/ (e = -43 /\ 512 * 2 ^ 43 <= Z.pos m <= 800 * 2 ^ 43 + 1)).
Proof.
  intros Hlo Hhi. rewrite leb_spec in Hlo, Hhi. rewrite mul_spec.
  pose proof (Prim2SF_valid t) as Hv.
  change (Prim2SF 0.4) with (S754_finite false 7205759403792794 (-54)) in Hlo.
  change (Prim2SF 0.8) with (S754_finite false 7205759403792794 (-53)) in Hhi.
  change (Prim2SF 1000) with (S754_finite false 8796093022208000 (-43)).
  destruct (Prim2SF t) as [s | s | | s m e]; try discriminate.
  { destruct s; discriminate. }
  destruct s; [discriminate |].
  apply SFleb_finite in Hlo, Hhi.
  assert (Hdigits : Z.pos (digits2_pos m) = 53 /\ (e = -54 \/ e = -53)).
  { unfold SpecFloat.valid_binary, bounded, canonical_mantissa in Hv.
    apply andb_true_iff in Hv as [Hv _]. apply Z.eqb_eq in Hv.
    unfold fexp, SpecFloat.emin, prec, emax in Hv. lia. }
  destruct Hdigits as [Hdigits He].
  assert (Hm : 2 ^ 52 <= Z.pos m < 2 ^ 53).
  { pose proof (digits2_pos_log2 m) as H.
    pose proof (Z.log2_spec (Z.pos m) ltac:(lia)) as HS.
    replace (Z.log2 (Z.pos m)) with 52 in HS by lia. exact HS. }
  unfold SF64mul, SFmul. cbn [xorb].
  set (M := (m * 8796093022208000)%positive).
  assert (EM : Z.pos M = Z.pos m * 8796093022208000) by (subst M; lia).
  destruct He as [-> | ->].
  - assert (H04 : 7205759403792794 <= Z.pos m) by lia.
    destruct (binary_round_aux_shift M (-54 + -43) 53) as (m' & Hm' & ->).
    { apply digits2_pos_bounds; lia. }
    { lia. }
    assert (Hq : 400 * 2 ^ 44 <= Z.pos M / 2 ^ 53 < 500 * 2 ^ 44).
    { split; [apply Z.div_le_lower_bound | apply Z.div_lt_upper_bound]; lia. }
    replace (Z.pos m' <? 2 ^ 53) with true by (symmetry; apply Z.ltb_lt; lia).
    exists m', (-44). split; [reflexivity |]. left. lia.
  - assert (H08 : Z.pos m <= 7205759403792794) by lia.
    destruct (Z.lt_ge_cases (Z.pos M) (2 ^ 105)) as [Hlt | Hge].
    + destruct (binary_round_aux_shift M (-53 + -43) 52) as (m' & Hm' & ->).
      { apply digits2_pos_bounds; lia. }
      { lia. }
      assert (Hq : 500 * 2 ^ 44 <= Z.pos M / 2 ^ 52 < 2 ^ 53).
      { split; [apply Z.div_le_lower_bound | apply Z.div_lt_upper_bound]; lia. }
      destruct (Z.pos m' <? 2 ^ 53) eqn:Hcarry.
      * apply Z.ltb_lt in Hcarry. exists m', (-44).
        split; [reflexivity |]. left. lia.
      * exists (2 ^ 52)%positive, (-43). split; [reflexivity |]. right. lia.
    + destruct (binary_round_aux_shift M (-53 + -43) 53) as (m' & Hm' & ->).
      { apply digits2_pos_bounds; lia. }
      { lia. }
      assert (Hq : 2 ^ 52 <= Z.pos M / 2 ^ 53 < 800 * 2 ^ 43 + 1).
      { split; [apply Z.div_le_lower_bound | apply Z.div_lt_upper_bound]; lia. }
      replace (Z.pos m' <? 2 ^ 53) with true by (symmetry; apply Z.ltb_lt; lia).
      exists m', (-43). split; [reflexivity |]. right. lia.
Qed.

(** [int()] of that product: the floor of the number it stands for,
    between 400 and 800. *)
Lemma scaled_target_int (t : float) :
  (0.4 <=? t)%float = true -> (t <=? 0.8)%float = true ->
  exists (n : Z) (v : Q),
    Binary64.int_of_float (t * 1000)%float = Returned n
    /\ Binary64.float_value (t * 1000)%float = Some v
    /\ n = Qfloor v
    /\ 400 <= n <= 800.
Proof.
  intros Hlo Hhi.
  destruct (scaled_target_product t Hlo Hhi) as (m & e & E & Hcases).
  unfold Binary64.int_of_float, Binary64.float_value. rewrite E.
  destruct Hcases as [[-> H] | [-> H]].
  - exists (Z.pos m / 2 ^ 44), (Z.pos m # 2 ^ 44)%Q.
    split; [reflexivity |]. split; [reflexivity |]. split; [reflexivity |].
    split; [apply Z.div_le_lower_bound; lia |].
    apply Z.lt_succ_r, Z.div_lt_upper_bound; lia.
  - exists (Z.pos m / 2 ^ 43), (Z.pos m # 2 ^ 43)%Q.
    split; [reflexivity |]. split; [reflexivity |]. split; [reflexivity |].
    split; [apply Z.div_le_lower_bound; lia |].
    apply Z.lt_succ_r, Z.div_lt_upper_bound; lia.
Qed.

End ScaledTarget.

(** ** The risk analysis and the responses *)


Section Binary64Claims.

Import Floats Binary64 FloatSamples.

#[local] Set Warnings "-inexact-float".

Variable lib : float_lib.

(** C5 fails on the code.  The analysis of a session whose telemetry
    holds the velocity 1e200, a number the endpoint accepts, raises
    OverflowError where the claim has a score.  Whenever an analysis
    returns, the claim holds of it: the score lies in [0, 100], is 100
    minus the points of the raised flags, clamped, [is_bot] holds exactly
    when it is below 60, and an analysis that raises all the flags of
    another one, and possibly more, never scores higher.  It always
    returns for a session with fewer than four trajectory points. *)
Theorem analyze_bot_risk_score :
  analyze_bot_risk plain_lib overflow_session = Raised "OverflowError"
  /\ (forall s r,
        analyze_bot_risk lib s = Returned r ->
        0 <= confidence_score r <= 100
        /\ confidence_score r = Z.max 0 (Z.min 100 (100 - total_points (flags r)))
        /\ (is_bot r = true <-> confidence_score r < 60)
        /\ forall s' r',
             analyze_bot_risk lib s' = Returned r' ->
             flags r ⊆ flags r' ->
             confidence_score r' <= confidence_score r)
  /\ (forall s, trajectory_short s -> exists r, analyze_bot_risk lib s = Returned r).
Proof.
  split; [vm_compute; reflexivity |].
  split; [| apply analysis_returns_without_trajectory].
  intros s r Hr.
  destruct (analysis_score lib s r Hr) as [Hsc Hnd].
  destruct (analysis_returned lib s r Hr) as (st & _ & _ & _ & Hbot).
  split; [lia |]. split; [exact Hsc |]. split.
  - rewrite Hbot. apply Z.ltb_lt.
  - intros s' r' Hr' Hsub.
    destruct (analysis_score lib s' r' Hr') as [Hsc' _].
    assert (Hle : total_points (flags r) <= total_points (flags r')).
    { apply total_points_submseteq, NoDup_submseteq; [exact Hnd | exact Hsub]. }
    lia.
Qed.

(** X21.  With two of the three telemetry parts missing, no analysis
    that returns says anything but bot: the score is at most 45, and the
    PoW difficulty for it is 19 or 22, never 15.  The analysis returns
    whenever the trajectory is one of the missing parts; with four points
    or more it may raise instead. *)
Theorem two_parts_missing_is_bot (s : CaptchaSession) :
  (fingerprint_missing s /\ trajectory_short s)
  \/ (fingerprint_missing s /\ behavior s = None)
  \/ (trajectory_short s /\ behavior s = None) ->
  (forall r, analyze_bot_risk lib s = Returned r ->
     confidence_score r <= 45 /\ is_bot r = true)
  /\ (forall d,
        compute_pow_difficulty lib (fingerprint s) (trajectory s) (behavior s)
        = Returned d ->
        pd_difficulty d >= 19)
  /\ (trajectory_short s ->
      exists r, analyze_bot_risk lib s = Returned r /\ confidence_score r <= 45).
Proof.
  intros H.
  assert (Hall : forall r, analyze_bot_risk lib s = Returned r ->
                           confidence_score r <= 45 /\ is_bot r = true).
  { intros r Hr.
    destruct (analysis_returned lib s r Hr) as (st & Hst & _ & Hsc & Hbot).
    assert (Hraw : snd st <= 45).
    { unfold run_rules in Hst.
      destruct (trajectory_part lib s (fingerprint_part s ([], 100)))
        as [st2 |] eqn:E2; cbn [Py.bind] in Hst; [| discriminate].
      injection Hst as <-.
      pose proof (reaches_lowers _ _ _
                    (fingerprint_part_reaches64 s _ _ _ (reaches_refl ([], 100))))
        as Hf. simpl in Hf.
      pose proof (reaches_lowers _ _ _
                    (trajectory_part_reaches64 lib s _ _ _ _
                       (reaches_refl (fingerprint_part s ([], 100))) E2)) as Ht.
      pose proof (reaches_lowers _ _ _
                    (behavior_part_reaches64 s _ _ _ (reaches_refl st2))) as Hb.
      assert (Cf : fingerprint_missing s ->
                   snd (fingerprint_part s ([], 100)) = 70).
      { unfold fingerprint_part. intros [-> | ->]; [reflexivity |].
        rewrite map_size_empty. reflexivity. }
      assert (Ct : trajectory_short s ->
                   snd st2 = snd (fingerprint_part s ([], 100)) - 30).
      { unfold trajectory_short. intros Hs. unfold trajectory_part in E2.
        destruct (trajectory s) as [traj |]; [| by injection E2 as <-].
        assert (E : negb (Py.len traj =? 0) && (4 <=? Py.len traj) = false).
        { unfold Py.len. destruct (4 <=? Z.of_nat (length traj)) eqn:E;
            [apply Z.leb_le in E; lia | apply andb_false_r]. }
        rewrite E in E2. by injection E2 as <-. }
      assert (Cb : behavior s = None -> snd (behavior_part s st2) = snd st2 - 25).
      { unfold behavior_part. by intros ->. }
      destruct H as [[H1 H2] | [[H1 H2] | [H1 H2]]].
      - specialize (Cf H1). specialize (Ct H2). lia.
      - specialize (Cf H1). specialize (Cb H2). lia.
      - specialize (Ct H1). specialize (Cb H2). lia. }
    split; [lia |]. rewrite Hbot. apply Z.ltb_lt. lia. }
  split; [exact Hall |]. split.
  - intros d Hd. unfold compute_pow_difficulty in Hd.
    change (analyze_bot_risk lib
              (mkCaptchaSession 0 (fingerprint s) (trajectory s) (behavior s)))
      with (analyze_bot_risk lib s) in Hd.
    destruct (analyze_bot_risk lib s) as [r |] eqn:Hr; cbn [Py.bind] in Hd;
      [| discriminate].
    destruct (Hall r eq_refl) as [Hsc _].
    destruct (70 <=? confidence_score r) eqn:E; [apply Z.leb_le in E; lia |].
    destruct (40 <=? confidence_score r); injection Hd as <-; simpl; lia.
  - intros Hs. destruct (analysis_returns_without_trajectory lib s Hs) as [r Hr].
    exists r. split; [exact Hr | by apply Hall].
Qed.

(** *** The coordinator *)

(** Past the PoW gate, [verify_captcha] is its image or video branch on
    the stores with the ledger [verify_pow] left. *)
Lemma verify_captcha_after_gate64 env st clk body cid :
  captcha_id body = Some cid ->
  pow_gate_passed env st clk body = true ->
  exists slider ledger,
    slider_value body = Some slider
    /\ verify_captcha lib env st clk body
       = let st1 := mkStores (captcha_sessions st) (video_captcha_sessions st) ledger in
         if is_video body then verify_video lib st1 cid slider body
         else verify_image lib st1 cid slider body.
Proof.
  intros Hid Hgate. unfold pow_gate_passed in Hgate. unfold verify_captcha.
  rewrite Hid.
  destruct (slider_value body) as [slider |]; [| discriminate].
  destruct (pow_salt body), (pow_nonce body), (pow_difficulty body),
    (pow_timestamp body), (pow_signature body); try discriminate.
  destruct (verify_pow _ _ _ _ _ _ _ _) as [[[msg |] | e] ledger];
    try discriminate.
  exists slider, ledger. split; [reflexivity |]. reflexivity.
Qed.

(** The image branch, by what its two calls return. *)
Lemma verify_image_outcome st1 cid slider body session :
  captcha_sessions st1 !! cid = Some session ->
  let session' := attach_telemetry session (body_fingerprint body)
                    (parsed_trajectory body) (parsed_behavior body) in
  fst (verify_image lib st1 cid slider body)
  = Py.bind (puzzle_solved slider (solved_value session') 3) (fun ok =>
    Py.bind (analyze_bot_risk lib session') (fun a =>
    Returned (mkResponse (ok && negb (is_bot a)) (Some a) None))).
Proof.
  intros Hs session'. unfold verify_image. rewrite Hs. cbv zeta.
  fold session'.
  destruct (puzzle_solved slider (solved_value session') 3) as [ok |];
    [| reflexivity].
  cbn [Py.bind]. destruct (analyze_bot_risk lib session'); reflexivity.
Qed.

(** The video branch, by what its three calls return. *)
Lemma verify_video_outcome st1 cid slider body ch :
  video_captcha_sessions st1 !! cid = Some ch ->
  fst (verify_video lib st1 cid slider body)
  = Py.bind (float_of_slider slider) (fun x =>
    Py.bind (temp_session (secret_target ch) (body_fingerprint body)
               (parsed_trajectory body) (parsed_behavior body)) (fun session =>
    Py.bind (analyze_bot_risk lib session) (fun a =>
    Returned
      (mkResponse
         ((abs (secret_target ch - py_max 0 (py_min 1 (x / 1000))) <=? 0.03)%float
          && negb (is_bot a))
         (Some a) None)))).
Proof.
  intros Hs. unfold verify_video. rewrite Hs.
  destruct (float_of_slider slider) as [x |]; [| reflexivity].
  cbn [Py.bind]. cbv zeta.
  destruct (temp_session _ _ _ _) as [session |]; [| reflexivity].
  cbn [Py.bind]. destruct (analyze_bot_risk lib session); reflexivity.
Qed.


(** C8, as the code has it.  In video mode, for every stored target in
    [0.4, 0.8], the synthetic session is made and its [solved_value] is
    [int(target * 1000)]: the binary64 product of the target and 1000,
    cut down to a whole number.  It lies in [400, 800] and is the
    nearest integer to the product or the one below it.  The analysis
    in a response is that of this session, and there is a response
    whenever the slider value converts to a float and the analysis
    returns. *)
Theorem video_solved_value_truncates env st clk body cid slider
    (ch : video_challenge) :
  captcha_id body = Some cid -> slider_value body = Some slider ->
  is_video body = true ->
  pow_gate_passed env st clk body = true ->
  video_captcha_sessions st !! cid = Some ch ->
  (0.4 <=? secret_target ch)%float = true ->
  (secret_target ch <=? 0.8)%float = true ->
  let product := (secret_target ch * 1000)%float in
  let out := fst (verify_captcha lib env st clk body) in
  exists session v,
    temp_session (secret_target ch) (body_fingerprint body)
      (parsed_trajectory body) (parsed_behavior body) = Returned session
    /\ int_of_float product = Returned (solved_value session)
    /\ float_value product = Some v
    /\ solved_value session = Qfloor v
    /\ 400 <= solved_value session <= 800
    /\ round_nearest v - 1 <= solved_value session <= round_nearest v
    /\ (forall resp, out = Returned resp ->
          exists a, analyze_bot_risk lib session = Returned a
                    /\ analysis resp = Some a)
    /\ (forall x a, float_of_slider slider = Returned x ->
          analyze_bot_risk lib session = Returned a ->
          exists resp, out = Returned resp /\ analysis resp = Some a).
Proof.
  intros Hid Hs Hmode Hgate Hch Hlo Hhi product out.
  destruct (verify_captcha_after_gate64 env st clk body cid Hid Hgate)
    as (slider' & ledger & Hs' & E).
  rewrite Hs in Hs'. injection Hs' as <-.
  destruct (scaled_target_int (secret_target ch) Hlo Hhi)
    as (n & v & Hn & Hv & Hfloor & Hrange).
  fold product in Hn, Hv.
  set (session := mkCaptchaSession n (body_fingerprint body)
                    (Some (parsed_trajectory body)) (parsed_behavior body)).
  assert (Hmade : temp_session (secret_target ch) (body_fingerprint body)
                    (parsed_trajectory body) (parsed_behavior body)
                  = Returned session).
  { unfold temp_session. fold product. rewrite Hn. reflexivity. }
  assert (Eout : out
            = Py.bind (float_of_slider slider) (fun x =>
              Py.bind (analyze_bot_risk lib session) (fun a =>
              Returned
                (mkResponse
                   ((abs (secret_target ch - py_max 0 (py_min 1 (x / 1000)))
                     <=? 0.03)%float && negb (is_bot a))
                   (Some a) None)))).
  { subst out. rewrite E, Hmode. cbv zeta.
    rewrite (verify_video_outcome _ cid slider body ch) by exact Hch.
    rewrite Hmade. reflexivity. }
  exists session, v. cbn [solved_value session].
  split; [exact Hmade |]. split; [exact Hn |]. split; [exact Hv |].
  split; [exact Hfloor |]. split; [exact Hrange |].
  split; [pose proof (round_nearest_floor v); lia |].
  split.
  - intros resp Hresp. rewrite Eout in Hresp.
    destruct (float_of_slider slider) as [x |]; cbn [Py.bind] in Hresp;
      [| discriminate].
    destruct (analyze_bot_risk lib session) as [r |]; cbn [Py.bind] in Hresp;
      [| discriminate].
    injection Hresp as <-. exists r. done.
  - intros x a Hx Ha. rewrite Eout, Hx. cbn [Py.bind].
    rewrite Ha. cbn [Py.bind]. eexists. split; reflexivity.
Qed.

(** X17.  Image mode past the PoW gate with a live session.  The session
    is gone afterwards, whether the request is answered or raises.  A
    response says success exactly when the puzzle check holds and the
    analysis of the session with the submitted telemetry scores 60 or
    more; for a whole-number slider the check is |slider - answer| <= 3,
    bounds included, and the request is answered whenever the analysis
    returns; a slider value that is a string, a list or an object raises
    TypeError. *)
Theorem image_success_criterion env st clk body cid slider session :
  captcha_id body = Some cid -> slider_value body = Some slider ->
  is_video body = false ->
  pow_gate_passed env st clk body = true ->
  captcha_sessions st !! cid = Some session ->
  let session' := attach_telemetry session (body_fingerprint body)
                    (parsed_trajectory body) (parsed_behavior body) in
  let out := verify_captcha lib env st clk body in
  captcha_sessions (snd out) !! cid = None
  /\ (forall resp, fst out = Returned resp ->
        exists ok a,
          puzzle_solved slider (solved_value session) 3 = Returned ok
          /\ analyze_bot_risk lib session' = Returned a
          /\ analysis resp = Some a
          /\ (success resp = true <-> ok = true /\ 60 <= confidence_score a))
  /\ (forall n a, slider = SInt n ->
        analyze_bot_risk lib session' = Returned a ->
        exists resp,
          fst out = Returned resp
          /\ (success resp = true
              <-> Z.abs (n - solved_value session) <= 3
                  /\ 60 <= confidence_score a))
  /\ (forall e, analyze_bot_risk lib session' = Raised e ->
        (exists ok, puzzle_solved slider (solved_value session) 3 = Returned ok) ->
        fst out = Raised e)
  /\ ((slider = SOther \/ exists s f, slider = SStr s f) ->
      fst out = Raised "TypeError").
Proof.
  intros Hid Hs Hmode Hgate Hsess session' out.
  destruct (verify_captcha_after_gate64 env st clk body cid Hid Hgate)
    as (slider' & ledger & Hs' & E).
  rewrite Hs in Hs'. injection Hs' as <-.
  rewrite Hmode in E. cbv zeta in E.
  assert (Eout : fst out
            = Py.bind (puzzle_solved slider (solved_value session) 3) (fun ok =>
              Py.bind (analyze_bot_risk lib session') (fun a =>
              Returned (mkResponse (ok && negb (is_bot a)) (Some a) None)))).
  { subst out. rewrite E.
    by rewrite (verify_image_outcome _ cid slider body session). }
  assert (Hbot : forall a, analyze_bot_risk lib session' = Returned a ->
                           negb (is_bot a) = true <-> 60 <= confidence_score a).
  { intros a Ha.
    destruct (analysis_returned lib _ _ Ha) as (_ & _ & _ & _ & ->).
    rewrite negb_true_iff, Z.ltb_ge. reflexivity. }
  split; [| split; [| split; [| split]]].
  - subst out. rewrite E. unfold verify_image. cbn [captcha_sessions].
    rewrite Hsess. cbv zeta.
    destruct (puzzle_solved _ _ _); [destruct (analyze_bot_risk lib _) |];
      cbn [snd captcha_sessions]; apply lookup_delete_eq.
  - intros resp Hresp. rewrite Eout in Hresp.
    destruct (puzzle_solved _ _ _) as [ok |]; cbn [Py.bind] in Hresp;
      [| discriminate].
    destruct (analyze_bot_risk lib session') as [a |] eqn:Ha;
      cbn [Py.bind] in Hresp; [| discriminate].
    injection Hresp as <-. exists ok, a. cbn [success analysis].
    split; [reflexivity |]. split; [reflexivity |]. split; [reflexivity |].
    rewrite andb_true_iff, (Hbot a eq_refl). reflexivity.
  - intros n a -> Ha. rewrite Eout. cbn [puzzle_solved Py.bind].
    rewrite Ha. cbn [Py.bind]. eexists. split; [reflexivity |].
    cbn [success]. rewrite andb_true_iff, (Hbot a Ha), Z.leb_le. reflexivity.
  - intros e Ha [ok Hok]. rewrite Eout, Hok. cbn [Py.bind]. by rewrite Ha.
  - intros [-> | (s & f & ->)]; rewrite Eout; reflexivity.
Qed.

(** X18.  Video mode past the PoW gate with a live session.  A response
    says success exactly when the submitted position, as a float divided
    by 1000 and cut to [0, 1], is within 0.03 of the target by the float
    comparison [abs(target - submitted) <= 0.03], and the analysis does
    not say bot.  A success removes the session; a failure and an
    exception leave it, so it can be tried again; the image sessions are
    never touched. *)
Theorem video_attempt_outcome env st clk body cid slider ch :
  captcha_id body = Some cid -> slider_value body = Some slider ->
  is_video body = true ->
  pow_gate_passed env st clk body = true ->
  video_captcha_sessions st !! cid = Some ch ->
  let out := verify_captcha lib env st clk body in
  (forall resp, fst out = Returned resp ->
     exists x session a,
       float_of_slider slider = Returned x
       /\ temp_session (secret_target ch) (body_fingerprint body)
            (parsed_trajectory body) (parsed_behavior body) = Returned session
       /\ analyze_bot_risk lib session = Returned a
       /\ analysis resp = Some a
       /\ (success resp = true
           <-> (abs (secret_target ch - py_max 0 (py_min 1 (x / 1000)))
                <=? 0.03)%float = true
               /\ is_bot a = false)
       /\ video_captcha_sessions (snd out)
          = if success resp then delete cid (video_captcha_sessions st)
            else video_captcha_sessions st)
  /\ (forall e, fst out = Raised e ->
        video_captcha_sessions (snd out) = video_captcha_sessions st)
  /\ captcha_sessions (snd out) = captcha_sessions st.
Proof.
  intros Hid Hs Hmode Hgate Hch out.
  destruct (verify_captcha_after_gate64 env st clk body cid Hid Hgate)
    as (slider' & ledger & Hs' & E).
  rewrite Hs in Hs'. injection Hs' as <-.
  rewrite Hmode in E. cbv zeta in E.
  subst out. rewrite E. unfold verify_video. cbn [video_captcha_sessions].
  rewrite Hch.
  destruct (float_of_slider slider) as [x |];
    [| split; [discriminate | split; [reflexivity | reflexivity]]].
  cbv zeta.
  destruct (temp_session _ _ _ _) as [session |];
    [| split; [discriminate | split; [reflexivity | reflexivity]]].
  destruct (analyze_bot_risk lib session) as [a |] eqn:Ea;
    [| split; [discriminate | split; [reflexivity | reflexivity]]].
  cbn [fst snd]. split; [| split].
  - intros resp [= <-]. exists x, session, a. cbn [success analysis].
    split; [reflexivity |]. split; [reflexivity |]. split; [exact Ea |].
    split; [reflexivity |]. split.
    + rewrite andb_true_iff, negb_true_iff. reflexivity.
    + destruct (_ && _); reflexivity.
  - discriminate.
  - destruct (_ && _); reflexivity.
Qed.

End Binary64Claims.

(** ** Instances on binary64 floats *)

Section Binary64Instances.

Import Floats Binary64 FloatSamples.

#[local] Set Warnings "-inexact-float".

Lemma demo_gate_passed64 (st : stores) (cid : string) (slider : slider_json)
    (m : option string) :
  pow_used_nonces st = ∅ ->
  pow_gate_passed reference_env st first_clock (demo_body cid slider m) = true.
Proof.
  intros E. unfold pow_gate_passed, demo_body.
  cbn [slider_value pow_salt pow_nonce pow_difficulty pow_timestamp pow_signature].
  rewrite E, demo_first_call_accepted. reflexivity.
Defined.



(** C8 as stated fails: for the target 0.59375, which lies in
    [0.4, 0.8], the product with 1000 is 593.75 exactly, the synthetic
    session has [solved_value] 593, and the nearest integer is 594. *)
Lemma video_solved_value_not_rounded :
  (0.4 <=? 0.59375)%float = true /\ (0.59375 <=? 0.8)%float = true
  /\ (exists v, float_value (0.59375 * 1000)%float = Some v
                /\ (v == 2375 # 4)%Q /\ round_nearest v = 594)
  /\ temp_session 0.59375 None [] None
     = Returned (mkCaptchaSession 593 None (Some []) None).
Proof.
  split; [vm_compute; reflexivity |].
  split; [vm_compute; reflexivity |].
  split; [| vm_compute; reflexivity].
  eexists. split; [vm_compute; reflexivity |].
  split; vm_compute; reflexivity.
Qed.

(** The float next to 0.6 lies below 0.6, but its product with 1000
    rounds to 600. *)
Example scaled_target_06 :
  temp_session 0.6 None [] None
  = Returned (mkCaptchaSession 600 None (Some []) None).
Proof. vm_compute. reflexivity. Qed.

(** The session made for the target 0.59375 has the floor of 593.75. *)
Lemma video_solved_value_truncates_witness :
  exists session,
    temp_session 0.59375 (Some human_fingerprint) human_trajectory
      (Some human_behavior) = Returned session
    /\ solved_value session = 593.
Proof.
  pose proof (video_solved_value_truncates plain_lib reference_env
                one_video_session first_clock
                (demo_body "vid-1" (SInt 594) (Some "video")) "vid-1" (SInt 594)
                (mkVideoChallenge 10 20 30 40 216 0.59375 0)
                eq_refl eq_refl eq_refl
                (demo_gate_passed64 one_video_session _ _ _ eq_refl)
                eq_refl eq_refl eq_refl) as H.
  cbv zeta in H. destruct H as (session & v & Hmade & Hint & _).
  exists session. split; [exact Hmade |].
  revert Hint. vm_compute int_of_float. by intros [= <-].
Defined.

(** The answer 44 on the session whose answer is 42, with the telemetry
    of a human, is accepted. *)
Lemma image_success_criterion_witness :
  exists resp,
    fst (verify_captcha plain_lib reference_env one_image_session first_clock
           (demo_body "img-1" (SInt 44) None)) = Returned resp
    /\ success resp = true.
Proof.
  pose proof (image_success_criterion plain_lib reference_env one_image_session
                first_clock (demo_body "img-1" (SInt 44) None) "img-1" (SInt 44)
                (mkCaptchaSession 42 None None None)
                eq_refl eq_refl eq_refl (demo_gate_passed64 one_image_session _ _ _ eq_refl)
                eq_refl) as H.
  cbv zeta in H. destruct H as (_ & _ & H & _).
  assert (Ha : exists a,
             analyze_bot_risk plain_lib
               (attach_telemetry (mkCaptchaSession 42 None None None)
                  (Some human_fingerprint) human_trajectory (Some human_behavior))
             = Returned a /\ confidence_score a = 100).
  { eexists. split; vm_compute; reflexivity. }
  destruct Ha as (a & Ha & Hscore).
  destruct (H 44 a eq_refl Ha) as (resp & Hresp & Hsuccess).
  exists resp. split; [exact Hresp |].
  apply Hsuccess. rewrite Hscore. cbn [solved_value]. lia.
Defined.

(** The position 570 against the target 0.6: the float difference is
    just above 0.03, the attempt is refused and the session stays. *)
Lemma video_attempt_outcome_witness :
  let out := verify_captcha plain_lib reference_env video_session_06 first_clock
               (demo_body "vid-2" (SInt 570) (Some "video")) in
  exists resp,
    fst out = Returned resp
    /\ success resp = false
    /\ video_captcha_sessions (snd out) = video_captcha_sessions video_session_06.
Proof.
  intros out.
  pose proof (video_attempt_outcome plain_lib reference_env video_session_06
                first_clock (demo_body "vid-2" (SInt 570) (Some "video")) "vid-2"
                (SInt 570) (mkVideoChallenge 10 20 30 40 216 0.6 0)
                eq_refl eq_refl eq_refl (demo_gate_passed64 video_session_06 _ _ _ eq_refl)
                eq_refl) as H.
  cbv zeta in H. fold out in H. destruct H as (H & _ & _).
  assert (E : exists resp, fst out = Returned resp).
  { eexists. vm_compute. reflexivity. }
  destruct E as [resp E]. exists resp. split; [exact E |].
  destruct (H resp E) as (x & session & a & Hx & _ & _ & _ & Hsuccess & Hstore).
  assert (Hno : success resp = false).
  { destruct (success resp); [| reflexivity].
    destruct (proj1 Hsuccess eq_refl) as [Hcmp _].
    revert Hx Hcmp. vm_compute. intros [= <-]. vm_compute. discriminate. }
  split; [exact Hno |]. rewrite Hstore, Hno. reflexivity.
Defined.

(** No fingerprint and no trajectory, with the behavior of a human: the
    analysis returns, and scores 40. *)
Lemma two_parts_missing_is_bot_witness :
  exists r,
    analyze_bot_risk plain_lib (mkCaptchaSession 0 None None (Some human_behavior))
    = Returned r
    /\ confidence_score r <= 45.
Proof.
  pose proof (two_parts_missing_is_bot plain_lib
                (mkCaptchaSession 0 None None (Some human_behavior))) as H.
  destruct H as (_ & _ & H).
  - left. split; [by left | exact I].
  - apply H. exact I.
Defined.

End Binary64Instances.
